(** * cfo-copilot: the tool registry and the tool-calling loop

    A shallow embedding of [agent/tools.py] ([ToolRegistry]) and
    [agent/main_agent.py] ([MainAgent]) and the properties of the
    orchestration loop, schema adapter and tool dispatch.

    Python values are modelled by [pyval]; a Python [dict] is an
    association list in insertion order; an exception is a value of [exn]
    and a computation that may raise returns [py A].  The statements of the
    loop run in a state-and-exception monad whose state holds the locals
    that Python mutates in place ([messages], [execution_log],
    [iteration]), so a [raise] keeps what was appended before it.  The
    state also records, in order, the calls made to the model and to the
    registry.  A [str] is a byte string.  A [print] statement is a call to
    the console of the environment with the text that the code builds: it
    changes no local, and it raises when the console does. *)

From Stdlib Require Import List String Ascii ZArith Bool Arith Lia DecimalString.
Import ListNotations.
Open Scope string_scope.

(* ------------------------------------------------------------------ *)
(** ** Python values *)

#[local] Set Warnings "-register-all".

Inductive pyval : Type :=
| PyNone
| PyBool (b : bool)
| PyInt (z : Z)
| PyFloat (repr : string)        (* a float, carried by its repr; no arithmetic is modelled *)
| PyStr (s : string)
| PyList (l : list pyval)
| PyDict (d : list (string * pyval))
| PyObj (type_name : string).    (* any other object: a DataFrame, a set, a numpy scalar... *)

Definition pydict := list (string * pyval).

(** [type(v).__name__] *)
Definition type_name_of (v : pyval) : string :=
  match v with
  | PyNone => "NoneType"
  | PyBool _ => "bool"
  | PyInt _ => "int"
  | PyFloat _ => "float"
  | PyStr _ => "str"
  | PyList _ => "list"
  | PyDict _ => "dict"
  | PyObj t => t
  end.

(** [bool(v)] *)
Definition truthy (v : pyval) : bool :=
  match v with
  | PyNone => false
  | PyBool b => b
  | PyInt z => negb (Z.eqb z 0)
  | PyFloat r => negb (orb (r =? "0.0") (r =? "-0.0"))
  | PyStr s => negb (s =? "")
  | PyList l => match l with [] => false | _ => true end
  | PyDict d => match d with [] => false | _ => true end
  | PyObj _ => true
  end.

(** *** dict operations, on association lists in insertion order *)

Section Dict.
Context {V : Type}.

(** [d.get(k)]: [None] when the key is absent *)
Fixpoint dict_get (d : list (string * V)) (k : string) : option V :=
  match d with
  | [] => None
  | (k', v) :: d' => if k' =? k then Some v else dict_get d' k
  end.

(** [k in d] *)
Definition dict_mem (d : list (string * V)) (k : string) : bool :=
  match dict_get d k with Some _ => true | None => false end.

(** [d[k] = v]: an existing key keeps its position *)
Fixpoint dict_set (d : list (string * V)) (k : string) (v : V) : list (string * V) :=
  match d with
  | [] => [(k, v)]
  | (k', v') :: d' => if k' =? k then (k', v) :: d' else (k', v') :: dict_set d' k v
  end.

(** [list(d.keys())] *)
Definition dict_keys (d : list (string * V)) : list string := map fst d.
End Dict.

(** [d.get(k, default)] *)
Definition dict_get_default (d : pydict) (k : string) (default : pyval) : pyval :=
  match dict_get d k with Some v => v | None => default end.

(** the keys of a dict are pairwise distinct *)
Fixpoint distinct (l : list string) : bool :=
  match l with
  | [] => true
  | x :: l' => negb (existsb (String.eqb x) l') && distinct l'
  end.

(* ------------------------------------------------------------------ *)
(** ** [repr] of a [str] and of a list of [str]
    (exact on ASCII text; bytes above 127 are kept as they are) *)

Definition dquote : ascii := ascii_of_nat 34.
Definition squote : ascii := ascii_of_nat 39.
Definition backslash : ascii := ascii_of_nat 92.
Definition dq : string := String dquote "".

Fixpoint contains_char (c : ascii) (s : string) : bool :=
  match s with
  | EmptyString => false
  | String c' s' => Ascii.eqb c c' || contains_char c s'
  end.

Definition hex_digit (n : nat) : ascii :=
  nth n ["0"; "1"; "2"; "3"; "4"; "5"; "6"; "7"; "8"; "9";
         "a"; "b"; "c"; "d"; "e"; "f"]%char "0"%char.

Definition repr_char (quote c : ascii) : string :=
  let n := nat_of_ascii c in
  if Ascii.eqb c backslash then String backslash (String backslash "")
  else if Ascii.eqb c quote then String backslash (String quote "")
  else if (n =? 10)%nat then String backslash "n"
  else if (n =? 13)%nat then String backslash "r"
  else if (n =? 9)%nat then String backslash "t"
  else if ((n <? 32) || (n =? 127))%nat then
    String backslash (String "x" (String (hex_digit (n / 16)) (String (hex_digit (n mod 16)) "")))
  else String c "".

Fixpoint repr_chars (quote : ascii) (s : string) : string :=
  match s with
  | EmptyString => ""
  | String c s' => repr_char quote c ++ repr_chars quote s'
  end.

(** [repr(s)]: single quotes, unless [s] holds a single and no double quote *)
Definition repr_str (s : string) : string :=
  let quote := if contains_char squote s && negb (contains_char dquote s)
               then dquote else squote in
  String quote (repr_chars quote s ++ String quote "").

Fixpoint join (sep : string) (l : list string) : string :=
  match l with
  | [] => ""
  | [x] => x
  | x :: l' => x ++ sep ++ join sep l'
  end.

(** [repr(l)] for a list of [str] *)
Definition repr_str_list (l : list string) : string :=
  "[" ++ join ", " (map repr_str l) ++ "]".

(* ------------------------------------------------------------------ *)
(** ** Exceptions *)

Inductive exn : Type :=
| KeyError (key : string)
| TypeError (msg : string)
| ValueError (msg : string)
| JSONDecodeError (msg : string)      (* [json.JSONDecodeError], a [ValueError] *)
| RecursionError (msg : string)
| UnicodeEncodeError (msg : string)   (* a [ValueError] *)
| Exception (msg : string).      (* [Exception(msg)], and any other subclass by its message *)

(** [str(e)] *)
Definition str_exn (e : exn) : string :=
  match e with
  | KeyError k => repr_str k
  | TypeError m | ValueError m | JSONDecodeError m | RecursionError m
  | UnicodeEncodeError m | Exception m => m
  end.

(** the outcome of a Python expression or call *)
Inductive py (A : Type) : Type :=
| Return (a : A)
| Raise (e : exn).
Arguments Return {A} a.
Arguments Raise {A} e.

Definition py_bind {A B} (c : py A) (k : A -> py B) : py B :=
  match c with
  | Return a => k a
  | Raise e => Raise e
  end.

(** [try: body  except Exception as e: handler(e)] *)
Definition try_except {A} (body : py A) (handler : exn -> py A) : py A :=
  match body with
  | Return a => Return a
  | Raise e => handler e
  end.

(** [try: body  except json.JSONDecodeError as e: handler(e)]: any other
    exception passes *)
Definition try_except_JSONDecodeError {A} (body : py A) (handler : exn -> py A) : py A :=
  match body with
  | Raise (JSONDecodeError msg) => handler (JSONDecodeError msg)
  | outcome => outcome
  end.

Declare Scope py_scope.
Delimit Scope py_scope with py.
Notation "x <- c ;; k" := (py_bind c (fun x => k))
  (at level 61, c at next level, right associativity) : py_scope.
Notation "c ;; k" := (py_bind c (fun _ => k))
  (at level 61, right associativity) : py_scope.

(* ------------------------------------------------------------------ *)
(** ** Text *)

(** the newline character *)
Definition nl : string := String (ascii_of_nat 10) "".

(** [s * n] *)
Fixpoint repeat_string (s : string) (n : nat) : string :=
  match n with
  | 0 => ""
  | S n' => s ++ repeat_string s n'
  end.

(** [str(n)] for a counter *)
Definition decimal (n : nat) : string := NilZero.string_of_uint (Nat.to_uint n).

(** [enumerate(l, start)] *)
Fixpoint enumerate_from {A} (start : nat) (l : list A) : list (nat * A) :=
  match l with
  | [] => []
  | x :: l' => (start, x) :: enumerate_from (S start) l'
  end.

(** [enumerate(l)] *)
Definition enumerate {A} (l : list A) : list (nat * A) := enumerate_from 0 l.

(* ------------------------------------------------------------------ *)
(** ** tools.py *)

(** A callable: its name and what a call with keyword arguments does.
    A call whose keywords do not fit the signature raises [TypeError]
    from [call] itself. *)
Record pyfunc : Type := {
  qualname : string;
  call : list (string * pyval) -> py pyval
}.

(** the call of [f] with the mapping [parameters] unpacked as keyword arguments *)
Definition call_kwargs (f : pyfunc) (parameters : pyval) : py pyval :=
  match parameters with
  | PyDict kwargs => call f kwargs
  | v => Raise (TypeError (qualname f ++ "() argument after ** must be a mapping, not "
                           ++ type_name_of v))
  end.

(** An entry of [self.tools]: a dict that may hold the keys ["function"],
    ["description"] and ["parameters"]. *)
Record tool_info : Type := {
  function : option pyfunc;
  description : option string;
  parameters : option (list (string * string))
}.

(** [tool_info[key]] *)
Definition subscript {A} (field : option A) (key : string) : py A :=
  match field with
  | Some a => Return a
  | None => Raise (KeyError key)
  end.

Record ToolRegistry : Type := {
  fixtures_path : string;
  temp_path : string;
  tools : list (string * tool_info)
}.

(** [ToolRegistry.__init__]; the three handlers read CSV files through
    pandas and are taken as given. *)
Definition ToolRegistry_init (explore_csv extract_csv_data create_chart : pyfunc)
    (fixtures_path temp_path : string) : ToolRegistry :=
  {| fixtures_path := fixtures_path;
     temp_path := temp_path;
     tools :=
       [ ("explore_csv",
          {| function := Some explore_csv;
             description := Some "Explore the structure and content of a CSV file, including data types, unique values, and example data. Use this first to understand what data is available.";
             parameters := Some
               [ ("csv_name", "Name of the CSV file (e.g., 'actuals.csv', 'budget.csv', 'fx.csv', 'cash.csv')") ] |});
         ("extract_csv_data",
          {| function := Some extract_csv_data;
             description := Some "Extract rows from a CSV file based on specified filter conditions. Returns filtered data with a sample preview. The filters parameter must be a JSON string.";
             parameters := Some
               [ ("csv_name", "CSV file to load from (e.g., 'actuals.csv', 'budget.csv')");
                 ("filters",
                  "JSON string of column-value filters to apply. Example: '{" ++ dq ++ "month" ++ dq
                  ++ ": " ++ dq ++ "2023-01" ++ dq ++ ", " ++ dq ++ "account_category" ++ dq ++ ": "
                  ++ dq ++ "Revenue" ++ dq ++ "}' or '{" ++ dq ++ "entity" ++ dq ++ ": [" ++ dq
                  ++ "Entity A" ++ dq ++ ", " ++ dq ++ "Entity B" ++ dq
                  ++ "]}' for multiple values") ] |});
         ("create_chart",
          {| function := Some create_chart;
             description := Some "Prepare chart configuration (bar, line, pie, area, or scatter) from data. Returns chart config for visualization.";
             parameters := Some
               [ ("data", "JSON string containing the dataframe data to visualize");
                 ("chart_type", "Type of chart: 'bar', 'line', 'pie', 'area', or 'scatter'");
                 ("x_column", "Column name of dataframe data to use for the X-axis or categories");
                 ("y_column", "Column name of dataframe data to use for the Y-axis or values") ] |}) ] |}.

(** [ToolRegistry.execute_tool] *)
Definition execute_tool (self : ToolRegistry) (tool_name : string) (parameters : pyval)
    : py pydict :=
  if negb (dict_mem (tools self) tool_name) then
    Return
      [ ("success", PyBool false);
        ("error", PyStr ("Tool '" ++ tool_name ++ "' not found. Available tools: "
                         ++ repr_str_list (dict_keys (tools self)))) ]
  else
    try_except
      (info <- subscript (dict_get (tools self) tool_name) tool_name ;;
       f <- subscript (function info) "function" ;;
       result <- call_kwargs f parameters ;;
       Return [ ("success", PyBool true); ("result", result) ])%py
      (fun e =>
         Return
           [ ("success", PyBool false);
             ("error", PyStr (str_exn e));
             ("tool", PyStr tool_name);
             ("parameters", parameters) ]).

(* ------------------------------------------------------------------ *)
(** ** main_agent.py: data *)

(** A tool call of a model response: [tool_call.id],
    [tool_call.function.name], [tool_call.function.arguments]. *)
Record tool_call : Type := {
  id : string;
  function_name : string;
  function_arguments : string
}.

(** [chat_completion.choices[0].message] *)
Record response_message : Type := {
  content : option string;
  tool_calls : option (list tool_call)
}.

(** An element of [messages]. *)
Inductive message : Type :=
| RoleMsg (role content : string)                 (* {"role": role, "content": content} *)
| AssistantMsg (response : response_message)      (* the response object, appended as it is *)
| ToolMsg (tool_call_id name content : string).   (* {"role": "tool", "tool_call_id": ..., ...} *)

(** The keyword arguments of [self.client.chat.completions.create]. *)
Record completion_request : Type := {
  req_messages : list message;
  req_model : string;
  req_tools : list pyval;
  req_tool_choice : string;
  req_temperature : pyval;
  req_max_tokens : Z
}.

(** The client: one call returns the message of the first choice or raises. *)
Record Groq : Type := {
  chat_completions_create : completion_request -> py response_message
}.

Record MainAgent : Type := {
  model : string;
  tool_registry : ToolRegistry;
  conversation_history : list message;
  client : Groq
}.

(** An element of [execution_log]. *)
Record log_entry : Type := {
  tool : string;
  arguments : pyval;
  result : pydict
}.

(** The dict [process_query] returns.  [chart_data = None] stands for a
    dict without the key ["chart_data"]; [Some PyNone] for the key bound to
    [None].  [answer = None] is Python's [None] (a final message without
    content). *)
Record agent_result : Type := {
  answer : option string;
  chart_data : option pyval;
  execution_log : list log_entry;
  success : bool;
  iterations : nat
}.

(** What the loop asks of the outside world, in the order it asks. *)
Inductive event : Type :=
| ModelCall (req : completion_request)
| ToolExec (tool_name : string) (tool_args : pyval).

(** The locals of [process_query] that the loop updates, and the record
    of the calls made so far. *)
Record state : Type := {
  st_messages : list message;
  st_iteration : nat;
  st_execution_log : list log_entry;
  st_trace : list event
}.

(* ------------------------------------------------------------------ *)
(** ** Statements: state that survives a raise *)

Definition M (A : Type) : Type := state -> py A * state.

Definition ret {A} (a : A) : M A := fun s => (Return a, s).

Definition bind {A B} (c : M A) (k : A -> M B) : M B :=
  fun s => match c s with
           | (Return a, s') => k a s'
           | (Raise e, s') => (Raise e, s')
           end.

Definition lift {A} (c : py A) : M A := fun s => (c, s).

Definition gets {A} (f : state -> A) : M A := fun s => (Return (f s), s).

Definition modify (f : state -> state) : M unit := fun s => (Return tt, f s).

(** [try: body  except Exception as e: handler(e)] *)
Definition try_exceptM {A} (body : M A) (handler : exn -> M A) : M A :=
  fun s => match body s with
           | (Return a, s') => (Return a, s')
           | (Raise e, s') => handler e s'
           end.

Declare Scope M_scope.
Delimit Scope M_scope with M.
Notation "x <- c ;; k" := (bind c (fun x => k))
  (at level 61, c at next level, right associativity) : M_scope.
Notation "c ;; k" := (bind c (fun _ => k))
  (at level 61, right associativity) : M_scope.

(** [for x in l: body(x)] *)
Fixpoint for_each {A} (l : list A) (body : A -> M unit) : M unit :=
  match l with
  | [] => ret tt
  | x :: l' => (body x ;; for_each l' body)%M
  end.

(** [messages.append(m)] *)
Definition messages_append (m : message) : M unit :=
  modify (fun s => {| st_messages := st_messages s ++ [m];
                      st_iteration := st_iteration s;
                      st_execution_log := st_execution_log s;
                      st_trace := st_trace s |}).

(** [execution_log.append(e)] *)
Definition execution_log_append (e : log_entry) : M unit :=
  modify (fun s => {| st_messages := st_messages s;
                      st_iteration := st_iteration s;
                      st_execution_log := st_execution_log s ++ [e];
                      st_trace := st_trace s |}).

(** [iteration += 1] *)
Definition iteration_incr : M unit :=
  modify (fun s => {| st_messages := st_messages s;
                      st_iteration := S (st_iteration s);
                      st_execution_log := st_execution_log s;
                      st_trace := st_trace s |}).

Definition emit (ev : event) : M unit :=
  modify (fun s => {| st_messages := st_messages s;
                      st_iteration := st_iteration s;
                      st_execution_log := st_execution_log s;
                      st_trace := st_trace s ++ [ev] |}).

(* ------------------------------------------------------------------ *)
(** ** main_agent.py: [MainAgent] *)

(** The schema of one parameter in [get_groq_tools]. *)
Definition param_schema (param_name param_desc : string) : pyval :=
  if param_name =? "filters" then
    PyDict [ ("type", PyStr "string");
             ("description", PyStr (param_desc ++ " Provide as JSON string.")) ]
  else if existsb (String.eqb param_name) ["group_by"; "columns"; "on_columns"] then
    PyDict [ ("type", PyStr "string");
             ("description", PyStr (param_desc ++ " Provide as JSON array string.")) ]
  else if param_name =? "data" then
    PyDict [ ("type", PyStr "string");
             ("description", PyStr (param_desc ++ " Provide as JSON string.")) ]
  else
    PyDict [ ("type", PyStr "string");
             ("description", PyStr param_desc) ].

(** The inner loop of [get_groq_tools], over [tool_info['parameters'].items()]. *)
Fixpoint params_loop (items : list (string * string))
    (properties : pydict) (required : list pyval) : pydict * list pyval :=
  match items with
  | [] => (properties, required)
  | (param_name, param_desc) :: items' =>
      params_loop items'
        (dict_set properties param_name (param_schema param_name param_desc))
        (required ++ [PyStr param_name])
  end.

Definition groq_tool (tool_name description : string)
    (properties : pydict) (required : list pyval) : pyval :=
  PyDict
    [ ("type", PyStr "function");
      ("function",
       PyDict
         [ ("name", PyStr tool_name);
           ("description", PyStr description);
           ("parameters",
            PyDict
              [ ("type", PyStr "object");
                ("properties", PyDict properties);
                ("required", PyList required) ]) ]) ].

(** The outer loop of [get_groq_tools], over [self.tool_registry.tools.items()]. *)
Fixpoint tools_loop (items : list (string * tool_info)) (groq_tools : list pyval)
    : py (list pyval) :=
  match items with
  | [] => Return groq_tools
  | (tool_name, info) :: items' =>
      (params <- subscript (parameters info) "parameters" ;;
       let (properties, required) := params_loop params [] [] in
       desc <- subscript (description info) "description" ;;
       tools_loop items' (groq_tools ++ [groq_tool tool_name desc properties required]))%py
  end.

(** [MainAgent.get_groq_tools] *)
Definition get_groq_tools (self : MainAgent) : py (list pyval) :=
  tools_loop (tools (tool_registry self)) [].

(** *** The same method, statement by statement

    The list and the dicts that [get_groq_tools] creates and fills are
    objects of a heap, named by their position in it; a statement takes a
    heap and leaves one. *)

Inductive object : Type :=
| DictObject (d : pydict)
| ListObject (l : list pyval).

Definition heap : Type := list object.

Definition HeapM (A : Type) : Type := heap -> py A * heap.

Definition heap_ret {A} (a : A) : HeapM A := fun h => (Return a, h).

Definition heap_bind {A B} (c : HeapM A) (k : A -> HeapM B) : HeapM B :=
  fun h => match c h with
           | (Return a, h') => k a h'
           | (Raise e, h') => (Raise e, h')
           end.

Definition heap_lift {A} (c : py A) : HeapM A := fun h => (c, h).

Declare Scope heap_scope.
Delimit Scope heap_scope with heap.
Notation "x <- c ;; k" := (heap_bind c (fun x => k))
  (at level 61, c at next level, right associativity) : heap_scope.
Notation "c ;; k" := (heap_bind c (fun _ => k))
  (at level 61, right associativity) : heap_scope.

(** [for x in l: body(x)] *)
Fixpoint heap_for_each {A} (l : list A) (body : A -> HeapM unit) : HeapM unit :=
  match l with
  | [] => heap_ret tt
  | x :: l' => (body x ;; heap_for_each l' body)%heap
  end.

(** the heap with the object at [address] replaced *)
Fixpoint heap_store (address : nat) (o : object) (h : heap) : heap :=
  match h, address with
  | [], _ => []
  | _ :: h', 0 => o :: h'
  | x :: h', S address' => x :: heap_store address' o h'
  end.

(** [{}] and [[]]: a new object, at the first free position *)
Definition allocate (o : object) : HeapM nat :=
  fun h => (Return (List.length h), (h ++ [o])%list).

(** [d[k] = v] for the dict at [address] *)
Definition setitem (address : nat) (k : string) (v : pyval) : HeapM unit :=
  fun h => match nth_error h address with
           | Some (DictObject d) =>
               (Return tt, heap_store address (DictObject (dict_set d k v)) h)
           | _ => (Raise (TypeError "object does not support item assignment"), h)
           end.

(** [l.append(v)] for the list at [address] *)
Definition append (address : nat) (v : pyval) : HeapM unit :=
  fun h => match nth_error h address with
           | Some (ListObject l) =>
               (Return tt, heap_store address (ListObject (l ++ [v])) h)
           | _ => (Raise (Exception "object has no attribute 'append'"), h)
           end.

(** the dict at [address], as it stands *)
Definition read_dict (address : nat) : HeapM pydict :=
  fun h => match nth_error h address with
           | Some (DictObject d) => (Return d, h)
           | _ => (Raise (TypeError "not a dict"), h)
           end.

(** the list at [address], as it stands *)
Definition read_list (address : nat) : HeapM (list pyval) :=
  fun h => match nth_error h address with
           | Some (ListObject l) => (Return l, h)
           | _ => (Raise (TypeError "not a list"), h)
           end.

(** The body of the inner loop: [properties[param_name] = param_schema],
    [required.append(param_name)]. *)
Definition param_statements (properties required : nat) (param : string * string)
    : HeapM unit :=
  (let (param_name, param_desc) := param in
   setitem properties param_name (param_schema param_name param_desc) ;;
   append required (PyStr param_name))%heap.

(** The body of the outer loop. *)
Definition tool_statements (groq_tools : nat) (item : string * tool_info) : HeapM unit :=
  (let (tool_name, tool_info) := item in
   properties <- allocate (DictObject []) ;;
   required <- allocate (ListObject []) ;;
   params <- heap_lift (subscript (parameters tool_info) "parameters") ;;
   heap_for_each params (param_statements properties required) ;;
   description <- heap_lift (subscript (description tool_info) "description") ;;
   properties_built <- read_dict properties ;;
   required_built <- read_list required ;;
   append groq_tools (groq_tool tool_name description properties_built required_built))%heap.

(** The statements of [MainAgent.get_groq_tools]. *)
Definition get_groq_tools_statements (self : MainAgent) : HeapM (list pyval) :=
  (groq_tools <- allocate (ListObject []) ;;
   heap_for_each (tools (tool_registry self)) (tool_statements groq_tools) ;;
   read_list groq_tools)%heap.

Definition max_iterations : nat := 15.

(** The chart scan of the final-answer branch. *)
Definition chart_scan (execution_log : list log_entry) : pyval :=
  fold_left
    (fun chart_data log_entry =>
       if (tool log_entry =? "create_chart")
          && match dict_get (result log_entry) "success" with
             | Some v => truthy v
             | None => false
             end
       then dict_get_default (result log_entry) "result" (PyDict [])
       else chart_data)
    execution_log PyNone.

(** [if response_message.tool_calls:] *)
Definition requested_tool_calls (response : response_message) : list tool_call :=
  match tool_calls response with
  | Some l => l
  | None => []
  end.

(** The world outside the two modules: [json.loads] on a [str] (it
    raises [json.JSONDecodeError] on a text that is not JSON, and another
    exception, [RecursionError] or [ValueError], on a text it gives up
    on), [json.dumps] (it raises on a value it cannot encode), the
    console ([print(text)] raises what the stream raises, a
    [UnicodeEncodeError] on a text it cannot encode), the text that
    [str] makes of a list, a dict or another object, what [os.getenv]
    finds, the constructor of the client, and the clock reading that the
    system prompt embeds.  Each of them is a function of its argument:
    the console takes or refuses a text by the text alone. *)
Class Environment : Type := {
  json_loads : string -> py pyval;
  json_dumps : pyval -> py string;
  print : string -> py unit;
  format_object : pyval -> string;
  getenv : string -> option string;
  Groq_new : option string -> py Groq;
  now : string
}.

Section Agent.
Context {env : Environment}.

(** [MainAgent.__init__] *)
Definition MainAgent_init (model : string) (tool_registry : ToolRegistry) : py MainAgent :=
  (client <- Groq_new (getenv "GROQ_API_KEY") ;;
   Return {| model := model;
             tool_registry := tool_registry;
             conversation_history := [];
             client := client |})%py.

Definition system_prompt : string :=
  "You are an expert financial data analyst assistant. 
Your role is to provide detailed and accurate insights into business performance using structured CSV datasets. 
Always follow the Required Workflow For Answering Questions and use tools to answer questions.

Date and Time Now:
" ++ now ++ "

Available Data Sources:
1. `actuals.csv` — Monthly financial results.
2. `budget.csv` — Monthly budget projections.
3. `fx.csv` — Monthly Currency exchange rates for conversion between local currencies and USD.
4. `cash.csv` — Cash balances by account.

Required Workflow For Answering Questions:
1. Use `explore_csv` to gather relevant CSV details like column headers, unique values, statistics, etc.
2. Use `extract_csv_data` to get filtered subset of CSV data. Provide filters as JSON string.
3. Use `merge_datasets` strictly for cross-dataset comparisons when required.
4. Use `create_chart` to generate relevant chart for visualization.
5. Provide clear numeric text answers highlight key calculations. 

IMPORTANT NOTES:
- For `extract_csv_data`, the `filters` parameter must be a JSON string, e.g., '{" ++ dq ++ "month" ++ dq ++ ": " ++ dq ++ "2023-01" ++ dq ++ ", " ++ dq ++ "account_category" ++ dq ++ ": " ++ dq ++ "Revenue" ++ dq ++ "}'
- For `create_chart`, the `data` parameter must be a JSON string of the extracted data
- When you receive tool results, analyze them carefully before deciding next steps
- Always provide a final answer summarizing your findings with specific numbers and insights in text format.
- Never provide code in final answer text.".

(** [f"{v}"]: the text of a value in a formatted string *)
Definition str_value (v : pyval) : string :=
  match v with
  | PyNone => "None"
  | PyBool true => "True"
  | PyBool false => "False"
  | PyInt z => NilZero.string_of_int (Z.to_int z)
  | PyFloat repr => repr
  | PyStr s => s
  | _ => format_object v
  end.

(** The three [print] statements at the head of the loop body. *)
Definition print_iteration (iteration : nat) : py unit :=
  (print (nl ++ repeat_string "=" 60) ;;
   print ("Iteration: " ++ decimal iteration) ;;
   print (repeat_string "=" 60))%py.

(** The three [print] statements at the head of the body of the [for]
    loop. *)
Definition print_tool_call (index : nat) (tool_name tool_args_str : string) : py unit :=
  (print (nl ++ "--- Tool Call " ++ decimal (index + 1) ++ " ---") ;;
   print ("Tool name: " ++ tool_name) ;;
   print ("Arguments: " ++ tool_args_str))%py.

(** [try: tool_args = json.loads(tool_args_str)]
    [except json.JSONDecodeError as e: tool_args = {}; print(...)] *)
Definition parse_arguments (tool_name tool_args_str : string) : py pyval :=
  try_except_JSONDecodeError
    (json_loads tool_args_str)
    (fun e =>
       (print ("Warning: Could not parse tool arguments for " ++ tool_name ++ ": "
               ++ str_exn e) ;;
        Return (PyDict []))%py).

(** The [print] statements between the execution of a tool and the
    append to the log. *)
Definition print_tool_result (tool_result : pydict) : py unit :=
  (print ("Tool result success: "
          ++ str_value (dict_get_default tool_result "success" (PyBool false))) ;;
   if negb (truthy (dict_get_default tool_result "success" (PyBool false))) then
     print ("Tool error: "
            ++ str_value (dict_get_default tool_result "error" (PyStr "Unknown error")))
   else
     let result_data := dict_get_default tool_result "result" (PyDict []) in
     match result_data with
     | PyDict result_data =>
         match dict_get result_data "row_count" with
         | Some row_count => print ("Rows returned: " ++ str_value row_count)
         | None => Return tt
         end ;;
         match dict_get result_data "columns" with
         | Some columns => print ("Columns: " ++ str_value columns)
         | None => Return tt
         end
     | _ => Return tt
     end)%py.

(** The body of [for index, tool_call in enumerate(response_message.tool_calls)]. *)
Definition tool_call_body (self : MainAgent) (item : nat * tool_call) : M unit :=
  (let (index, tool_call) := item in
   let tool_name := function_name tool_call in
   let tool_args_str := function_arguments tool_call in
   lift (print_tool_call index tool_name tool_args_str) ;;
   tool_args <- lift (parse_arguments tool_name tool_args_str) ;;
   emit (ToolExec tool_name tool_args) ;;
   tool_result <- lift (execute_tool (tool_registry self) tool_name tool_args) ;;
   lift (print_tool_result tool_result) ;;
   execution_log_append {| tool := tool_name;
                           arguments := tool_args;
                           result := tool_result |} ;;
   content <- lift (json_dumps (PyDict tool_result)) ;;
   messages_append (ToolMsg (id tool_call) tool_name content))%M.

(** [str(final_answer)], as [print(final_answer)] writes it *)
Definition str_optional (text : option string) : string :=
  match text with
  | Some text => text
  | None => "None"
  end.

(** The five [print] statements of the final-answer branch. *)
Definition print_final_answer (final_answer : option string) : py unit :=
  (print (nl ++ repeat_string "=" 60) ;;
   print "FINAL ANSWER:" ;;
   print (repeat_string "=" 60) ;;
   print (str_optional final_answer) ;;
   print (repeat_string "=" 60 ++ nl))%py.

Definition failed (e : exn) (execution_log : list log_entry) (iteration : nat)
    : agent_result :=
  {| answer := Some ("Error occurred during processing: " ++ str_exn e);
     chart_data := None;
     execution_log := execution_log;
     success := false;
     iterations := iteration |}.

(** The keyword arguments of the model call. *)
Definition completion_kwargs (self : MainAgent) (groq_tools : list pyval)
    (messages : list message) : completion_request :=
  {| req_messages := messages;
     req_model := model self;
     req_tools := groq_tools;
     req_tool_choice := "auto";
     req_temperature := PyFloat "0.7";
     req_max_tokens := 4096 |}.

(** One pass through the body of [while iteration < max_iterations].
    [Some r] is [return r]; [None] falls through to the next test of
    the loop condition.  The first three [print] statements stand before
    the [try]. *)
Definition iteration_body (self : MainAgent) (groq_tools : list pyval)
    : M (option agent_result) :=
  (iteration_incr ;;
   iteration <- gets st_iteration ;;
   lift (print_iteration iteration) ;;
   try_exceptM
     (messages <- gets st_messages ;;
      let req := completion_kwargs self groq_tools messages in
      emit (ModelCall req) ;;
      response_message <- lift (chat_completions_create (client self) req) ;;
      messages_append (AssistantMsg response_message) ;;
      let calls := requested_tool_calls response_message in
      match calls with
      | _ :: _ =>
          lift (print ("Tool calls count: " ++ decimal (List.length calls))) ;;
          for_each (enumerate calls) (tool_call_body self) ;;
          ret None
      | [] =>
          let final_answer := content response_message in
          execution_log <- gets st_execution_log ;;
          let chart_data := chart_scan execution_log in
          lift (print_final_answer final_answer) ;;
          iteration <- gets st_iteration ;;
          ret (Some {| answer := final_answer;
                       chart_data := Some chart_data;
                       execution_log := execution_log;
                       success := true;
                       iterations := iteration |})
      end)
     (fun e =>
        iteration <- gets st_iteration ;;
        lift (print ("Error in iteration " ++ decimal iteration ++ ": " ++ str_exn e)) ;;
        execution_log <- gets st_execution_log ;;
        ret (Some (failed e execution_log iteration))))%M.

Definition exhausted (execution_log : list log_entry) : agent_result :=
  {| answer := Some "Could not complete analysis within iteration limit";
     chart_data := None;
     execution_log := execution_log;
     success := false;
     iterations := max_iterations |}.

(** [while iteration < max_iterations: ...], unrolled at most [fuel]
    times; [None] when [fuel] passes do not settle the loop.  The inner
    [None] is the loop left by its condition, [Some r] by [return r]. *)
Fixpoint while_loop (fuel : nat) (self : MainAgent) (groq_tools : list pyval)
    (s : state) : option (py (option agent_result) * state) :=
  if (st_iteration s <? max_iterations)%nat then
    match fuel with
    | 0 => None
    | S fuel' =>
        match iteration_body self groq_tools s with
        | (Return None, s') => while_loop fuel' self groq_tools s'
        | (Return (Some r), s') => Some (Return (Some r), s')
        | (Raise e, s') => Some (Raise e, s')
        end
    end
  else Some (Return None, s).

Definition initial_state (user_query : string) : state :=
  {| st_messages := [ RoleMsg "system" system_prompt; RoleMsg "user" user_query ];
     st_iteration := 0;
     st_execution_log := [];
     st_trace := [] |}.

(** [MainAgent.process_query], with the calls it made.  [None] only if
    [max_iterations] passes would not settle the loop. *)
Definition process_query (self : MainAgent) (user_query : string)
    : option (py agent_result * list event) :=
  match get_groq_tools self with
  | Raise e => Some (Raise e, [])
  | Return groq_tools =>
      match while_loop max_iterations self groq_tools (initial_state user_query) with
      | None => None
      | Some (Raise e, s) => Some (Raise e, st_trace s)
      | Some (Return (Some r), s) => Some (Return r, st_trace s)
      | Some (Return None, s) => Some (Return (exhausted (st_execution_log s)), st_trace s)
      end
  end.

(** *** What a tool call leaves behind, read off [tool_call_body] *)

(** the arguments a call is executed with, when it is executed: what its
    arguments string decodes to, the empty dict after a
    [JSONDecodeError] (after another exception the call is not executed,
    and the value stands for nothing) *)
Definition arguments_of (tc : tool_call) : pyval :=
  match json_loads (function_arguments tc) with
  | Return tool_args => tool_args
  | Raise _ => PyDict []
  end.

Definition tool_result_of (self : MainAgent) (tc : tool_call) : pydict :=
  match execute_tool (tool_registry self) (function_name tc) (arguments_of tc) with
  | Return tool_result => tool_result
  | Raise _ => []
  end.

Definition entry_of (self : MainAgent) (tc : tool_call) : log_entry :=
  {| tool := function_name tc;
     arguments := arguments_of tc;
     result := tool_result_of self tc |}.

Definition serialises (self : MainAgent) (tc : tool_call) : bool :=
  match json_dumps (PyDict (tool_result_of self tc)) with
  | Return _ => true
  | Raise _ => false
  end.

Definition tool_message_of (self : MainAgent) (tc : tool_call) : message :=
  ToolMsg (id tc) (function_name tc)
    match json_dumps (PyDict (tool_result_of self tc)) with
    | Return content => content
    | Raise _ => ""
    end.

Definition exec_event_of (tc : tool_call) : event :=
  ToolExec (function_name tc) (arguments_of tc).

(** The statements of a call that come before the execution: the three
    lines, then the decoding of the arguments. *)
Definition before_execution (index : nat) (tc : tool_call) : py pyval :=
  (print_tool_call index (function_name tc) (function_arguments tc) ;;
   parse_arguments (function_name tc) (function_arguments tc))%py.

(** Where the body of the [for] loop can be left by an exception: before
    the tool is executed, after the execution and before the entry is
    logged, after the entry is logged and before the tool message is
    appended. *)
Inductive stage : Type :=
| BeforeExecution
| BeforeLogging
| BeforeMessage.

(** where the [index]-th call stops, and on which exception; [None] if it
    runs to its end *)
Definition stops (self : MainAgent) (item : nat * tool_call) : option (stage * exn) :=
  let (index, tc) := item in
  match before_execution index tc with
  | Raise e => Some (BeforeExecution, e)
  | Return _ =>
      match print_tool_result (tool_result_of self tc) with
      | Raise e => Some (BeforeLogging, e)
      | Return _ =>
          match json_dumps (PyDict (tool_result_of self tc)) with
          | Raise e => Some (BeforeMessage, e)
          | Return _ => None
          end
      end
  end.

Definition completes (self : MainAgent) (item : nat * tool_call) : bool :=
  match stops self item with
  | None => true
  | Some _ => false
  end.

(** The locals after [iteration += 1]. *)
Definition counted (s : state) : state :=
  {| st_messages := st_messages s;
     st_iteration := S (st_iteration s);
     st_execution_log := st_execution_log s;
     st_trace := st_trace s |}.

(** The locals after [iteration += 1] and the model call with [req]. *)
Definition called (req : completion_request) (s : state) : state :=
  {| st_messages := st_messages s;
     st_iteration := S (st_iteration s);
     st_execution_log := st_execution_log s;
     st_trace := (st_trace s ++ [ModelCall req])%list |}.

(** The locals after [messages.append(response_message)]. *)
Definition answered (response : response_message) (s : state) : state :=
  {| st_messages := (st_messages s ++ [AssistantMsg response])%list;
     st_iteration := st_iteration s;
     st_execution_log := st_execution_log s;
     st_trace := st_trace s |}.

(** The locals after the tool calls [calls], each run to its end. *)
Definition with_calls (self : MainAgent) (calls : list tool_call) (s : state) : state :=
  {| st_messages := (st_messages s ++ map (tool_message_of self) calls)%list;
     st_iteration := st_iteration s;
     st_execution_log := (st_execution_log s ++ map (entry_of self) calls)%list;
     st_trace := (st_trace s ++ map exec_event_of calls)%list |}.

(** The locals after the call [tc] was left at [stage]. *)
Definition stopped (self : MainAgent) (at_stage : stage) (tc : tool_call) (s : state)
    : state :=
  {| st_messages := st_messages s;
     st_iteration := st_iteration s;
     st_execution_log :=
       (st_execution_log s
        ++ match at_stage with
           | BeforeMessage => [entry_of self tc]
           | _ => []
           end)%list;
     st_trace :=
       (st_trace s
        ++ match at_stage with
           | BeforeExecution => []
           | _ => [exec_event_of tc]
           end)%list |}.

(** What the handler of the loop body makes of the exception [e], the
    locals being [s]: it writes one line and returns the failure result. *)
Definition reported (e : exn) (s : state) : py (option agent_result) * state :=
  match print ("Error in iteration " ++ decimal (st_iteration s) ++ ": " ++ str_exn e) with
  | Return _ => (Return (Some (failed e (st_execution_log s) (st_iteration s))), s)
  | Raise e' => (Raise e', s)
  end.

(** The state after [k] passes of the loop body that all fell through
    to the next iteration; [None] if one of them returned or raised. *)
Fixpoint passes (k : nat) (self : MainAgent) (groq_tools : list pyval) (s : state)
    : option state :=
  match k with
  | 0 => Some s
  | S k' =>
      match iteration_body self groq_tools s with
      | (Return None, s') => passes k' self groq_tools s'
      | _ => None
      end
  end.
End Agent.

(* ------------------------------------------------------------------ *)
(** ** Observations used in the statements *)

Definition is_model_call (ev : event) : bool :=
  match ev with
  | ModelCall _ => true
  | ToolExec _ _ => false
  end.

(** the number of model calls in a record of calls *)
Definition model_calls (tr : list event) : nat := List.length (filter is_model_call tr).

(** a registry entry [get_groq_tools] can read *)
Definition well_formed_info (info : tool_info) : bool :=
  match parameters info, description info with
  | Some _, Some _ => true
  | _, _ => false
  end.

Definition well_formed (tools : list (string * tool_info)) : bool :=
  forallb (fun item => well_formed_info (snd item)) tools.

(** [x] occurs in [s] *)
Definition occurs_in (x s : string) : Prop :=
  exists pre post, s = pre ++ x ++ post.

(** a log entry the chart scan picks up *)
Definition successful_chart (log_entry : log_entry) : bool :=
  (tool log_entry =? "create_chart")
  && match dict_get (result log_entry) "success" with
     | Some v => truthy v
     | None => false
     end.

(** what every result of [process_query] satisfies, given the locals at
    the [return] *)
Definition result_at (s : state) (r : agent_result) : Prop :=
  iterations r = st_iteration s
  /\ execution_log r = st_execution_log s
  /\ (success r = false -> chart_data r = None)
  /\ (success r = true -> chart_data r = Some (chart_scan (execution_log r))).

(** what [process_query] makes of the way the loop ended *)
Definition finish (w : option (py (option agent_result) * state))
    : option (py agent_result * list event) :=
  match w with
  | None => None
  | Some (Raise e, s) => Some (Raise e, st_trace s)
  | Some (Return (Some r), s) => Some (Return r, st_trace s)
  | Some (Return None, s) => Some (Return (exhausted (st_execution_log s)), st_trace s)
  end.

(** the instruction [get_groq_tools] adds to a parameter's description *)
Definition json_instruction (param_name : string) : string :=
  if existsb (String.eqb param_name) ["filters"; "data"] then " Provide as JSON string."
  else if existsb (String.eqb param_name) ["group_by"; "columns"; "on_columns"]
       then " Provide as JSON array string."
  else "".

(** a parameter's entry in [properties] *)
Definition schema_item (item : string * string) : string * pyval :=
  (fst item, param_schema (fst item) (snd item)).

(** the schema [get_groq_tools] builds for one readable entry *)
Definition schema_of (item : string * tool_info) : pyval :=
  match parameters (snd item), description (snd item) with
  | Some params, Some desc =>
      let (properties, required) := params_loop params [] [] in
      groq_tool (fst item) desc properties required
  | _, _ => PyNone
  end.

(* ------------------------------------------------------------------ *)
(** ** Scenarios: stand-ins for the model, the tools and the json module *)

Module Scenario.

Definition q (s : string) : string := dq ++ s ++ dq.

(** Argument strings a model sends. *)
Definition explore_args : string :=
  "{" ++ q "csv_name" ++ ": " ++ q "actuals.csv" ++ "}".
Definition missing_file_args : string :=
  "{" ++ q "csv_name" ++ ": " ++ q "nonexistent.csv" ++ "}".
Definition chart_args (chart_type : string) : string :=
  "{" ++ q "data" ++ ": " ++ q "[]" ++ ", " ++ q "chart_type" ++ ": " ++ q chart_type
  ++ ", " ++ q "x_column" ++ ": " ++ q "month" ++ ", " ++ q "y_column" ++ ": "
  ++ q "revenue" ++ "}".
Definition malformed_args : string := "not valid json {{".

(** a thousand opening brackets: more nesting than the decoder follows *)
Definition deep_args : string := repeat_string "[" 1000.

(** The bytes of the lone surrogate U+D800, which [json.loads] makes of
    the escape [\ud800] and which no UTF-8 stream encodes. *)
Definition surrogate : string :=
  String (ascii_of_nat 237) (String (ascii_of_nat 160) (String (ascii_of_nat 128) "")).

Definition escaped_surrogate : string := String backslash "ud800".

(** arguments that name a file by an escaped lone surrogate *)
Definition surrogate_args : string :=
  "{" ++ q "csv_name" ++ ": " ++ q (escaped_surrogate ++ ".csv") ++ "}".

Definition chart_kwargs (chart_type : string) : pydict :=
  [ ("data", PyStr "[]"); ("chart_type", PyStr chart_type);
    ("x_column", PyStr "month"); ("y_column", PyStr "revenue") ].

(** A decoder that knows the argument strings above. *)
Definition loads (s : string) : py pyval :=
  if s =? explore_args then Return (PyDict [ ("csv_name", PyStr "actuals.csv") ])
  else if s =? missing_file_args then Return (PyDict [ ("csv_name", PyStr "nonexistent.csv") ])
  else if s =? chart_args "bar" then Return (PyDict (chart_kwargs "bar"))
  else if s =? chart_args "line" then Return (PyDict (chart_kwargs "line"))
  else if s =? "{}" then Return (PyDict [])
  else if s =? surrogate_args then Return (PyDict [ ("csv_name", PyStr (surrogate ++ ".csv")) ])
  else if s =? deep_args
       then Raise (RecursionError "maximum recursion depth exceeded while decoding a JSON array from a unicode string")
  else Raise (JSONDecodeError "Expecting value: line 1 column 1 (char 0)").

(** An encoder for values that hold printable ASCII text; it raises
    on an object, as [json.dumps] does. *)
Fixpoint dumps (v : pyval) : py string :=
  match v with
  | PyNone => Return "null"
  | PyBool b => Return (if b then "true" else "false")
  | PyInt z => Return (DecimalString.NilZero.string_of_int (Z.to_int z))
  | PyFloat r => Return r
  | PyStr s => Return (q (repr_chars dquote s))
  | PyList l =>
      py_bind
        ((fix items (l : list pyval) : py string :=
          match l with
          | [] => Return "]"
          | x :: l' =>
              (a <- dumps x ;;
               b <- items l' ;;
               Return (a ++ match l' with [] => "" | _ => ", " end ++ b))%py
          end) l)
        (fun body => Return ("[" ++ body))
  | PyDict d =>
      py_bind
        ((fix items (d : list (string * pyval)) : py string :=
          match d with
          | [] => Return "}"
          | (k, x) :: d' =>
              (a <- dumps x ;;
               b <- items d' ;;
               Return (q (repr_chars dquote k) ++ ": " ++ a
                       ++ match d' with [] => "" | _ => ", " end ++ b))%py
          end) d)
        (fun body => Return ("{" ++ body))
  | PyObj t => Raise (TypeError ("Object of type " ++ t ++ " is not JSON serializable"))
  end.

(** A UTF-8 console: it takes every text but one that holds a lone
    surrogate. *)
Definition console (text : string) : py unit :=
  match index 0 surrogate text with
  | Some position =>
      Raise (UnicodeEncodeError
               ("'utf-8' codec can't encode character '" ++ escaped_surrogate
                ++ "' in position " ++ decimal position ++ ": surrogates not allowed"))
  | None => Return tt
  end.

(** The text of a list, a dict or an object. *)
Fixpoint render (v : pyval) : string :=
  match v with
  | PyNone => "None"
  | PyBool b => if b then "True" else "False"
  | PyInt z => NilZero.string_of_int (Z.to_int z)
  | PyFloat r => r
  | PyStr s => repr_str s
  | PyList l => "[" ++ join ", " (map render l) ++ "]"
  | PyDict d =>
      "{" ++ join ", " (map (fun item : string * pyval =>
                               let (k, x) := item in repr_str k ++ ": " ++ render x) d)
      ++ "}"
  | PyObj t => "<" ++ t ++ " object>"
  end.

(** *** Tool handlers *)

Definition missing_argument (qualname name : string) : exn :=
  TypeError (qualname ++ "() missing 1 required positional argument: '" ++ name ++ "'").

Definition actuals_summary : pyval :=
  PyDict [ ("csv_name", PyStr "actuals.csv"); ("num_rows", PyInt 2);
           ("num_columns", PyInt 2); ("columns", PyDict []) ].

Definition explore_csv : pyfunc :=
  {| qualname := "ToolRegistry.explore_csv";
     call := fun kwargs =>
       match dict_get kwargs "csv_name" with
       | Some (PyStr name) =>
           if name =? "actuals.csv" then Return actuals_summary
           else Raise (Exception ("Error exploring CSV '" ++ name
                                  ++ "': [Errno 2] No such file or directory: 'fixtures/"
                                  ++ name ++ "'"))
       | Some _ => Raise (Exception "Error exploring CSV")
       | None => Raise (missing_argument "ToolRegistry.explore_csv" "csv_name")
       end |}.

Definition extract_csv_data : pyfunc :=
  {| qualname := "ToolRegistry.extract_csv_data";
     call := fun kwargs =>
       match dict_get kwargs "csv_name", dict_get kwargs "filters" with
       | Some (PyStr name), Some _ =>
           Return (PyDict [ ("csv_name", PyStr name); ("extracted_data", PyList []);
                            ("row_count", PyInt 0); ("columns", PyList []) ])
       | Some _, Some _ => Raise (Exception "Error extracting data")
       | None, _ => Raise (missing_argument "ToolRegistry.extract_csv_data" "csv_name")
       | _, None => Raise (missing_argument "ToolRegistry.extract_csv_data" "filters")
       end |}.

Definition chart_config (chart_type x_column y_column : string) : pyval :=
  PyDict [ ("render_type", PyStr "chart"); ("chart_type", PyStr chart_type);
           ("data", PyList []); ("x_column", PyStr x_column);
           ("y_column", PyStr y_column); ("title", PyStr (y_column ++ " by " ++ x_column));
           ("data_points", PyInt 0); ("status", PyStr "success") ].

Definition create_chart : pyfunc :=
  {| qualname := "ToolRegistry.create_chart";
     call := fun kwargs =>
       match dict_get kwargs "chart_type", dict_get kwargs "x_column",
             dict_get kwargs "y_column", dict_get kwargs "data" with
       | Some (PyStr chart_type), Some (PyStr x_column), Some (PyStr y_column), Some _ =>
           Return (chart_config chart_type x_column y_column)
       | None, _, _, _ => Raise (missing_argument "ToolRegistry.create_chart" "chart_type")
       | _, _, _, _ => Raise (Exception "Error creating chart")
       end |}.

(** A handler that hands back the frame it loaded. *)
Definition load_frame : pyfunc :=
  {| qualname := "load_frame";
     call := fun _ => Return (PyObj "DataFrame") |}.

(** *** Registries *)

Definition registry : ToolRegistry :=
  ToolRegistry_init explore_csv extract_csv_data create_chart "fixtures" "temp".

Definition frame_registry : ToolRegistry :=
  {| fixtures_path := "fixtures";
     temp_path := "temp";
     tools := [ ("load_frame",
                 {| function := Some load_frame;
                    description := Some "Load a CSV file as a data frame.";
                    parameters := Some [] |}) ] |}.

(** An entry without its ["parameters"] key. *)
Definition malformed_registry : ToolRegistry :=
  {| fixtures_path := "fixtures";
     temp_path := "temp";
     tools := [ ("explore_csv",
                 {| function := Some explore_csv;
                    description := Some "Explore CSV file structure and content";
                    parameters := None |}) ] |}.

(** The registry of the test suite's fixture. *)
Definition fixture_registry : ToolRegistry :=
  {| fixtures_path := "fixtures";
     temp_path := "temp";
     tools :=
       [ ("explore_csv",
          {| function := Some explore_csv;
             description := Some "Explore CSV file structure and content";
             parameters := Some [ ("csv_name", "Name of the CSV file to explore");
                                  ("columns", "Specific columns to analyze") ] |});
         ("extract_csv_data",
          {| function := Some extract_csv_data;
             description := Some "Extract filtered data from CSV";
             parameters := Some [ ("csv_name", "Name of the CSV file");
                                  ("filters", "Filters to apply as JSON object") ] |});
         ("create_chart",
          {| function := Some create_chart;
             description := Some "Create a chart from data";
             parameters := Some [ ("data", "Data to visualize as JSON");
                                  ("chart_type", "Type of chart (bar, line, etc.)") ] |}) ] |}.

(** *** Model clients *)

Definition assistant_turns (messages : list message) : nat :=
  List.length (filter (fun m => match m with AssistantMsg _ => true | _ => false end)
                      messages).

(** A client that answers its [n]-th call with the [n]-th entry of a
    script and raises once the script is used up. *)
Definition scripted (script : list (py response_message)) : Groq :=
  {| chat_completions_create := fun req =>
       nth (assistant_turns (req_messages req)) script (Raise (Exception "")) |}.

(** A client that gives the same answer to every call. *)
Definition always (response : response_message) : Groq :=
  {| chat_completions_create := fun _ => Return response |}.

Definition requests (calls : list tool_call) : response_message :=
  {| content := None; tool_calls := Some calls |}.

Definition says (text : string) : response_message :=
  {| content := Some text; tool_calls := None |}.

Definition explore_call : tool_call :=
  {| id := "call_123"; function_name := "explore_csv"; function_arguments := explore_args |}.

Definition missing_file_call : tool_call :=
  {| id := "call_456"; function_name := "explore_csv";
     function_arguments := missing_file_args |}.

Definition malformed_call : tool_call :=
  {| id := "call_789"; function_name := "explore_csv";
     function_arguments := malformed_args |}.

Definition deep_call : tool_call :=
  {| id := "call_deep"; function_name := "explore_csv"; function_arguments := deep_args |}.

Definition surrogate_call : tool_call :=
  {| id := "call_d800"; function_name := "explore_csv";
     function_arguments := surrogate_args |}.

Definition chart_call (call_id chart_type : string) : tool_call :=
  {| id := call_id; function_name := "create_chart";
     function_arguments := chart_args chart_type |}.

Definition frame_call : tool_call :=
  {| id := "call_001"; function_name := "load_frame"; function_arguments := "{}" |}.

Definition agent (reg : ToolRegistry) (client : Groq) : MainAgent :=
  {| model := "openai/gpt-oss-20b";
     tool_registry := reg;
     conversation_history := [];
     client := client |}.

(** An environment with the API key set, whose client follows [script]. *)
Definition environment (script : list (py response_message)) : Environment :=
  {| json_loads := loads;
     json_dumps := dumps;
     print := console;
     format_object := render;
     getenv := fun name => if name =? "GROQ_API_KEY" then Some "gsk_test" else None;
     Groq_new := fun api_key =>
       match api_key with
       | Some _ => Return (scripted script)
       | None => Raise (Exception "The api_key client option must be set")
       end;
     now := "06/30/2025 09:00:00 AM" |}.

Definition env : Environment := environment [].

Definition run (self : MainAgent) (user_query : string)
    : option (py agent_result * list event) :=
  @process_query env self user_query.

(** *** The agents of the scenarios *)

(** one tool call, then the final text *)
Definition agent_a : MainAgent :=
  agent registry (scripted [ Return (requests [explore_call]);
                             Return (says "Revenue was $500,000.") ]).

(** the model call fails at once *)
Definition agent_b : MainAgent :=
  agent registry (scripted [ Raise (Exception "API connection timeout") ]).

(** the tool reports a failure, the model answers all the same *)
Definition agent_c : MainAgent :=
  agent registry (scripted [ Return (requests [missing_file_call]);
                             Return (says "Unable to retrieve data due to file not found.") ]).

(** the model asks for a tool on every turn *)
Definition agent_d : MainAgent :=
  agent registry (always (requests [explore_call])).

(** arguments that are not JSON, then the final text *)
Definition agent_malformed : MainAgent :=
  agent registry
    (scripted [ Return (requests [malformed_call]);
                Return (says "I encountered an error parsing the tool arguments.") ]).

(** two charts on two turns, then the final text *)
Definition agent_charts : MainAgent :=
  agent registry (scripted [ Return (requests [chart_call "call_1" "bar"]);
                             Return (requests [chart_call "call_2" "line"]);
                             Return (says "Revenue rose over the year.") ]).

(** a chart, then the model call fails *)
Definition agent_chart_then_failure : MainAgent :=
  agent registry (scripted [ Return (requests [chart_call "call_1" "bar"]);
                             Raise (Exception "API connection timeout") ]).

(** a tool whose result is a data frame *)
Definition agent_frame : MainAgent :=
  agent frame_registry (scripted [ Return (requests [frame_call]);
                                   Return (says "The frame is loaded.") ]).

(** arguments nested too deep for the decoder, then the final text *)
Definition agent_deep : MainAgent :=
  agent registry (scripted [ Return (requests [deep_call]);
                             Return (says "The arguments were too deep.") ]).

(** a file name that the console cannot write, then the final text *)
Definition agent_surrogate : MainAgent :=
  agent registry (scripted [ Return (requests [surrogate_call]);
                             Return (says "The file could not be read.") ]).

(** a final text that the console cannot write *)
Definition agent_unprintable_answer : MainAgent :=
  agent registry (scripted [ Return (says ("Revenue rose " ++ surrogate)) ]).

(** a client error whose text the console cannot write *)
Definition agent_unprintable_error : MainAgent :=
  agent registry (scripted [ Raise (Exception ("Bad gateway " ++ surrogate)) ]).

Definition chart_entry (chart_type : string) : log_entry :=
  {| tool := "create_chart";
     arguments := PyDict (chart_kwargs chart_type);
     result := [ ("success", PyBool true);
                 ("result", chart_config chart_type "month" "revenue") ] |}.
End Scenario.

(* ------------------------------------------------------------------ *)
(** ** tools.py: [get_tool_descriptions] *)

(** The inner loop of [get_tool_descriptions], over
    [tool_info['parameters'].items()]: one line per parameter. *)
Fixpoint describe_parameters (items : list (string * string)) (desc : string) : string :=
  match items with
  | [] => desc
  | (param_name, param_desc) :: items' =>
      describe_parameters items' (desc ++ "  - " ++ param_name ++ ": " ++ param_desc ++ nl)
  end.

(** The outer loop of [get_tool_descriptions], over [self.tools.items()]. *)
Fixpoint descriptions_loop (items : list (string * tool_info)) (descriptions : list string)
    : py (list string) :=
  match items with
  | [] => Return descriptions
  | (tool_name, info) :: items' =>
      (d <- subscript (description info) "description" ;;
       let desc := "**" ++ tool_name ++ "**: " ++ d ++ nl in
       let desc := desc ++ "Parameters:" ++ nl in
       params <- subscript (parameters info) "parameters" ;;
       descriptions_loop items' (descriptions ++ [describe_parameters params desc]))%py
  end.

(** [ToolRegistry.get_tool_descriptions] *)
Definition get_tool_descriptions (self : ToolRegistry) : py string :=
  (descriptions <- descriptions_loop (tools self) [] ;;
   Return (join nl descriptions))%py.

(* ------------------------------------------------------------------ *)
(** ** tools.py: the data tools *)

(** What the data tools use of pandas.  A frame is whatever pandas makes
    of it; the tools see its column labels, its length and its records,
    and select rows and columns. *)
Class Pandas : Type := {
  DataFrame : Type;
  read_csv : string -> py DataFrame;           (* pd.read_csv(path) *)
  DataFrame_new : pyval -> py DataFrame;       (* pd.DataFrame(data) *)
  frame_columns : DataFrame -> list pyval;     (* list(df.columns) *)
  frame_len : DataFrame -> Z;                  (* len(df) *)
  to_records : DataFrame -> pyval;             (* df.to_dict('records') *)
  select_isin : DataFrame -> string -> list pyval -> py DataFrame;
                                               (* df[df[column].isin(value)] *)
  select_eq : DataFrame -> string -> pyval -> py DataFrame;
                                               (* df[df[column] == value] *)
  select_columns : DataFrame -> string -> string -> py DataFrame;
                                               (* df[[x_column, y_column]].copy() *)
  indexed_dict : DataFrame -> string -> string -> py pyval;
                                               (* chart_df.set_index(x_column)[y_column].to_dict() *)
  repr_list : list pyval -> string             (* repr of a list *)
}.

Module Tools.
Section WithPandas.
Context {env : Environment} {pd : Pandas}.

(** [column in df.columns], for a [str]: some label is that string *)
Definition label_mem (column : string) (labels : list pyval) : bool :=
  existsb (fun label => match label with
                        | PyStr s => s =? column
                        | _ => false
                        end) labels.

(** [v.items()]: only a dict has it (an object is taken to have none) *)
Definition dict_items (v : pyval) : py (list (string * pyval)) :=
  match v with
  | PyDict d => Return d
  | _ => Raise (Exception ("'" ++ type_name_of v ++ "' object has no attribute 'items'"))
  end.

(** [try: filters_dict = json.loads(filters) if isinstance(filters, str) else filters]
    [except json.JSONDecodeError: raise ValueError(...)] *)
Definition parse_filters (filters : pyval) : py pyval :=
  try_except_JSONDecodeError
    match filters with
    | PyStr text => json_loads text
    | _ => Return filters
    end
    (fun _ =>
       Raise (ValueError ("Invalid JSON in filters parameter: " ++ str_value filters))).

(** The loop of [extract_csv_data] over [filters_dict.items()]. *)
Fixpoint apply_filters (csv_name : string) (items : list (string * pyval)) (df : DataFrame)
    : py DataFrame :=
  match items with
  | [] => Return df
  | (column, value) :: items' =>
      if negb (label_mem column (frame_columns df)) then
        Raise (ValueError ("Column '" ++ column ++ "' not found in " ++ csv_name
                           ++ ". Available columns: " ++ repr_list (frame_columns df)))
      else
        (df' <- match value with
                | PyList values => select_isin df column values
                | _ => select_eq df column value
                end ;;
         apply_filters csv_name items' df')%py
  end.

(** [ToolRegistry.extract_csv_data] *)
Definition extract_csv_data (self : ToolRegistry) (csv_name : string) (filters : pyval)
    : py pyval :=
  try_except
    (df <- read_csv (fixtures_path self ++ "/" ++ csv_name) ;;
     filters_dict <- parse_filters filters ;;
     items <- dict_items filters_dict ;;
     df <- apply_filters csv_name items df ;;
     Return (PyDict [ ("csv_name", PyStr csv_name);
                      ("extracted_data", to_records df);
                      ("row_count", PyInt (frame_len df));
                      ("columns", PyList (frame_columns df)) ]))%py
    (fun e => Raise (Exception ("Error extracting data from '" ++ csv_name ++ "': "
                                ++ str_exn e))).

(** [json.loads(data) if isinstance(data, str) else data] *)
Definition parse_data (data : pyval) : py pyval :=
  match data with
  | PyStr text => json_loads text
  | _ => Return data
  end.

(** the chart data of [create_chart], by chart type *)
Definition chart_data_of (chart_type x_column y_column : string) (chart_df : DataFrame)
    : py pyval :=
  if existsb (String.eqb chart_type) ["bar"; "line"; "area"] then
    indexed_dict chart_df x_column y_column
  else if chart_type =? "scatter" then Return (to_records chart_df)
  else if chart_type =? "pie" then Return (to_records chart_df)
  else Return (to_records chart_df).

(** [ToolRegistry.create_chart] *)
Definition create_chart (chart_type x_column y_column : string) (data : pyval) : py pyval :=
  try_except
    (data_dict <- parse_data data ;;
     df <- DataFrame_new data_dict ;;
     if negb (label_mem x_column (frame_columns df)) then
       Raise (ValueError ("Column '" ++ x_column ++ "' not found. Available: "
                          ++ repr_list (frame_columns df)))
     else if negb (label_mem y_column (frame_columns df)) then
       Raise (ValueError ("Column '" ++ y_column ++ "' not found. Available: "
                          ++ repr_list (frame_columns df)))
     else
       chart_df <- select_columns df x_column y_column ;;
       chart_data <- chart_data_of chart_type x_column y_column chart_df ;;
       Return (PyDict [ ("render_type", PyStr "chart");
                        ("chart_type", PyStr chart_type);
                        ("data", chart_data);
                        ("x_column", PyStr x_column);
                        ("y_column", PyStr y_column);
                        ("title", PyStr (y_column ++ " by " ++ x_column));
                        ("data_points", PyInt (frame_len df));
                        ("status", PyStr "success") ]))%py
    (fun e => Raise (Exception ("Error creating chart: " ++ str_exn e))).
End WithPandas.
End Tools.

(* ------------------------------------------------------------------ *)
(** ** More observations *)

(** the line of one parameter in the text of [get_tool_descriptions] *)
Definition parameter_line (item : string * string) : string :=
  "  - " ++ fst item ++ ": " ++ snd item ++ nl.

(** the heading of one tool in that text *)
Definition tool_heading (tool_name description : string) : string :=
  "**" ++ tool_name ++ "**: " ++ description ++ nl ++ "Parameters:" ++ nl.

(** the paragraph of one readable entry in that text *)
Definition tool_paragraph (item : string * tool_info) : string :=
  match description (snd item), parameters (snd item) with
  | Some d, Some params =>
      tool_heading (fst item) d ++ String.concat "" (map parameter_line params)
  | _, _ => ""
  end.

(** the registry executions in a record of calls *)
Definition tool_events (tr : list event) : list event :=
  filter (fun ev => negb (is_model_call ev)) tr.

(** the registry execution a log entry stands for *)
Definition entry_event (e : log_entry) : event := ToolExec (tool e) (arguments e).

(** the requests made to the model in a record of calls, in order *)
Fixpoint model_requests (tr : list event) : list completion_request :=
  match tr with
  | [] => []
  | ModelCall req :: tr' => req :: model_requests tr'
  | ToolExec _ _ :: tr' => model_requests tr'
  end.

(** [l'] is [l] followed by at least one more element *)
Definition proper_prefix {A} (l l' : list A) : Prop :=
  exists x rest, l' = (l ++ x :: rest)%list.

(** [l'] starts with [l] *)
Definition prefix {A} (l l' : list A) : Prop :=
  exists rest, l' = (l ++ rest)%list.

(** the requests of a run are those of the agent, on a conversation that
    opens with [opening] *)
Definition agent_request (self : MainAgent) (groq_tools : list pyval)
    (opening : list message) (req : completion_request) : Prop :=
  req = completion_kwargs self groq_tools (req_messages req)
  /\ prefix opening (req_messages req).

(** each request extends the conversation of every earlier one *)
Definition growing (reqs : list completion_request) : Prop :=
  ForallOrdPairs (fun r1 r2 => proper_prefix (req_messages r1) (req_messages r2)) reqs.

(** a log entry holds the registry's answer for its tool and arguments *)
Definition faithful_entry (reg : ToolRegistry) (e : log_entry) : Prop :=
  execute_tool reg (tool e) (arguments e) = Return (result e).

(** what a log and a record of calls of one run have in common *)
Definition run_record (self : MainAgent) (groq_tools : list pyval)
    (opening : list message) (log : list log_entry) (tr : list event) : Prop :=
  Forall (faithful_entry (tool_registry self)) log
  /\ Forall (agent_request self groq_tools opening) (model_requests tr)
  /\ growing (model_requests tr).

(** what holds of the locals whenever the loop condition is tested *)
Definition loop_invariant (self : MainAgent) (groq_tools : list pyval)
    (opening : list message) (s : state) : Prop :=
  run_record self groq_tools opening (st_execution_log s) (st_trace s)
  /\ map entry_event (st_execution_log s) = tool_events (st_trace s)
  /\ Forall (fun req => proper_prefix (req_messages req) (st_messages s))
            (model_requests (st_trace s))
  /\ prefix opening (st_messages s).

(** a log entry made for a tool call that the model asked for in its
    answer to a request of the run, [parse] being the decoding of the
    arguments *)
Definition requested_entry (self : MainAgent) (parse : string -> string -> py pyval)
    (reqs : list completion_request) (e : log_entry) : Prop :=
  exists (req : completion_request) (response : response_message) (tc : tool_call),
    In req reqs
    /\ chat_completions_create (client self) req = Return response
    /\ In tc (requested_tool_calls response)
    /\ tool e = function_name tc
    /\ parse (function_name tc) (function_arguments tc) = Return (arguments e).

(** the messages of one finished turn: the response, then one tool
    message per tool call *)
Definition turn_messages (tool_message : tool_call -> message)
    (response : response_message) : list message :=
  AssistantMsg response :: map tool_message (requested_tool_calls response).

(** a list of messages made of an opening and of finished turns, each for
    a response that asked for tools whose results could all be encoded *)
Definition finished_turns (tool_message : tool_call -> message)
    (encodes : tool_call -> bool) (opening messages : list message) : Prop :=
  exists responses : list response_message,
    messages = (opening ++ flat_map (turn_messages tool_message) responses)%list
    /\ Forall (fun response =>
                 requested_tool_calls response <> []
                 /\ forallb encodes (requested_tool_calls response) = true)
              responses.

(** the first entry of a registry that [get_groq_tools] cannot read *)
Fixpoint first_unreadable (items : list (string * tool_info)) : option tool_info :=
  match items with
  | [] => None
  | (_, info) :: items' =>
      if well_formed_info info then first_unreadable items' else Some info
  end.

(* ------------------------------------------------------------------ *)
(** ** More cases *)

Module Cases.

(** A registry entry that names a tool but binds no callable, as the
    registry of the test suite's fixture does. *)
Definition unbound_registry : ToolRegistry :=
  {| fixtures_path := "fixtures";
     temp_path := "temp";
     tools := [ ("explore_csv",
                 {| function := None;
                    description := Some "Explore CSV file structure and content";
                    parameters := Some [ ("csv_name", "Name of the CSV file to explore") ] |}) ] |}.

(** An entry with neither description nor parameters. *)
Definition blank_registry : ToolRegistry :=
  {| fixtures_path := "fixtures";
     temp_path := "temp";
     tools := [ ("explore_csv",
                 {| function := Some Scenario.explore_csv;
                    description := None;
                    parameters := None |}) ] |}.

(** An entry without description after a readable one. *)
Definition half_readable_registry : ToolRegistry :=
  {| fixtures_path := "fixtures";
     temp_path := "temp";
     tools := [ ("explore_csv",
                 {| function := Some Scenario.explore_csv;
                    description := Some "Explore CSV file structure and content";
                    parameters := Some [ ("csv_name", "Name of the CSV file to explore") ] |});
                ("create_chart",
                 {| function := Some Scenario.create_chart;
                    description := None;
                    parameters := Some [ ("data", "Data to visualize as JSON") ] |}) ] |}.

(** A registry with a tool whose result is a data frame beside one whose
    result is plain data. *)
Definition mixed_registry : ToolRegistry :=
  {| fixtures_path := "fixtures";
     temp_path := "temp";
     tools := [ ("explore_csv",
                 {| function := Some Scenario.explore_csv;
                    description := Some "Explore CSV file structure and content";
                    parameters := Some [ ("csv_name", "Name of the CSV file to explore") ] |});
                ("load_frame",
                 {| function := Some Scenario.load_frame;
                    description := Some "Load a CSV file as a data frame.";
                    parameters := Some [] |}) ] |}.

(** three tool calls on one turn, the second with a result that cannot
    be encoded *)
Definition agent_interrupted : MainAgent :=
  Scenario.agent mixed_registry
    (Scenario.scripted
       [ Return (Scenario.requests
                   [Scenario.explore_call; Scenario.frame_call; Scenario.missing_file_call]);
         Return (Scenario.says "The frame is loaded.") ]).

(** the model asks for the tool that the system prompt names and the
    registry lacks, then answers *)
Definition merge_call : tool_call :=
  {| id := "call_merge"; function_name := "merge_datasets"; function_arguments := "{}" |}.

Definition agent_merge : MainAgent :=
  Scenario.agent Scenario.registry
    (Scenario.scripted
       [ Return (Scenario.requests [merge_call]);
         Return (Scenario.says "The datasets could not be merged.") ]).

(** *** A small pandas *)

(** A frame: its column labels and its rows. *)
Record frame : Type := {
  frame_labels : list string;
  frame_rows : list (list pyval)
}.

Definition cell_eqb (a b : pyval) : bool :=
  match a, b with
  | PyStr s, PyStr t => s =? t
  | PyInt m, PyInt n => Z.eqb m n
  | _, _ => false
  end.

Fixpoint position (column : string) (labels : list string) : option nat :=
  match labels with
  | [] => None
  | label :: labels' =>
      if label =? column then Some 0
      else option_map S (position column labels')
  end.

Definition cell (df : frame) (row : list pyval) (column : string) : pyval :=
  match position column (frame_labels df) with
  | Some i => nth i row PyNone
  | None => PyNone
  end.

Definition keep_rows (df : frame) (column : string) (p : pyval -> bool) : frame :=
  {| frame_labels := frame_labels df;
     frame_rows := filter (fun row => p (cell df row column)) (frame_rows df) |}.

Definition record_values (labels : list string) (record : pyval) : list pyval :=
  match record with
  | PyDict d => map (fun label => dict_get_default d label PyNone) labels
  | _ => []
  end.

Definition frame_of (data : pyval) : py frame :=
  match data with
  | PyList records =>
      let labels := match records with
                    | PyDict d :: _ => dict_keys d
                    | _ => []
                    end in
      Return {| frame_labels := labels;
                frame_rows := map (record_values labels) records |}
  | _ => Raise (ValueError "DataFrame constructor not properly called!")
  end.

Definition actuals : frame :=
  {| frame_labels := ["month"; "account_category"; "amount"];
     frame_rows := [ [PyStr "2023-01"; PyStr "Revenue"; PyInt 1000];
                     [PyStr "2023-01"; PyStr "Opex"; PyInt 400];
                     [PyStr "2023-02"; PyStr "Revenue"; PyInt 1200] ] |}.

Definition text_of (v : pyval) : string :=
  match v with
  | PyStr s => s
  | _ => ""
  end.

Definition small_pandas : Pandas :=
  {| DataFrame := frame;
     read_csv := fun path =>
       if path =? "fixtures/actuals.csv" then Return actuals
       else Raise (Exception ("[Errno 2] No such file or directory: '" ++ path ++ "'"));
     DataFrame_new := frame_of;
     frame_columns := fun df => map PyStr (frame_labels df);
     frame_len := fun df => Z.of_nat (List.length (frame_rows df));
     to_records := fun df =>
       PyList (map (fun row => PyDict (combine (frame_labels df) row)) (frame_rows df));
     select_isin := fun df column values =>
       Return (keep_rows df column (fun c => existsb (cell_eqb c) values));
     select_eq := fun df column value =>
       Return (keep_rows df column (fun c => cell_eqb c value));
     select_columns := fun df x_column y_column =>
       Return {| frame_labels := [x_column; y_column];
                 frame_rows := map (fun row => [cell df row x_column; cell df row y_column])
                                   (frame_rows df) |};
     indexed_dict := fun df x_column y_column =>
       Return (PyDict (map (fun row => (text_of (cell df row x_column), cell df row y_column))
                           (frame_rows df)));
     repr_list := fun labels => repr_str_list (map text_of labels) |}.

(** Filters and chart data a model sends, as text. *)
Definition revenue_filters : string :=
  "{" ++ Scenario.q "account_category" ++ ": " ++ Scenario.q "Revenue" ++ "}".

Definition revenue_records : string :=
  "[{" ++ Scenario.q "month" ++ ": " ++ Scenario.q "2023-01" ++ ", "
  ++ Scenario.q "amount" ++ ": 1000}]".

(** An environment that decodes those texts. *)
Definition tools_env : Environment :=
  {| json_loads := fun text =>
       if text =? revenue_filters then Return (PyDict [ ("account_category", PyStr "Revenue") ])
       else if text =? revenue_records
            then Return (PyList [ PyDict [ ("month", PyStr "2023-01"); ("amount", PyInt 1000) ] ])
       else Scenario.loads text;
     json_dumps := Scenario.dumps;
     print := Scenario.console;
     format_object := Scenario.render;
     getenv := @getenv Scenario.env;
     Groq_new := @Groq_new Scenario.env;
     now := @now Scenario.env |}.
End Cases.

(* ================================================================== *)
(** * Properties *)

(** ** Strings and dicts *)

Lemma string_append_assoc (a b c : string) : (a ++ b) ++ c = a ++ (b ++ c).
Proof.
  induction a as [|ch a IH]; simpl; [reflexivity | now rewrite IH].
Qed.

Lemma occurs_in_self (x : string) : occurs_in x x.
Proof.
  exists "", "". simpl. induction x as [|c x IH]; simpl; [reflexivity | now rewrite <- IH].
Qed.

Lemma occurs_in_prepend (x a s : string) : occurs_in x s -> occurs_in x (a ++ s).
Proof.
  intros (pre & post & ->). exists (a ++ pre), post.
  now rewrite string_append_assoc.
Qed.

Lemma occurs_in_append (x s b : string) : occurs_in x s -> occurs_in x (s ++ b).
Proof.
  intros (pre & post & ->). exists pre, (post ++ b).
  now rewrite !string_append_assoc.
Qed.

Lemma occurs_in_join (sep x : string) (l : list string) :
  In x l -> occurs_in x (join sep l).
Proof.
  induction l as [|y l IH]; intros Hin; [contradiction|].
  destruct l as [|z l].
  - destruct Hin as [->|[]]. apply occurs_in_self.
  - change (join sep (y :: z :: l)) with (y ++ sep ++ join sep (z :: l)).
    destruct Hin as [->|Hin].
    + apply occurs_in_append with (s := x). apply occurs_in_self.
    + do 2 apply occurs_in_prepend. now apply IH.
Qed.

Lemma dict_mem_get {V} (d : list (string * V)) (k : string) (v : V) :
  dict_get d k = Some v -> dict_mem d k = true.
Proof. unfold dict_mem. now intros ->. Qed.

(** ** tools.py: [execute_tool] *)

(** [execute_tool] has a dict for every input: nothing escapes its
    [try]. *)
Lemma execute_tool_returns (reg : ToolRegistry) (tool_name : string) (params : pyval) :
  exists d, execute_tool reg tool_name params = Return d.
Proof.
  unfold execute_tool.
  destruct (negb (dict_mem (tools reg) tool_name)); [eexists; reflexivity|].
  match goal with |- exists d, try_except ?b _ = _ => destruct b end;
    simpl; eexists; reflexivity.
Qed.

(** C5: for a registered tool, [execute_tool] calls the handler with the
    arguments map unpacked as keywords; a return value [v] gives
    [{success: True, result: v}], an exception [e] gives
    [{success: False, error: str(e), tool: name, parameters: map}]; and
    for any arguments at all the call returns a dict, it never raises. *)
Theorem execute_tool_registered :
  forall (reg : ToolRegistry) (tool_name : string) (info : tool_info) (f : pyfunc)
         (kwargs : pydict),
    dict_get (tools reg) tool_name = Some info ->
    function info = Some f ->
    execute_tool reg tool_name (PyDict kwargs) =
      match call f kwargs with
      | Return v => Return [ ("success", PyBool true); ("result", v) ]
      | Raise e => Return [ ("success", PyBool false);
                            ("error", PyStr (str_exn e));
                            ("tool", PyStr tool_name);
                            ("parameters", PyDict kwargs) ]
      end
    /\ forall params : pyval, exists d, execute_tool reg tool_name params = Return d.
Proof.
  intros reg tool_name info f kwargs Hget Hfun. split.
  - unfold execute_tool.
    rewrite (dict_mem_get _ _ _ Hget), Hget. simpl. rewrite Hfun. simpl.
    destruct (call f kwargs); reflexivity.
  - intros params. apply execute_tool_returns.
Qed.

(** C6: on a name that is not registered, [execute_tool] returns
    [{success: False, error: ...}] whose error says the tool was not found
    and lists every registered name; it does not raise. *)
Theorem execute_tool_unregistered :
  forall (reg : ToolRegistry) (tool_name : string) (params : pyval),
    dict_mem (tools reg) tool_name = false ->
    exists error : string,
      execute_tool reg tool_name params
        = Return [ ("success", PyBool false); ("error", PyStr error) ]
      /\ error = "Tool '" ++ tool_name ++ "' not found. Available tools: "
                 ++ repr_str_list (dict_keys (tools reg))
      /\ forall name, In name (dict_keys (tools reg)) -> occurs_in (repr_str name) error.
Proof.
  intros reg tool_name params Hmem. eexists. split; [|split; [reflexivity|]].
  - unfold execute_tool. rewrite Hmem. reflexivity.
  - intros name Hin. unfold repr_str_list.
    do 4 apply occurs_in_prepend. apply occurs_in_append.
    apply occurs_in_join. now apply in_map.
Qed.

(** ** main_agent.py: [get_groq_tools] *)

Lemma string_append_empty (a : string) : a ++ "" = a.
Proof. induction a as [|c a IH]; simpl; [reflexivity | now rewrite IH]. Qed.

Lemma param_schema_eq (param_name param_desc : string) :
  param_schema param_name param_desc =
    PyDict [ ("type", PyStr "string");
             ("description", PyStr (param_desc ++ json_instruction param_name)) ].
Proof.
  destruct (String.eqb_spec param_name "data") as [->|Hdata]; [reflexivity|].
  unfold param_schema, json_instruction. simpl.
  destruct (param_name =? "filters"); simpl; [reflexivity|].
  destruct (String.eqb_spec param_name "data") as [|_]; [contradiction|]. simpl.
  destruct (param_name =? "group_by"); simpl; [reflexivity|].
  destruct (param_name =? "columns"); simpl; [reflexivity|].
  destruct (param_name =? "on_columns"); simpl; [reflexivity|].
  now rewrite string_append_empty.
Qed.

Lemma dict_get_app_absent {V} (d d' : list (string * V)) (k : string) :
  dict_get d k = None -> dict_get (d ++ d') k = dict_get d' k.
Proof.
  induction d as [|[k' v'] d IH]; simpl; [reflexivity|].
  destruct (k' =? k); [discriminate | exact IH].
Qed.

Lemma dict_set_absent {V} (d : list (string * V)) (k : string) (v : V) :
  dict_get d k = None -> dict_set d k v = (d ++ [(k, v)])%list.
Proof.
  induction d as [|[k' v'] d IH]; simpl; [reflexivity|].
  destruct (k' =? k); [discriminate|]. intros H. now rewrite IH.
Qed.

(** With pairwise distinct names, the inner loop appends one schema and
    one required name per declared parameter, in order. *)
Lemma params_loop_distinct (items : list (string * string)) :
  forall (properties : pydict) (required : list pyval),
    distinct (dict_keys items) = true ->
    (forall k, In k (dict_keys items) -> dict_get properties k = None) ->
    params_loop items properties required =
      ((properties ++ map schema_item items)%list,
       (required ++ map PyStr (dict_keys items))%list).
Proof.
  induction items as [|[p d] items IH]; intros properties required Hd Hfresh; simpl.
  - now rewrite !app_nil_r.
  - simpl in Hd. apply andb_true_iff in Hd as [Hp Hd].
    rewrite dict_set_absent by (apply Hfresh; now left).
    rewrite IH; [now rewrite <- !app_assoc | exact Hd |].
    intros k Hk. rewrite dict_get_app_absent by (apply Hfresh; now right).
    simpl. destruct (p =? k) eqn:E; [|reflexivity].
    apply String.eqb_eq in E. subst k. apply negb_true_iff in Hp.
    assert (existsb (String.eqb p) (dict_keys items) = true) as Hex.
    { apply existsb_exists. exists p. split; [exact Hk | apply String.eqb_refl]. }
    congruence.
Qed.

Lemma dict_get_schema_items (items : list (string * string)) (p d : string) :
  distinct (dict_keys items) = true ->
  In (p, d) items ->
  dict_get (map schema_item items) p = Some (param_schema p d).
Proof.
  induction items as [|[p' d'] items IH]; intros Hd Hin; [contradiction|].
  simpl in Hd. apply andb_true_iff in Hd as [Hp Hd]. simpl.
  destruct Hin as [Heq|Hin].
  - inversion Heq; subst. now rewrite String.eqb_refl.
  - destruct (p' =? p) eqn:E; [|now apply IH].
    apply String.eqb_eq in E. subst p'. apply negb_true_iff in Hp.
    assert (existsb (String.eqb p) (dict_keys items) = true) as Hex.
    { apply existsb_exists. exists p. split; [|apply String.eqb_refl].
      change p with (fst (p, d)). now apply in_map. }
    congruence.
Qed.

(** On readable entries the outer loop appends one schema per tool. *)
Lemma tools_loop_well_formed (items : list (string * tool_info)) :
  forall groq_tools : list pyval,
    well_formed items = true ->
    tools_loop items groq_tools = Return (groq_tools ++ map schema_of items)%list.
Proof.
  induction items as [|[tool_name info] items IH]; intros groq_tools Hwf; simpl.
  - now rewrite app_nil_r.
  - simpl in Hwf. apply andb_true_iff in Hwf as [Hinfo Hwf].
    unfold well_formed_info in Hinfo. unfold schema_of. simpl.
    destruct (parameters info) as [params|]; [|discriminate].
    destruct (description info) as [desc|]; [|discriminate].
    simpl. destruct (params_loop params [] []) as [properties required].
    simpl. rewrite IH by exact Hwf. now rewrite <- app_assoc.
Qed.

(** The first unreadable entry stops the outer loop with a [KeyError]. *)
Lemma tools_loop_malformed (items : list (string * tool_info)) :
  forall groq_tools : list pyval,
    well_formed items = false ->
    tools_loop items groq_tools = Raise (KeyError "parameters")
    \/ tools_loop items groq_tools = Raise (KeyError "description").
Proof.
  induction items as [|[tool_name info] items IH]; intros groq_tools Hwf; simpl.
  - discriminate.
  - simpl in Hwf. unfold well_formed_info in Hwf.
    destruct (parameters info) as [params|]; [|now left].
    destruct (description info) as [desc|]; simpl.
    + destruct (params_loop params [] []) as [properties required].
      simpl. apply IH. exact Hwf.
    + destruct (params_loop params [] []) as [properties required]. now right.
Qed.

(** C8: on a registry whose entries all carry their description and
    parameters, [get_groq_tools] returns one schema per tool, in order.
    The schema of a tool is the dict [{type: 'function', function: {name,
    description, parameters: {type: 'object', properties, required}}}];
    its [required] lists every declared parameter, in order; its
    [properties] bind every declared parameter to [{type: 'string',
    description}], where the description is the declared one followed by
    the JSON-string instruction for [filters] and [data], by the
    JSON-array-string instruction for [group_by], [columns] and
    [on_columns], and by nothing for any other parameter. *)
Theorem get_groq_tools_schema :
  forall self : MainAgent,
    well_formed (tools (tool_registry self)) = true ->
    exists groq_tools : list pyval,
      get_groq_tools self = Return groq_tools
      /\ List.length groq_tools = List.length (tools (tool_registry self))
      /\ forall (i : nat) (tool_name : string) (info : tool_info)
                (params : list (string * string)),
           nth_error (tools (tool_registry self)) i = Some (tool_name, info) ->
           parameters info = Some params ->
           distinct (dict_keys params) = true ->
           exists (desc : string) (properties : pydict),
             description info = Some desc
             /\ nth_error groq_tools i
                = Some (PyDict
                          [ ("type", PyStr "function");
                            ("function",
                             PyDict
                               [ ("name", PyStr tool_name);
                                 ("description", PyStr desc);
                                 ("parameters",
                                  PyDict
                                    [ ("type", PyStr "object");
                                      ("properties", PyDict properties);
                                      ("required",
                                       PyList (map PyStr (dict_keys params))) ]) ]) ])
             /\ dict_keys properties = dict_keys params
             /\ forall p d : string,
                  In (p, d) params ->
                  exists suffix : string,
                    dict_get properties p
                    = Some (PyDict [ ("type", PyStr "string");
                                     ("description", PyStr (d ++ suffix)) ])
                    /\ (p = "filters" \/ p = "data" ->
                        suffix = " Provide as JSON string.")
                    /\ (p = "group_by" \/ p = "columns" \/ p = "on_columns" ->
                        suffix = " Provide as JSON array string.")
                    /\ (p <> "filters" -> p <> "data" -> p <> "group_by" ->
                        p <> "columns" -> p <> "on_columns" -> suffix = "").
Proof.
  intros self Hwf. exists (map schema_of (tools (tool_registry self))).
  split; [|split].
  - unfold get_groq_tools. now rewrite tools_loop_well_formed.
  - apply length_map.
  - intros i tool_name info params Hnth Hparams Hdistinct.
    assert (well_formed_info info = true) as Hinfo.
    { unfold well_formed in Hwf. rewrite forallb_forall in Hwf.
      apply (Hwf (tool_name, info)). eapply nth_error_In. exact Hnth. }
    unfold well_formed_info in Hinfo. rewrite Hparams in Hinfo.
    destruct (description info) as [desc|] eqn:Hdesc; [|discriminate].
    exists desc, (map schema_item params). split; [reflexivity|]. split; [|split].
    + rewrite (map_nth_error schema_of i _ Hnth). unfold schema_of. simpl.
      rewrite Hparams, Hdesc.
      rewrite params_loop_distinct by (trivial; intros; reflexivity).
      reflexivity.
    + unfold dict_keys. rewrite map_map. reflexivity.
    + intros p d Hin. exists (json_instruction p). split; [|split; [|split]].
      * rewrite (dict_get_schema_items _ _ _ Hdistinct Hin).
        now rewrite param_schema_eq.
      * intros [->| ->]; reflexivity.
      * intros [->|[->| ->]]; reflexivity.
      * intros H1 H2 H3 H4 H5. unfold json_instruction. simpl.
        apply String.eqb_neq in H1, H2, H3, H4, H5.
        now rewrite H1, H2, H3, H4, H5.
Qed.

(** ** [get_groq_tools] and the heap *)

Lemma nth_error_middle {A} (pre : list A) (x : A) (post : list A) :
  nth_error (pre ++ x :: post)%list (List.length pre) = Some x.
Proof. induction pre as [|y pre IH]; simpl; [reflexivity | exact IH]. Qed.

Lemma heap_store_middle (pre : heap) (x o : object) (post : heap) :
  heap_store (List.length pre) o (pre ++ x :: post)%list = (pre ++ o :: post)%list.
Proof.
  induction pre as [|y pre IH]; [reflexivity|].
  cbn [app List.length]. cbn [heap_store]. f_equal. exact IH.
Qed.

Lemma nth_error_second {A} (pre : list A) (x y : A) (post : list A) :
  nth_error (pre ++ x :: y :: post)%list (S (List.length pre)) = Some y.
Proof. induction pre as [|z pre IH]; simpl; [reflexivity | exact IH]. Qed.

Lemma heap_store_second (pre : heap) (x y o : object) (post : heap) :
  heap_store (S (List.length pre)) o (pre ++ x :: y :: post)%list
  = (pre ++ x :: o :: post)%list.
Proof.
  induction pre as [|z pre IH]; [reflexivity|].
  cbn [app List.length]. cbn [heap_store]. f_equal. exact IH.
Qed.

(** The inner loop fills the two objects made for it as [params_loop]
    says, and touches no other. *)
Lemma param_statements_run (items : list (string * string)) :
  forall (pre : heap) (properties : pydict) (required : list pyval),
    heap_for_each items (param_statements (List.length pre) (S (List.length pre)))
      (pre ++ [DictObject properties; ListObject required])%list
    = (Return tt,
       (pre ++ [DictObject (fst (params_loop items properties required));
                ListObject (snd (params_loop items properties required))])%list).
Proof.
  induction items as [|[param_name param_desc] items IH]; intros pre properties required.
  - reflexivity.
  - cbn [heap_for_each params_loop]. unfold heap_bind at 1.
    unfold param_statements, heap_bind, setitem, append.
    rewrite nth_error_middle, heap_store_middle.
    rewrite nth_error_second, heap_store_second.
    apply IH.
Qed.

(** The outer loop appends to the list made for it what [tools_loop]
    appends, stops where [tools_loop] stops, and leaves the objects that
    were there before as they were. *)
Lemma tool_statements_run (items : list (string * tool_info)) :
  forall (pre : heap) (groq_tools : list pyval) (built : heap),
    exists (groq_tools' : list pyval) (built' : heap),
      heap_for_each items (tool_statements (List.length pre))
        (pre ++ ListObject groq_tools :: built)%list
      = (match tools_loop items groq_tools with
         | Return _ => Return tt
         | Raise e => Raise e
         end,
         (pre ++ ListObject groq_tools' :: built')%list)
      /\ forall l, tools_loop items groq_tools = Return l -> groq_tools' = l.
Proof.
  induction items as [|[tool_name info] items IH]; intros pre groq_tools built.
  - exists groq_tools, built. split; [reflexivity|]. intros l Hl. now inversion Hl.
  - cbn [heap_for_each tools_loop]. unfold heap_bind at 1.
    unfold tool_statements, heap_bind, allocate, heap_lift.
    set (h := (pre ++ ListObject groq_tools :: built)%list).
    assert (List.length (h ++ [DictObject []]) = S (List.length h)) as Hlen
      by (rewrite length_app; simpl; lia).
    rewrite Hlen. rewrite <- app_assoc. cbn [app].
    destruct (parameters info) as [params|]; cbn [subscript py_bind].
    + rewrite param_statements_run.
      destruct (params_loop params [] []) as [properties required]. cbn [fst snd].
      destruct (description info) as [desc|]; cbn [subscript py_bind].
      * unfold read_dict, read_list, append.
        rewrite nth_error_middle, nth_error_second.
        unfold h. rewrite <- app_assoc. cbn [app].
        rewrite nth_error_middle, heap_store_middle.
        apply IH.
      * exists groq_tools, (built ++ [DictObject properties; ListObject required])%list.
        unfold h. rewrite <- app_assoc. split; [reflexivity | discriminate].
    + exists groq_tools, (built ++ [DictObject []; ListObject []])%list.
      unfold h. rewrite <- app_assoc. split; [reflexivity | discriminate].
Qed.

(** Run from any heap, the statements of [get_groq_tools] give what
    [get_groq_tools] gives, leave every object of the heap as it was and
    only add objects of their own. *)
Lemma get_groq_tools_statements_run (self : MainAgent) (h : heap) :
  exists built : heap,
    get_groq_tools_statements self h = (get_groq_tools self, (h ++ built)%list).
Proof.
  unfold get_groq_tools_statements, get_groq_tools, heap_bind, allocate.
  destruct (tool_statements_run (tools (tool_registry self)) h [] [])
    as (groq_tools' & built' & Hrun & Hvalue).
  rewrite Hrun.
  destruct (tools_loop (tools (tool_registry self)) []) as [l|e].
  - unfold read_list. rewrite nth_error_middle, (Hvalue l eq_refl).
    now exists (ListObject l :: built').
  - now exists (ListObject groq_tools' :: built').
Qed.

Section Properties.
Context {env : Environment}.

(** C9 (as the code has it): [get_groq_tools] is a pure transformation:
    from any heap its statements return the same value, which depends on
    the registry alone, they change no object that was there and only add
    the list and the dicts they build.  It raises exactly when an entry of
    the registry lacks its parameters or its description, and then with
    the [KeyError] of that key; [process_query] lets this error through
    before any model call or tool execution.  Building the agent does not
    read the registry: it succeeds on one registry exactly when it
    succeeds on any other. *)
Theorem get_groq_tools_failure :
  forall (self : MainAgent) (user_query : string),
    (forall h : heap,
        exists built : heap,
          get_groq_tools_statements self h = (get_groq_tools self, (h ++ built)%list))
    /\ (forall self' : MainAgent,
          tools (tool_registry self') = tools (tool_registry self) ->
          get_groq_tools self' = get_groq_tools self)
    /\ ((exists e, get_groq_tools self = Raise e)
        <-> well_formed (tools (tool_registry self)) = false)
    /\ (forall e,
          get_groq_tools self = Raise e ->
          (e = KeyError "parameters" \/ e = KeyError "description")
          /\ process_query self user_query = Some (Raise e, []))
    /\ (forall (model : string) (reg reg' : ToolRegistry),
          (exists agent, MainAgent_init model reg = Return agent)
          <-> (exists agent', MainAgent_init model reg' = Return agent')).
Proof.
  intros self user_query. split; [|split; [|split; [|split]]].
  - intros h. apply get_groq_tools_statements_run.
  - intros self' Hsame. unfold get_groq_tools. now rewrite Hsame.
  - unfold get_groq_tools. split.
    + intros [e He].
      destruct (well_formed (tools (tool_registry self))) eqn:Hwf; [|reflexivity].
      rewrite tools_loop_well_formed in He by exact Hwf. discriminate.
    + intros Hwf.
      destruct (tools_loop_malformed _ [] Hwf) as [H|H]; rewrite H; eexists; reflexivity.
  - intros e He. split.
    + destruct (well_formed (tools (tool_registry self))) eqn:Hwf.
      * unfold get_groq_tools in He.
        rewrite tools_loop_well_formed in He by exact Hwf. discriminate.
      * unfold get_groq_tools in He.
        destruct (tools_loop_malformed _ [] Hwf) as [H|H];
          rewrite H in He; inversion He; auto.
    + unfold process_query. now rewrite He.
  - intros model reg reg'. unfold MainAgent_init.
    destruct (Groq_new (getenv "GROQ_API_KEY")) as [client|e]; simpl;
      split; intros [agent Hagent]; try discriminate; eexists; reflexivity.
Qed.

(** ** main_agent.py: one tool call *)

Lemma tool_result_of_eq (self : MainAgent) (tc : tool_call) :
  execute_tool (tool_registry self) (function_name tc) (arguments_of tc)
  = Return (tool_result_of self tc).
Proof.
  unfold tool_result_of.
  destruct (execute_tool_returns (tool_registry self) (function_name tc)
              (arguments_of tc)) as [d Hd].
  now rewrite Hd.
Qed.

(** What the decoding of the arguments returns is what the call is
    executed with. *)
Lemma parse_arguments_returns (tc : tool_call) (tool_args : pyval) :
  parse_arguments (function_name tc) (function_arguments tc) = Return tool_args ->
  tool_args = arguments_of tc.
Proof.
  unfold parse_arguments, arguments_of, try_except_JSONDecodeError.
  destruct (json_loads (function_arguments tc)) as [v|e].
  - intros H. now inversion H.
  - destruct e; try discriminate. simpl.
    match goal with |- context [print ?t] => destruct (print t) end;
      simpl; intros H; now inversion H.
Qed.

Lemma before_execution_returns (index : nat) (tc : tool_call) (tool_args : pyval) :
  before_execution index tc = Return tool_args ->
  tool_args = arguments_of tc.
Proof.
  unfold before_execution.
  destruct (print_tool_call index (function_name tc) (function_arguments tc));
    simpl; [apply parse_arguments_returns | discriminate].
Qed.

Lemma stopped_before_execution (self : MainAgent) (tc : tool_call) (s : state) :
  stopped self BeforeExecution tc s = s.
Proof. destruct s. unfold stopped. simpl. now rewrite !app_nil_r. Qed.

(** A tool call runs to its end or is left at one of three places. *)
Lemma tool_call_body_eq (self : MainAgent) (index : nat) (tc : tool_call) (s : state) :
  tool_call_body self (index, tc) s =
    match stops self (index, tc) with
    | None => (Return tt, with_calls self [tc] s)
    | Some (at_stage, e) => (Raise e, stopped self at_stage tc s)
    end.
Proof.
  unfold stops. fold (before_execution index tc).
  unfold tool_call_body, bind, lift, emit, execution_log_append, messages_append, modify.
  unfold before_execution.
  destruct (print_tool_call index (function_name tc) (function_arguments tc)) as [[]|e];
    simpl; [|now rewrite stopped_before_execution].
  destruct (parse_arguments (function_name tc) (function_arguments tc))
    as [tool_args|e] eqn:Hparse; simpl; [|now rewrite stopped_before_execution].
  apply parse_arguments_returns in Hparse. subst tool_args.
  rewrite tool_result_of_eq. simpl.
  destruct (print_tool_result (tool_result_of self tc)) as [[]|e]; simpl.
  - unfold with_calls, stopped, tool_message_of, entry_of, exec_event_of. simpl.
    destruct (json_dumps (PyDict (tool_result_of self tc))); reflexivity.
  - unfold stopped. simpl. now rewrite app_nil_r.
Qed.

Lemma with_calls_cons (self : MainAgent) (tc : tool_call) (calls : list tool_call)
    (s : state) :
  with_calls self calls (with_calls self [tc] s) = with_calls self (tc :: calls) s.
Proof.
  unfold with_calls. simpl. now rewrite <- !app_assoc.
Qed.

Lemma with_calls_nil (self : MainAgent) (s : state) : with_calls self [] s = s.
Proof.
  destruct s. unfold with_calls. simpl. now rewrite !app_nil_r.
Qed.

Lemma with_calls_app (self : MainAgent) (pre calls : list tool_call) (s : state) :
  with_calls self calls (with_calls self pre s) = with_calls self (pre ++ calls) s.
Proof.
  unfold with_calls. simpl. now rewrite !map_app, <- !app_assoc.
Qed.

(** When every call runs to its end the [for] loop runs them all, in
    order. *)
Lemma for_each_completes (self : MainAgent) (calls : list tool_call) :
  forall (start : nat) (s : state),
    forallb (completes self) (enumerate_from start calls) = true ->
    for_each (enumerate_from start calls) (tool_call_body self) s
    = (Return tt, with_calls self calls s).
Proof.
  induction calls as [|tc calls IH]; intros start s Hall;
    cbn [enumerate_from for_each forallb] in *.
  - unfold ret. now rewrite with_calls_nil.
  - apply andb_true_iff in Hall as [Htc Hall].
    unfold bind. rewrite tool_call_body_eq.
    unfold completes in Htc.
    destruct (stops self (start, tc)); [discriminate|].
    rewrite IH by exact Hall. now rewrite with_calls_cons.
Qed.

(** The [for] loop stops at the first call that is left by an
    exception: the calls before it have run to their end, those after it
    are not begun. *)
Lemma for_each_stops (self : MainAgent) (pre : list tool_call) (tc : tool_call)
    (post : list tool_call) (at_stage : stage) (e : exn) :
  forall (start : nat) (s : state),
    forallb (completes self) (enumerate_from start pre) = true ->
    stops self (start + List.length pre, tc) = Some (at_stage, e) ->
    for_each (enumerate_from start (pre ++ tc :: post)) (tool_call_body self) s
    = (Raise e, stopped self at_stage tc (with_calls self pre s)).
Proof.
  induction pre as [|tc' pre IH]; intros start s Hpre Hstop;
    cbn [app enumerate_from for_each forallb List.length] in *.
  - unfold bind. rewrite tool_call_body_eq.
    rewrite Nat.add_0_r in Hstop. rewrite Hstop.
    now rewrite with_calls_nil.
  - apply andb_true_iff in Hpre as [Htc' Hpre].
    unfold bind. rewrite tool_call_body_eq. unfold completes in Htc'.
    destruct (stops self (start, tc')); [discriminate|].
    rewrite (IH (S start)); [now rewrite with_calls_cons | exact Hpre |].
    now rewrite Nat.add_succ_r in Hstop.
Qed.

(** Of the calls of a turn, either all run to their end or there is a
    first one that does not. *)
Lemma turn_cases (self : MainAgent) (calls : list tool_call) :
  forall start : nat,
    forallb (completes self) (enumerate_from start calls) = true
    \/ exists (pre : list tool_call) (tc : tool_call) (post : list tool_call)
              (at_stage : stage) (e : exn),
         calls = (pre ++ tc :: post)%list
         /\ forallb (completes self) (enumerate_from start pre) = true
         /\ stops self (start + List.length pre, tc) = Some (at_stage, e).
Proof.
  induction calls as [|tc calls IH]; intros start; [now left|].
  cbn [enumerate_from forallb]. unfold completes at 1.
  destruct (stops self (start, tc)) as [[at_stage e]|] eqn:Hstop.
  - right. exists [], tc, calls, at_stage, e.
    cbn [app enumerate_from forallb List.length]. rewrite Nat.add_0_r. auto.
  - destruct (IH (S start))
      as [Hall|(pre & tc' & post & at_stage & e & Hcalls & Hpre & Hstop')].
    + now left.
    + right. exists (tc :: pre), tc', post, at_stage, e.
      cbn [app enumerate_from forallb List.length].
      split; [now rewrite Hcalls|]. split.
      * unfold completes at 1. now rewrite Hstop.
      * now rewrite Nat.add_succ_r.
Qed.

Lemma model_calls_app (tr tr' : list event) :
  model_calls (tr ++ tr') = model_calls tr + model_calls tr'.
Proof.
  unfold model_calls. now rewrite filter_app, List.length_app.
Qed.

Lemma model_calls_exec (calls : list tool_call) :
  model_calls (map exec_event_of calls) = 0.
Proof. induction calls as [|tc calls IH]; [reflexivity | exact IH]. Qed.

(** Whatever happens in it, the [for] loop makes no model call and
    leaves the iteration counter alone. *)
Lemma for_each_counters (self : MainAgent) (calls : list tool_call) :
  forall (start : nat) (s s' : state) (o : py unit),
    for_each (enumerate_from start calls) (tool_call_body self) s = (o, s') ->
    st_iteration s' = st_iteration s
    /\ model_calls (st_trace s') = model_calls (st_trace s).
Proof.
  intros start s s' o Hrun.
  destruct (turn_cases self calls start)
    as [Hall|(pre & tc & post & at_stage & e & -> & Hpre & Hstop)].
  - rewrite (for_each_completes _ _ _ _ Hall) in Hrun. inversion Hrun. simpl.
    rewrite model_calls_app, model_calls_exec. split; [reflexivity | lia].
  - rewrite (for_each_stops _ _ _ _ _ _ _ _ Hpre Hstop) in Hrun. inversion Hrun. simpl.
    rewrite !model_calls_app, model_calls_exec.
    destruct at_stage; simpl; split; try reflexivity; unfold model_calls; simpl; lia.
Qed.

(** ** main_agent.py: one pass of the loop body *)

(** The pass, by the outcome of each of its statements that can
    raise. *)
Lemma iteration_body_eq (self : MainAgent) (groq_tools : list pyval) (s : state) :
  iteration_body self groq_tools s =
    let req := completion_kwargs self groq_tools (st_messages s) in
    match print_iteration (S (st_iteration s)) with
    | Raise e => (Raise e, counted s)
    | Return _ =>
        match chat_completions_create (client self) req with
        | Raise e => reported e (called req s)
        | Return response =>
            match requested_tool_calls response with
            | [] =>
                match print_final_answer (content response) with
                | Raise e => reported e (answered response (called req s))
                | Return _ =>
                    (Return (Some {| answer := content response;
                                     chart_data := Some (chart_scan (st_execution_log s));
                                     execution_log := st_execution_log s;
                                     success := true;
                                     iterations := S (st_iteration s) |}),
                     answered response (called req s))
                end
            | _ :: _ =>
                match print ("Tool calls count: "
                             ++ decimal (List.length (requested_tool_calls response))) with
                | Raise e => reported e (answered response (called req s))
                | Return _ =>
                    match for_each (enumerate (requested_tool_calls response))
                            (tool_call_body self) (answered response (called req s)) with
                    | (Return _, s') => (Return None, s')
                    | (Raise e, s') => reported e s'
                    end
                end
            end
        end
    end.
Proof.
  unfold iteration_body, bind, try_exceptM, iteration_incr, gets, emit, lift,
    messages_append, modify, ret, reported, answered, called, counted.
  cbn -[for_each print_iteration print_final_answer enumerate].
  destruct (print_iteration (S (st_iteration s))) as [[]|e]; [|reflexivity].
  destruct (chat_completions_create (client self)
              (completion_kwargs self groq_tools (st_messages s))) as [response|e];
    cbn -[for_each print_final_answer enumerate].
  - destruct (requested_tool_calls response) as [|tc calls] eqn:Hcalls.
    + destruct (print_final_answer (content response)) as [[]|e];
        cbn -[for_each print_final_answer enumerate]; [reflexivity|].
      match goal with |- context [print ?t] => destruct (print t) as [[]|e'] end;
        reflexivity.
    + match goal with |- context [print ?t] => destruct (print t) as [[]|e] end;
        cbn -[for_each enumerate].
      * match goal with
        | |- context [for_each ?l ?b ?st] => destruct (for_each l b st) as [[[]|e] s']
        end; cbn -[for_each enumerate]; [reflexivity|].
        match goal with |- context [print ?t] => destruct (print t) as [[]|e'] end;
          reflexivity.
      * match goal with |- context [print ?t] => destruct (print t) as [[]|e'] end;
          reflexivity.
  - match goal with |- context [print ?t] => destruct (print t) as [[]|e'] end;
      reflexivity.
Qed.

(** The handler writes its line and returns the failure result, or
    raises what the console raises. *)
Lemma reported_cases (e : exn) (s : state) :
  reported e s = (Return (Some (failed e (st_execution_log s) (st_iteration s))), s)
  \/ exists e', reported e s = (Raise e', s).
Proof.
  unfold reported.
  match goal with |- context [print ?t] => destruct (print t) as [[]|e'] end;
    [now left | right; now exists e'].
Qed.

Lemma failed_result_at (e : exn) (s : state) :
  result_at s (failed e (st_execution_log s) (st_iteration s)).
Proof. unfold result_at, failed. simpl. repeat split; auto. discriminate. Qed.

(** Every pass counts one iteration and makes at most one model call,
    and exactly one unless it raises. *)
Lemma iteration_body_pass (self : MainAgent) (groq_tools : list pyval) (s : state) :
  exists (o : py (option agent_result)) (s' : state),
    iteration_body self groq_tools s = (o, s')
    /\ st_iteration s' = S (st_iteration s)
    /\ model_calls (st_trace s') <= S (model_calls (st_trace s))
    /\ forall o', o = Return o' ->
         model_calls (st_trace s') = S (model_calls (st_trace s))
         /\ forall r, o' = Some r -> result_at s' r.
Proof.
  pose (req := completion_kwargs self groq_tools (st_messages s)).
  assert (model_calls (st_trace s ++ [ModelCall req]) = S (model_calls (st_trace s)))
    as Hone.
  { rewrite model_calls_app. change (model_calls [ModelCall req]) with 1. lia. }
  assert (forall (e : exn) (st : state),
             st_iteration st = S (st_iteration s) ->
             model_calls (st_trace st) = S (model_calls (st_trace s)) ->
             exists o s',
               reported e st = (o, s')
               /\ st_iteration s' = S (st_iteration s)
               /\ model_calls (st_trace s') <= S (model_calls (st_trace s))
               /\ forall o', o = Return o' ->
                    model_calls (st_trace s') = S (model_calls (st_trace s))
                    /\ forall r, o' = Some r -> result_at s' r) as Hreported.
  { intros e st Hi Hm.
    destruct (reported_cases e st) as [H|[e' H]]; rewrite H; do 2 eexists;
      (split; [reflexivity|]); (split; [exact Hi|]); (split; [lia|]);
      intros o' Ho'; inversion Ho'; subst.
    split; [exact Hm|]. intros r Hr. inversion Hr. apply failed_result_at. }
  rewrite iteration_body_eq. cbv zeta. fold req.
  destruct (print_iteration (S (st_iteration s))) as [[]|e].
  2:{ do 2 eexists. split; [reflexivity|]. split; [reflexivity|]. simpl.
      split; [lia | discriminate]. }
  destruct (chat_completions_create (client self) req) as [response|e];
    [|now apply Hreported].
  destruct (requested_tool_calls response) as [|tc calls] eqn:Hcalls.
  - destruct (print_final_answer (content response)) as [[]|e];
      [|now apply Hreported].
    do 2 eexists. split; [reflexivity|]. split; [reflexivity|]. simpl.
    split; [lia|]. intros o' Ho'. inversion Ho'. subst. split; [exact Hone|].
    intros r Hr. inversion Hr. unfold result_at. simpl. repeat split; auto. discriminate.
  - match goal with |- context [print ?t] => destruct (print t) as [[]|e] end;
      [|now apply Hreported].
    destruct (for_each (enumerate (tc :: calls)) (tool_call_body self)
                (answered response (called req s))) as [o s'] eqn:Hfor.
    destruct (for_each_counters _ _ _ _ _ _ Hfor) as [Hi Hm].
    simpl in Hi, Hm. rewrite Hone in Hm.
    destruct o as [[]|e]; [|now apply Hreported].
    do 2 eexists. split; [reflexivity|]. split; [exact Hi|]. split; [lia|].
    intros o' Ho'. inversion Ho'. subst. split; [exact Hm | discriminate].
Qed.

(** ** main_agent.py: the [while] loop *)

Lemma passes_counters (self : MainAgent) (groq_tools : list pyval) (k : nat) :
  forall s s' : state,
    passes k self groq_tools s = Some s' ->
    st_iteration s' = st_iteration s + k
    /\ model_calls (st_trace s') = model_calls (st_trace s) + k.
Proof.
  induction k as [|k IH]; intros s s' Hp; simpl in Hp.
  - inversion Hp. lia.
  - destruct (iteration_body_pass self groq_tools s) as (o & s1 & Hb & Hi & _ & Hm).
    rewrite Hb in Hp. destruct o as [[r|]|e]; try discriminate.
    destruct (Hm None eq_refl) as [Hm' _].
    apply IH in Hp. lia.
Qed.

(** Passes that fall through are passes of the loop. *)
Lemma while_loop_passes (self : MainAgent) (groq_tools : list pyval) (k fuel : nat) :
  forall s s' : state,
    passes k self groq_tools s = Some s' ->
    st_iteration s + k <= max_iterations ->
    while_loop (k + fuel) self groq_tools s = while_loop fuel self groq_tools s'.
Proof.
  induction k as [|k IH]; intros s s' Hp Hle; simpl in Hp.
  - now inversion Hp.
  - destruct (iteration_body_pass self groq_tools s) as (o & s1 & Hb & Hi & _).
    rewrite Hb in Hp. destruct o as [[r|]|e]; try discriminate.
    change (S k + fuel) with (S (k + fuel)). simpl while_loop.
    destruct (Nat.ltb_spec (st_iteration s) max_iterations) as [_|Hge]; [|lia].
    rewrite Hb. apply IH; [exact Hp | lia].
Qed.

(** With fuel for the iterations that are left the loop ends; it has
    made at most one model call per iteration, and exactly one unless it
    ended by raising. *)
Lemma while_loop_settles (self : MainAgent) (groq_tools : list pyval) (fuel : nat) :
  forall s : state,
    st_iteration s <= max_iterations ->
    max_iterations - st_iteration s <= fuel ->
    exists (o : py (option agent_result)) (s' : state),
      while_loop fuel self groq_tools s = Some (o, s')
      /\ st_iteration s' <= max_iterations
      /\ model_calls (st_trace s') + st_iteration s
         <= model_calls (st_trace s) + st_iteration s'
      /\ forall o', o = Return o' ->
           model_calls (st_trace s') + st_iteration s
           = model_calls (st_trace s) + st_iteration s'
           /\ match o' with
              | None => st_iteration s' = max_iterations
              | Some r => result_at s' r
              end.
Proof.
  induction fuel as [|fuel IH]; intros s Hle Hfuel.
  - exists (Return None), s. simpl.
    destruct (Nat.ltb_spec (st_iteration s) max_iterations) as [Hlt|Hge]; [lia|].
    split; [reflexivity|]. split; [lia|]. split; [lia|].
    intros o' Ho'. inversion Ho'. split; lia.
  - simpl.
    destruct (Nat.ltb_spec (st_iteration s) max_iterations) as [Hlt|Hge].
    + destruct (iteration_body_pass self groq_tools s) as (o & s1 & Hb & Hi & Hm & Hr).
      rewrite Hb. destruct o as [[r|]|e].
      * exists (Return (Some r)), s1. split; [reflexivity|].
        destruct (Hr _ eq_refl) as [Hm' Hres].
        split; [lia|]. split; [lia|]. intros o' Ho'. inversion Ho'. subst.
        split; [lia | now apply Hres].
      * destruct (Hr _ eq_refl) as [Hm' _].
        destruct (IH s1) as (o & s' & Hw & Hle' & Hm'' & Ho); [lia | lia |].
        exists o, s'. split; [exact Hw|]. split; [exact Hle'|]. split; [lia|].
        intros o' Ho'. destruct (Ho o' Ho') as [Heq Hend]. split; [lia | exact Hend].
      * exists (Raise e), s1. split; [reflexivity|]. split; [lia|]. split; [lia|].
        discriminate.
    + exists (Return None), s. split; [reflexivity|]. split; [lia|]. split; [lia|].
      intros o' Ho'. inversion Ho'. split; lia.
Qed.

Lemma process_query_eq (self : MainAgent) (user_query : string)
    (groq_tools : list pyval) :
  get_groq_tools self = Return groq_tools ->
  process_query self user_query
  = finish (while_loop max_iterations self groq_tools (initial_state user_query)).
Proof.
  intros Htools. unfold process_query, finish. rewrite Htools. reflexivity.
Qed.

(** After [k] passes that fell through, the run is the rest of the loop. *)
Lemma process_query_after (self : MainAgent) (user_query : string)
    (groq_tools : list pyval) (k : nat) (s : state) :
  get_groq_tools self = Return groq_tools ->
  passes k self groq_tools (initial_state user_query) = Some s ->
  k <= max_iterations ->
  process_query self user_query
  = finish (while_loop (max_iterations - k) self groq_tools s)
  /\ st_iteration s = k
  /\ model_calls (st_trace s) = k.
Proof.
  intros Htools Hp Hk.
  destruct (passes_counters _ _ _ _ _ Hp) as [Hi Hm]. simpl in Hi, Hm.
  split; [|split; assumption].
  rewrite (process_query_eq _ _ _ Htools).
  replace max_iterations with (k + (max_iterations - k)) at 1 by lia.
  rewrite (while_loop_passes _ _ _ _ _ _ Hp); [reflexivity | simpl; lia].
Qed.

(** The run after [k] passes that fell through, when the loop is not
    yet left: it is what the next pass makes of it. *)
Lemma process_query_next (self : MainAgent) (user_query : string)
    (groq_tools : list pyval) (k : nat) (s : state) :
  get_groq_tools self = Return groq_tools ->
  passes k self groq_tools (initial_state user_query) = Some s ->
  k < max_iterations ->
  st_iteration s = k
  /\ model_calls (st_trace s) = k
  /\ (forall (r : agent_result) (s' : state),
        iteration_body self groq_tools s = (Return (Some r), s') ->
        process_query self user_query = Some (Return r, st_trace s'))
  /\ (forall (e : exn) (s' : state),
        iteration_body self groq_tools s = (Raise e, s') ->
        process_query self user_query = Some (Raise e, st_trace s')).
Proof.
  intros Htools Hp Hk.
  destruct (process_query_after _ _ _ _ _ Htools Hp (Nat.lt_le_incl _ _ Hk))
    as (Hq & Hi & Hm).
  split; [exact Hi|]. split; [exact Hm|].
  destruct (max_iterations - k) as [|fuel] eqn:Hfuel; [lia|].
  split; intros x s' Hbody; rewrite Hq; simpl while_loop;
    (destruct (Nat.ltb_spec (st_iteration s) max_iterations) as [_|Hge]; [|lia]);
    now rewrite Hbody.
Qed.

(** C1: every run of [process_query] ends, with a result or with an
    exception (the schema error, or one that the console raised outside
    the [try]), after at most 15 model calls, one per iteration; and when
    15 passes of the loop body all fall through, the run returns (it does
    not raise) the result with [success = False], [iterations = 15], the
    execution log as it then stands and the iteration-limit answer. *)
Theorem process_query_bounded :
  forall (self : MainAgent) (user_query : string),
    (exists (out : py agent_result) (tr : list event),
        process_query self user_query = Some (out, tr)
        /\ model_calls tr <= max_iterations
        /\ forall r, out = Return r ->
              iterations r <= max_iterations /\ model_calls tr = iterations r)
    /\ forall (groq_tools : list pyval) (s : state),
         get_groq_tools self = Return groq_tools ->
         passes max_iterations self groq_tools (initial_state user_query) = Some s ->
         process_query self user_query
         = Some (Return {| answer := Some "Could not complete analysis within iteration limit";
                           chart_data := None;
                           execution_log := st_execution_log s;
                           success := false;
                           iterations := 15 |},
                 st_trace s)
         /\ model_calls (st_trace s) = 15.
Proof.
  intros self user_query. split.
  - destruct (get_groq_tools self) as [groq_tools|e] eqn:Htools.
    + rewrite (process_query_eq _ _ _ Htools).
      destruct (while_loop_settles self groq_tools max_iterations
                  (initial_state user_query))
        as (o & s' & Hw & Hle & Hm & Ho);
        [unfold max_iterations; simpl; lia | unfold max_iterations; simpl; lia |].
      rewrite Hw. simpl in Hm. change (model_calls []) with 0 in Hm.
      destruct o as [[r|]|e]; simpl; do 2 eexists; (split; [reflexivity|]);
        (split; [lia|]); intros r' Hr'; inversion Hr'; subst r'.
      * destruct (Ho _ eq_refl) as [Heq (Hit & _)]. simpl in Heq.
        change (model_calls []) with 0 in Heq. rewrite Hit. lia.
      * destruct (Ho _ eq_refl) as [Heq Hend]. simpl in Heq.
        change (model_calls []) with 0 in Heq. simpl. lia.
    + unfold process_query. rewrite Htools.
      do 2 eexists. split; [reflexivity|]. split; [apply Nat.le_0_l | discriminate].
  - intros groq_tools s Htools Hp.
    destruct (process_query_after _ _ _ _ _ Htools Hp (le_n _)) as (Hq & Hi & Hm).
    split; [|exact Hm].
    rewrite Hq, Nat.sub_diag. simpl.
    destruct (Nat.ltb_spec (st_iteration s) max_iterations) as [Hlt|_]; [lia|].
    reflexivity.
Qed.

(** C3 (as the code has it): if the first [k] passes fell through and
    the model call of iteration [k+1] raises [e], the call is the last
    call of the run, the [k+1]-th to the model, and the handler writes one
    line, with [str(e)], to the console.  When the console takes the
    line, [process_query] returns at once: the result has
    [success = False], [iterations = k+1], the execution log as it stood
    before the call and an answer that ends with [str(e)].  When the
    console raises on the line, [process_query] returns no result: it
    raises what the console raised. *)
Theorem model_call_failure :
  forall (self : MainAgent) (user_query : string) (groq_tools : list pyval)
         (k : nat) (s : state) (e : exn),
    get_groq_tools self = Return groq_tools ->
    passes k self groq_tools (initial_state user_query) = Some s ->
    k < max_iterations ->
    print_iteration (S k) = Return tt ->
    chat_completions_create (client self)
      (completion_kwargs self groq_tools (st_messages s)) = Raise e ->
    let tr :=
      (st_trace s ++ [ModelCall (completion_kwargs self groq_tools (st_messages s))])%list in
    model_calls tr = S k
    /\ (print ("Error in iteration " ++ decimal (S k) ++ ": " ++ str_exn e) = Return tt ->
        process_query self user_query
        = Some (Return {| answer := Some ("Error occurred during processing: " ++ str_exn e);
                          chart_data := None;
                          execution_log := st_execution_log s;
                          success := false;
                          iterations := S k |},
                tr))
    /\ (forall e' : exn,
          print ("Error in iteration " ++ decimal (S k) ++ ": " ++ str_exn e) = Raise e' ->
          process_query self user_query = Some (Raise e', tr)).
Proof.
  intros self user_query groq_tools k s e Htools Hp Hk Hbanner Hraise tr.
  destruct (process_query_next _ _ _ _ _ Htools Hp Hk) as (Hi & Hm & Hreturn & Hescape).
  assert (iteration_body self groq_tools s
          = reported e (called (completion_kwargs self groq_tools (st_messages s)) s))
    as Hbody.
  { rewrite iteration_body_eq. cbv zeta. now rewrite Hi, Hbanner, Hraise. }
  unfold reported, called in Hbody.
  cbn [st_iteration st_execution_log st_trace st_messages] in Hbody.
  rewrite Hi in Hbody.
  split; [|split].
  - unfold tr. rewrite model_calls_app, Hm. unfold model_calls. simpl. lia.
  - intros Hline. rewrite Hline in Hbody. exact (Hreturn _ _ Hbody).
  - intros e' Hline. rewrite Hline in Hbody. exact (Hescape _ _ Hbody).
Qed.

(** ** The chart scan *)

Lemma chart_scan_fold (execution_log : list log_entry) :
  chart_scan execution_log
  = fold_left (fun chart_data log_entry =>
                 if successful_chart log_entry
                 then dict_get_default (result log_entry) "result" (PyDict [])
                 else chart_data)
              execution_log PyNone.
Proof. reflexivity. Qed.

Lemma fold_without_chart (l : list log_entry) :
  forall chart_data : pyval,
    forallb (fun e => negb (successful_chart e)) l = true ->
    fold_left (fun chart_data log_entry =>
                 if successful_chart log_entry
                 then dict_get_default (result log_entry) "result" (PyDict [])
                 else chart_data)
              l chart_data
    = chart_data.
Proof.
  induction l as [|e l IH]; intros chart_data Hall; simpl; [reflexivity|].
  simpl in Hall. apply andb_true_iff in Hall as [He Hall].
  apply negb_true_iff in He. rewrite He. now apply IH.
Qed.

(** The scan keeps the result of the last successful chart entry. *)
Lemma chart_scan_latest (l1 l2 : list log_entry) (e : log_entry) :
  successful_chart e = true ->
  forallb (fun e' => negb (successful_chart e')) l2 = true ->
  chart_scan (l1 ++ e :: l2) = dict_get_default (result e) "result" (PyDict []).
Proof.
  intros He Hl2. rewrite chart_scan_fold, fold_left_app. simpl.
  rewrite He. now apply fold_without_chart.
Qed.

Lemma chart_scan_none (l : list log_entry) :
  forallb (fun e => negb (successful_chart e)) l = true ->
  chart_scan l = PyNone.
Proof.
  intros Hall. rewrite chart_scan_fold. now apply fold_without_chart.
Qed.

(** C4 (as the code has it): if the first [k] passes fell through and
    the response of iteration [k+1] carries no tool call, the loop writes
    the final answer to the console and, when the console takes it,
    [process_query] returns [success = True], the response's text as
    answer, [iterations = k+1], the execution log, and as [chart_data]
    the outcome of the chart scan: the ["result"] of the last log entry
    whose tool is [create_chart] and whose result reports success, and
    [None] when the log has no such entry.  When the console raises on
    one of the lines, the handler takes over and [process_query] returns
    the failure result with that error and no [chart_data]. *)
Theorem final_answer :
  forall (self : MainAgent) (user_query : string) (groq_tools : list pyval)
         (k : nat) (s : state) (response : response_message),
    get_groq_tools self = Return groq_tools ->
    passes k self groq_tools (initial_state user_query) = Some s ->
    k < max_iterations ->
    print_iteration (S k) = Return tt ->
    chat_completions_create (client self)
      (completion_kwargs self groq_tools (st_messages s)) = Return response ->
    requested_tool_calls response = [] ->
    let tr :=
      (st_trace s ++ [ModelCall (completion_kwargs self groq_tools (st_messages s))])%list in
    (print_final_answer (content response) = Return tt ->
     process_query self user_query
     = Some (Return {| answer := content response;
                       chart_data := Some (chart_scan (st_execution_log s));
                       execution_log := st_execution_log s;
                       success := true;
                       iterations := S k |},
             tr))
    /\ (forall e : exn,
          print_final_answer (content response) = Raise e ->
          print ("Error in iteration " ++ decimal (S k) ++ ": " ++ str_exn e) = Return tt ->
          process_query self user_query
          = Some (Return {| answer := Some ("Error occurred during processing: "
                                            ++ str_exn e);
                            chart_data := None;
                            execution_log := st_execution_log s;
                            success := false;
                            iterations := S k |},
                  tr))
    /\ (forall (l1 l2 : list log_entry) (e : log_entry),
          st_execution_log s = (l1 ++ e :: l2)%list ->
          successful_chart e = true ->
          forallb (fun e' => negb (successful_chart e')) l2 = true ->
          chart_scan (st_execution_log s)
          = dict_get_default (result e) "result" (PyDict []))
    /\ (forallb (fun e' => negb (successful_chart e')) (st_execution_log s) = true ->
        chart_scan (st_execution_log s) = PyNone).
Proof.
  intros self user_query groq_tools k s response Htools Hp Hk Hbanner Hcall Hnone tr.
  destruct (process_query_next _ _ _ _ _ Htools Hp Hk) as (Hi & Hm & Hreturn & _).
  pose proof (iteration_body_eq self groq_tools s) as Hbody. cbv zeta in Hbody.
  rewrite Hi, Hbanner, Hcall, Hnone in Hbody.
  split; [|split; [|split]].
  - intros Hlines. rewrite Hlines in Hbody. exact (Hreturn _ _ Hbody).
  - intros e Hlines Hline. rewrite Hlines in Hbody.
    unfold reported, answered, called in Hbody.
    cbn [st_iteration st_execution_log st_trace st_messages] in Hbody.
    rewrite Hi, Hline in Hbody.
    exact (Hreturn _ _ Hbody).
  - intros l1 l2 e Hlog He Hl2. rewrite Hlog. now apply chart_scan_latest.
  - apply chart_scan_none.
Qed.

(** C10: a result of [process_query] with [success = False] (the model
    call or a statement of the tool loop raised, or the iteration limit
    was reached) has no [chart_data] key, whatever its execution log
    holds; a result with [success = True] has the key, bound to the
    outcome of the chart scan of its log. *)
Theorem chart_data_only_when_done :
  forall (self : MainAgent) (user_query : string) (r : agent_result)
         (tr : list event),
    process_query self user_query = Some (Return r, tr) ->
    (success r = false -> chart_data r = None)
    /\ (success r = true -> chart_data r = Some (chart_scan (execution_log r))).
Proof.
  intros self user_query r tr Hrun.
  destruct (get_groq_tools self) as [groq_tools|e] eqn:Htools.
  - rewrite (process_query_eq _ _ _ Htools) in Hrun.
    destruct (while_loop_settles self groq_tools max_iterations
                (initial_state user_query))
      as (o & s' & Hw & _ & _ & Ho);
      [unfold max_iterations; simpl; lia | unfold max_iterations; simpl; lia |].
    rewrite Hw in Hrun. destruct o as [[r'|]|e]; simpl in Hrun; inversion Hrun; subst.
    + destruct (Ho _ eq_refl) as [_ (_ & _ & Hf & Ht)]. now split.
    + simpl. split; [reflexivity | discriminate].
  - unfold process_query in Hrun. rewrite Htools in Hrun. discriminate.
Qed.

(** ** main_agent.py: a turn with tool calls *)

(** A turn whose calls all run to their end falls through. *)
Lemma turn_completed (self : MainAgent) (groq_tools : list pyval) (s : state)
    (response : response_message) :
  let req := completion_kwargs self groq_tools (st_messages s) in
  print_iteration (S (st_iteration s)) = Return tt ->
  chat_completions_create (client self) req = Return response ->
  requested_tool_calls response <> [] ->
  print ("Tool calls count: " ++ decimal (List.length (requested_tool_calls response)))
  = Return tt ->
  forallb (completes self) (enumerate (requested_tool_calls response)) = true ->
  iteration_body self groq_tools s
  = (Return None,
     with_calls self (requested_tool_calls response) (answered response (called req s))).
Proof.
  intros req Hbanner Hcall Hsome Hcount Hall.
  rewrite iteration_body_eq. cbv zeta. fold req. rewrite Hbanner, Hcall.
  destruct (requested_tool_calls response) as [|tc calls] eqn:Hcalls; [congruence|].
  rewrite Hcount. unfold enumerate in *. now rewrite for_each_completes.
Qed.

(** A turn stops at the first call that is left by an exception, and
    the handler takes over with the locals as that call left them. *)
Lemma turn_interrupted (self : MainAgent) (groq_tools : list pyval) (s : state)
    (response : response_message) (pre : list tool_call) (tc : tool_call)
    (post : list tool_call) (at_stage : stage) (e : exn) :
  let req := completion_kwargs self groq_tools (st_messages s) in
  print_iteration (S (st_iteration s)) = Return tt ->
  chat_completions_create (client self) req = Return response ->
  requested_tool_calls response = (pre ++ tc :: post)%list ->
  print ("Tool calls count: " ++ decimal (List.length (pre ++ tc :: post))) = Return tt ->
  forallb (completes self) (enumerate pre) = true ->
  stops self (List.length pre, tc) = Some (at_stage, e) ->
  iteration_body self groq_tools s
  = reported e (stopped self at_stage tc
                  (with_calls self pre (answered response (called req s)))).
Proof.
  intros req Hbanner Hcall Hcalls Hcount Hpre Hstop.
  rewrite iteration_body_eq. cbv zeta. fold req. rewrite Hbanner, Hcall, Hcalls.
  destruct (pre ++ tc :: post)%list as [|tc0 calls] eqn:Hlist;
    [destruct pre; discriminate|].
  rewrite Hcount. rewrite <- Hlist. unfold enumerate in *.
  now rewrite (for_each_stops _ _ _ _ _ _ _ _ Hpre Hstop).
Qed.

Lemma while_loop_returns (self : MainAgent) (groq_tools : list pyval) (s s' : state)
    (r : agent_result) (fuel : nat) :
  iteration_body self groq_tools s = (Return (Some r), s') ->
  st_iteration s < max_iterations ->
  while_loop (S fuel) self groq_tools s = Some (Return (Some r), s').
Proof.
  intros Hbody Hlt. simpl while_loop.
  destruct (Nat.ltb_spec (st_iteration s) max_iterations) as [_|Hge]; [|lia].
  now rewrite Hbody.
Qed.

(** C2 (as the code has it): in a pass whose response carries the tool
    calls [calls], when the console takes the lines the loop writes and
    every call runs to its end (its arguments decode, or fail to decode
    with a [JSONDecodeError], and [json.dumps] encodes its result), the
    loop appends the response message, then for each call, in the order
    given, one log entry and one tool message that carries the call's
    id, executing the tools in that order after the one model call; the
    pass then falls through to the next test of the loop condition.
    When [json.dumps] raises on the result of a call, the calls before it
    having run to their end, the entry of that call is logged, no tool
    message is appended for it, the calls after it are not executed and
    the pass returns the failure result with the current iteration
    count.  A run whose first response carries one call that runs to its
    end and whose second carries none ends with [iterations = 2], a log
    of length 1 and [success = True]. *)
Theorem tool_call_turn :
  (forall (self : MainAgent) (groq_tools : list pyval) (s : state)
          (response : response_message) (calls : list tool_call),
      print_iteration (S (st_iteration s)) = Return tt ->
      chat_completions_create (client self)
        (completion_kwargs self groq_tools (st_messages s)) = Return response ->
      tool_calls response = Some calls ->
      calls <> [] ->
      print ("Tool calls count: " ++ decimal (List.length calls)) = Return tt ->
      (forallb (completes self) (enumerate calls) = true ->
       let s' :=
         {| st_messages :=
              (st_messages s ++ AssistantMsg response :: map (tool_message_of self) calls)%list;
            st_iteration := S (st_iteration s);
            st_execution_log := (st_execution_log s ++ map (entry_of self) calls)%list;
            st_trace :=
              (st_trace s
               ++ ModelCall (completion_kwargs self groq_tools (st_messages s))
                  :: map exec_event_of calls)%list |} in
       iteration_body self groq_tools s = (Return None, s')
       /\ (st_iteration s < max_iterations ->
           forall fuel, while_loop (S fuel) self groq_tools s
                        = while_loop fuel self groq_tools s'))
      /\ (forall (pre : list tool_call) (tc : tool_call) (post : list tool_call)
                 (tool_args : pyval) (tool_result : pydict) (e : exn),
            calls = (pre ++ tc :: post)%list ->
            forallb (completes self) (enumerate pre) = true ->
            before_execution (List.length pre) tc = Return tool_args ->
            execute_tool (tool_registry self) (function_name tc) tool_args
            = Return tool_result ->
            print_tool_result tool_result = Return tt ->
            json_dumps (PyDict tool_result) = Raise e ->
            print ("Error in iteration " ++ decimal (S (st_iteration s)) ++ ": "
                   ++ str_exn e) = Return tt ->
            let log :=
              (st_execution_log s ++ map (entry_of self) pre
               ++ [ {| tool := function_name tc;
                       arguments := tool_args;
                       result := tool_result |} ])%list in
            let r :=
              {| answer := Some ("Error occurred during processing: " ++ str_exn e);
                 chart_data := None;
                 execution_log := log;
                 success := false;
                 iterations := S (st_iteration s) |} in
            let s' :=
              {| st_messages :=
                   (st_messages s
                    ++ AssistantMsg response :: map (tool_message_of self) pre)%list;
                 st_iteration := S (st_iteration s);
                 st_execution_log := log;
                 st_trace :=
                   (st_trace s
                    ++ ModelCall (completion_kwargs self groq_tools (st_messages s))
                       :: map exec_event_of pre
                    ++ [ToolExec (function_name tc) tool_args])%list |} in
            iteration_body self groq_tools s = (Return (Some r), s')
            /\ (st_iteration s < max_iterations ->
                forall fuel, while_loop (S fuel) self groq_tools s
                             = Some (Return (Some r), s'))))
  /\ (forall (self : MainAgent) (user_query : string) (groq_tools : list pyval)
             (tc : tool_call) (first final : response_message),
         get_groq_tools self = Return groq_tools ->
         print_iteration 1 = Return tt ->
         chat_completions_create (client self)
           (completion_kwargs self groq_tools (st_messages (initial_state user_query)))
         = Return first ->
         tool_calls first = Some [tc] ->
         print ("Tool calls count: " ++ decimal 1) = Return tt ->
         completes self (0, tc) = true ->
         print_iteration 2 = Return tt ->
         chat_completions_create (client self)
           (completion_kwargs self groq_tools
              (st_messages (initial_state user_query)
               ++ [AssistantMsg first; tool_message_of self tc]))
         = Return final ->
         requested_tool_calls final = [] ->
         print_final_answer (content final) = Return tt ->
         exists (r : agent_result) (tr : list event),
           process_query self user_query = Some (Return r, tr)
           /\ iterations r = 2
           /\ execution_log r = [entry_of self tc]
           /\ answer r = content final
           /\ success r = true).
Proof.
  split.
  - intros self groq_tools s response calls Hbanner Hcall Hcalls Hne Hcount.
    assert (requested_tool_calls response = calls) as Hreq
      by (unfold requested_tool_calls; now rewrite Hcalls).
    split.
    + intros Hall s'.
      assert (iteration_body self groq_tools s = (Return None, s')) as Hbody.
      { rewrite (turn_completed _ _ _ _ Hbanner Hcall); rewrite Hreq; try assumption.
        unfold s', with_calls, answered, called. simpl. now rewrite <- !app_assoc. }
      split; [exact Hbody|].
      intros Hlt fuel. simpl while_loop.
      destruct (Nat.ltb_spec (st_iteration s) max_iterations) as [_|Hge]; [|lia].
      now rewrite Hbody.
    + intros pre tc post tool_args tool_result e Hsplit Hpre Hbefore Hexec Hlines
             Hdumps Hline log r s'.
      pose proof (before_execution_returns _ _ _ Hbefore) as Hargs. subst tool_args.
      rewrite tool_result_of_eq in Hexec. inversion Hexec as [Hresult].
      assert (stops self (List.length pre, tc) = Some (BeforeMessage, e)) as Hstop.
      { unfold stops. now rewrite Hbefore, Hresult, Hlines, Hdumps. }
      rewrite Hsplit in Hreq, Hcount.
      assert (iteration_body self groq_tools s = (Return (Some r), s')) as Hbody.
      { rewrite (turn_interrupted _ _ _ _ _ _ _ _ _ Hbanner Hcall Hreq Hcount Hpre Hstop).
        unfold reported, stopped, with_calls, answered, called.
        cbn [st_iteration st_execution_log st_trace st_messages].
        rewrite Hline. unfold r, s', log, failed, entry_of, exec_event_of.
        rewrite Hresult. now rewrite <- !app_assoc. }
      split; [exact Hbody|].
      intros Hlt fuel. now apply while_loop_returns.
  - intros self user_query groq_tools tc first final Htools Hbanner1 Hfirst Hcalls
           Hcount Hcompletes Hbanner2 Hfinal Hnone Hlines.
    assert (requested_tool_calls first = [tc]) as Hreq
      by (unfold requested_tool_calls; now rewrite Hcalls).
    pose (s0 := initial_state user_query).
    assert (iteration_body self groq_tools s0
            = (Return None,
               with_calls self [tc]
                 (answered first
                    (called (completion_kwargs self groq_tools (st_messages s0)) s0))))
      as Hbody.
    { rewrite (turn_completed self groq_tools s0 first Hbanner1 Hfirst); rewrite Hreq;
        try assumption; try discriminate; try reflexivity.
      unfold enumerate. simpl. now rewrite Hcompletes. }
    assert (passes 1 self groq_tools s0
            = Some (with_calls self [tc]
                      (answered first
                         (called (completion_kwargs self groq_tools (st_messages s0)) s0))))
      as Hpass by (simpl; now rewrite Hbody).
    destruct (process_query_next _ _ _ _ _ Htools Hpass
                ltac:(unfold max_iterations; lia)) as (_ & _ & Hreturn & _).
    pose proof (iteration_body_eq self groq_tools
                  (with_calls self [tc]
                     (answered first
                        (called (completion_kwargs self groq_tools (st_messages s0)) s0))))
      as Hnext.
    cbv zeta in Hnext.
    unfold with_calls, answered, called in Hnext.
    cbn [st_iteration st_execution_log st_trace st_messages map app] in Hnext.
    rewrite <- app_assoc in Hnext. cbn [app] in Hnext.
    change (st_iteration s0) with 0 in Hnext.
    unfold s0 in Hnext. rewrite Hbanner2, Hfinal, Hnone, Hlines in Hnext.
    do 2 eexists. split; [exact (Hreturn _ _ Hnext)|]. repeat split.
Qed.

(** C7 (as the code has it): a tool call whose arguments string
    [json.loads] rejects with a [JSONDecodeError] is run with the empty
    map: the loop writes a warning, asks the registry to execute the tool
    with [{}], and, the console taking the lines about the result,
    appends exactly one log entry, holding [{}] as arguments and the
    registry's answer as result; the tool message follows unless that
    answer cannot be encoded.  So that parse failure ends neither the
    [for] loop nor the iteration.  When [json.loads] raises another
    exception, the [except] clause does not catch it: the body of the
    [for] loop is left at once, the tool is not executed and nothing is
    logged; the turn ends there and the pass returns the failure result
    with that exception. *)
Theorem malformed_arguments :
  forall (self : MainAgent) (index : nat) (tc : tool_call) (s : state),
    print_tool_call index (function_name tc) (function_arguments tc) = Return tt ->
    (forall msg : string,
        json_loads (function_arguments tc) = Raise (JSONDecodeError msg) ->
        print ("Warning: Could not parse tool arguments for " ++ function_name tc ++ ": "
               ++ msg) = Return tt ->
        exists tool_result : pydict,
          execute_tool (tool_registry self) (function_name tc) (PyDict [])
          = Return tool_result
          /\ tool_call_body self (index, tc) s
             = (let executed :=
                  {| st_messages := st_messages s;
                     st_iteration := st_iteration s;
                     st_execution_log := st_execution_log s;
                     st_trace :=
                       (st_trace s ++ [ToolExec (function_name tc) (PyDict [])])%list |} in
                let logged :=
                  {| st_messages := st_messages s;
                     st_iteration := st_iteration s;
                     st_execution_log :=
                       (st_execution_log s
                        ++ [ {| tool := function_name tc;
                                arguments := PyDict [];
                                result := tool_result |} ])%list;
                     st_trace := st_trace executed |} in
                match print_tool_result tool_result with
                | Raise e => (Raise e, executed)
                | Return _ =>
                    match json_dumps (PyDict tool_result) with
                    | Return content =>
                        (Return tt,
                         {| st_messages :=
                              (st_messages s
                               ++ [ToolMsg (id tc) (function_name tc) content])%list;
                            st_iteration := st_iteration logged;
                            st_execution_log := st_execution_log logged;
                            st_trace := st_trace logged |})
                    | Raise e => (Raise e, logged)
                    end
                end))
    /\ (forall e : exn,
          json_loads (function_arguments tc) = Raise e ->
          (forall msg, e <> JSONDecodeError msg) ->
          tool_call_body self (index, tc) s = (Raise e, s)
          /\ forall (groq_tools : list pyval) (s0 : state) (response : response_message)
                    (pre post : list tool_call),
               index = List.length pre ->
               print_iteration (S (st_iteration s0)) = Return tt ->
               chat_completions_create (client self)
                 (completion_kwargs self groq_tools (st_messages s0)) = Return response ->
               requested_tool_calls response = (pre ++ tc :: post)%list ->
               print ("Tool calls count: " ++ decimal (List.length (pre ++ tc :: post)))
               = Return tt ->
               forallb (completes self) (enumerate pre) = true ->
               print ("Error in iteration " ++ decimal (S (st_iteration s0)) ++ ": "
                      ++ str_exn e) = Return tt ->
               exists s' : state,
                 iteration_body self groq_tools s0
                 = (Return (Some {| answer := Some ("Error occurred during processing: "
                                                    ++ str_exn e);
                                    chart_data := None;
                                    execution_log :=
                                      (st_execution_log s0 ++ map (entry_of self) pre)%list;
                                    success := false;
                                    iterations := S (st_iteration s0) |}),
                    s')
                 /\ st_trace s'
                    = (st_trace s0
                       ++ ModelCall (completion_kwargs self groq_tools (st_messages s0))
                          :: map exec_event_of pre)%list).
Proof.
  intros self index tc s Hlines. split.
  - intros msg Hloads Hwarning.
    assert (arguments_of tc = PyDict []) as Hargs
      by (unfold arguments_of; now rewrite Hloads).
    exists (tool_result_of self tc).
    pose proof (tool_result_of_eq self tc) as Hexec. rewrite Hargs in Hexec.
    split; [exact Hexec|].
    rewrite tool_call_body_eq. unfold stops, before_execution, parse_arguments.
    rewrite Hlines, Hloads. cbn [py_bind try_except_JSONDecodeError str_exn].
    rewrite Hwarning. cbn [py_bind].
    unfold with_calls, stopped. cbn [map].
    unfold tool_message_of, entry_of, exec_event_of. rewrite Hargs.
    destruct (print_tool_result (tool_result_of self tc)) as [[]|e].
    + destruct (json_dumps (PyDict (tool_result_of self tc))); reflexivity.
    + cbn [st_messages st_iteration st_execution_log st_trace]. now rewrite app_nil_r.
  - intros e Hloads Hother.
    assert (stops self (index, tc) = Some (BeforeExecution, e)) as Hstop.
    { unfold stops, before_execution, parse_arguments. rewrite Hlines, Hloads.
      destruct e; try reflexivity. exfalso. eapply Hother. reflexivity. }
    split.
    + rewrite tool_call_body_eq, Hstop. now rewrite stopped_before_execution.
    + intros groq_tools s0 response pre post Hindex Hbanner Hcall Hcalls Hcount Hpre Hline.
      subst index.
      rewrite (turn_interrupted _ _ _ _ _ _ _ _ _ Hbanner Hcall Hcalls Hcount Hpre Hstop).
      rewrite stopped_before_execution.
      unfold reported, with_calls, answered, called.
      cbn [st_iteration st_execution_log st_trace st_messages].
      rewrite Hline. eexists. split; [reflexivity|].
      cbn [st_trace]. now rewrite <- app_assoc.
Qed.
End Properties.

(* ================================================================== *)
(** * The scenarios, run *)

Import Scenario.

Lemma execute_tool_registered_witness :
  execute_tool registry "explore_csv" (PyDict [ ("csv_name", PyStr "nonexistent.csv") ])
  = Return [ ("success", PyBool false);
             ("error", PyStr "Error exploring CSV 'nonexistent.csv': [Errno 2] No such file or directory: 'fixtures/nonexistent.csv'");
             ("tool", PyStr "explore_csv");
             ("parameters", PyDict [ ("csv_name", PyStr "nonexistent.csv") ]) ]
  /\ execute_tool registry "explore_csv" (PyDict [ ("csv_name", PyStr "actuals.csv") ])
     = Return [ ("success", PyBool true); ("result", actuals_summary) ].
Proof.
  split.
  - exact (proj1 (execute_tool_registered registry "explore_csv" _ explore_csv
                    [ ("csv_name", PyStr "nonexistent.csv") ] eq_refl eq_refl)).
  - exact (proj1 (execute_tool_registered registry "explore_csv" _ explore_csv
                    [ ("csv_name", PyStr "actuals.csv") ] eq_refl eq_refl)).
Defined.

Lemma execute_tool_unregistered_witness :
  dict_mem (tools registry) "merge_datasets" = false
  /\ execute_tool registry "merge_datasets" (PyDict [])
     = Return [ ("success", PyBool false);
                ("error", PyStr "Tool 'merge_datasets' not found. Available tools: ['explore_csv', 'extract_csv_data', 'create_chart']") ]
  /\ occurs_in "'extract_csv_data'"
       "Tool 'merge_datasets' not found. Available tools: ['explore_csv', 'extract_csv_data', 'create_chart']".
Proof.
  split; [reflexivity|].
  destruct (execute_tool_unregistered registry "merge_datasets" (PyDict []) eq_refl)
    as (error & Hexec & Herror & Hlists).
  subst error. split; [exact Hexec|].
  apply (Hlists "extract_csv_data"). simpl. auto.
Defined.

Lemma get_groq_tools_schema_witness :
  well_formed (tools fixture_registry) = true
  /\ exists (groq_tools : list pyval) (properties : pydict),
       get_groq_tools (agent fixture_registry (always (says "")))
       = Return groq_tools
       /\ List.length groq_tools = 3
       /\ nth_error groq_tools 0
          = Some (PyDict
                    [ ("type", PyStr "function");
                      ("function",
                       PyDict
                         [ ("name", PyStr "explore_csv");
                           ("description", PyStr "Explore CSV file structure and content");
                           ("parameters",
                            PyDict
                              [ ("type", PyStr "object");
                                ("properties", PyDict properties);
                                ("required",
                                 PyList [PyStr "csv_name"; PyStr "columns"]) ]) ]) ])
       /\ dict_get properties "csv_name"
          = Some (PyDict [ ("type", PyStr "string");
                           ("description", PyStr "Name of the CSV file to explore") ])
       /\ dict_get properties "columns"
          = Some (PyDict [ ("type", PyStr "string");
                           ("description",
                            PyStr "Specific columns to analyze Provide as JSON array string.") ]).
Proof.
  split; [reflexivity|].
  destruct (get_groq_tools_schema (agent fixture_registry (always (says ""))) eq_refl)
    as (groq_tools & Hrun & Hlength & Hschema).
  destruct (Hschema 0 "explore_csv" _ _ eq_refl eq_refl eq_refl)
    as (desc & properties & Hdesc & Hnth & _ & Hparam).
  inversion Hdesc. subst desc.
  exists groq_tools, properties. split; [exact Hrun|]. split; [exact Hlength|].
  split; [exact Hnth|]. split.
  - destruct (Hparam "csv_name" "Name of the CSV file to explore" ltac:(simpl; auto))
      as (suffix & Hget & _ & _ & Hplain).
    rewrite Hget, Hplain by discriminate. reflexivity.
  - destruct (Hparam "columns" "Specific columns to analyze" ltac:(simpl; auto))
      as (suffix & Hget & _ & Harray & _).
    rewrite Hget, Harray by auto. reflexivity.
Defined.

Lemma get_groq_tools_failure_witness :
  get_groq_tools (agent malformed_registry (scripted [])) = Raise (KeyError "parameters")
  /\ @process_query env (agent malformed_registry (scripted [])) "What was June 2025 revenue?"
     = Some (Raise (KeyError "parameters"), [])
  /\ (exists built : heap,
        get_groq_tools_statements (agent registry (scripted []))
          [DictObject [ ("kept", PyInt 1) ]]
        = (get_groq_tools (agent registry (scripted [])),
           DictObject [ ("kept", PyInt 1) ] :: built))
  /\ exists self : MainAgent,
       @MainAgent_init env "openai/gpt-oss-20b" malformed_registry = Return self.
Proof.
  destruct (@get_groq_tools_failure env (agent malformed_registry (scripted []))
              "What was June 2025 revenue?") as (_ & _ & _ & Hraise & Hinit).
  split; [reflexivity|]. split; [|split].
  - exact (proj2 (Hraise (KeyError "parameters") eq_refl)).
  - exact (proj1 (@get_groq_tools_failure env (agent registry (scripted []))
                    "What was June 2025 revenue?")
             [DictObject [ ("kept", PyInt 1) ]]).
  - apply (proj1 (Hinit "openai/gpt-oss-20b" registry malformed_registry)).
    eexists. reflexivity.
Defined.

(** Building the agent on a registry with an unreadable entry succeeds;
    the [KeyError] comes out of the first query. *)
Lemma construction_accepts_malformed_registry :
  well_formed (tools malformed_registry) = false
  /\ exists self : MainAgent,
       @MainAgent_init env "openai/gpt-oss-20b" malformed_registry = Return self
       /\ get_groq_tools self = Raise (KeyError "parameters")
       /\ run self "What was June 2025 revenue?" = Some (Raise (KeyError "parameters"), []).
Proof.
  split; [reflexivity|].
  exists (agent malformed_registry (scripted [])).
  repeat split.
Qed.

Lemma process_query_bounded_witness :
  exists (groq_tools : list pyval) (s : state),
    get_groq_tools agent_d = Return groq_tools
    /\ @passes env max_iterations agent_d groq_tools (@initial_state env "Which month was best?")
       = Some s
    /\ @process_query env agent_d "Which month was best?"
       = Some (Return {| answer := Some "Could not complete analysis within iteration limit";
                         chart_data := None;
                         execution_log := st_execution_log s;
                         success := false;
                         iterations := 15 |},
               st_trace s)
    /\ model_calls (st_trace s) = 15
    /\ List.length (st_execution_log s) = 15.
Proof.
  assert (exists s, @passes env max_iterations agent_d
                      (map schema_of (tools registry))
                      (@initial_state env "Which month was best?") = Some s
                    /\ List.length (st_execution_log s) = 15) as (s & Hp & Hlog).
  { vm_compute. eexists. split; reflexivity. }
  exists (map schema_of (tools registry)), s.
  split; [reflexivity|]. split; [exact Hp|].
  destruct (proj2 (@process_query_bounded env agent_d "Which month was best?")
              (map schema_of (tools registry)) s eq_refl Hp) as [Hrun Hcalls].
  split; [exact Hrun|]. split; [exact Hcalls | exact Hlog].
Defined.

Lemma model_call_failure_witness :
  (exists tr : list event,
      @process_query env agent_b "What was the revenue?"
      = Some (Return {| answer := Some "Error occurred during processing: API connection timeout";
                        chart_data := None;
                        execution_log := [];
                        success := false;
                        iterations := 1 |},
              tr)
      /\ model_calls tr = 1)
  /\ exists (e : exn) (tr : list event),
       @process_query env agent_unprintable_error "What was the revenue?" = Some (Raise e, tr)
       /\ model_calls tr = 1.
Proof.
  assert (0 < max_iterations) as Hlt by (unfold max_iterations; lia).
  split.
  - destruct (@model_call_failure env agent_b "What was the revenue?"
                (map schema_of (tools registry)) 0
                (@initial_state env "What was the revenue?")
                (Exception "API connection timeout")
                eq_refl eq_refl Hlt eq_refl eq_refl) as (Hcalls & Hrun & _).
    eexists. split; [exact (Hrun eq_refl) | exact Hcalls].
  - destruct (@model_call_failure env agent_unprintable_error "What was the revenue?"
                (map schema_of (tools registry)) 0
                (@initial_state env "What was the revenue?")
                (Exception ("Bad gateway " ++ surrogate))
                eq_refl eq_refl Hlt eq_refl eq_refl) as (Hcalls & _ & Hraise).
    do 2 eexists. split; [|exact Hcalls].
    apply Hraise. vm_compute. reflexivity.
Defined.

(** A client error whose text the console cannot write: the handler's
    own [print] raises, and [process_query] raises instead of returning
    the failure result. *)
Lemma unprintable_error_escapes :
  chat_completions_create (client agent_unprintable_error)
    (completion_kwargs agent_unprintable_error (map schema_of (tools registry))
       (st_messages (@initial_state env "What was the revenue?")))
  = Raise (Exception ("Bad gateway " ++ surrogate))
  /\ exists (e : exn) (tr : list event),
       @process_query env agent_unprintable_error "What was the revenue?"
       = Some (Raise e, tr)
       /\ e = UnicodeEncodeError
               ("'utf-8' codec can't encode character '" ++ escaped_surrogate
                ++ "' in position 34: surrogates not allowed")
       /\ model_calls tr = 1.
Proof.
  split; [reflexivity|]. vm_compute. do 2 eexists. repeat split.
Qed.

Lemma final_answer_witness :
  (exists tr : list event,
      @process_query env agent_charts "Plot revenue by month."
      = Some (Return {| answer := Some "Revenue rose over the year.";
                        chart_data := Some (chart_config "line" "month" "revenue");
                        execution_log := [chart_entry "bar"; chart_entry "line"];
                        success := true;
                        iterations := 3 |},
              tr))
  /\ exists (e : exn) (tr : list event),
       @process_query env agent_unprintable_answer "How did revenue develop?"
       = Some (Return {| answer := Some ("Error occurred during processing: " ++ str_exn e);
                         chart_data := None;
                         execution_log := [];
                         success := false;
                         iterations := 1 |},
               tr).
Proof.
  split.
  - assert (2 < max_iterations) as Hlt by (unfold max_iterations; lia).
    assert (exists s,
               @passes env 2 agent_charts (map schema_of (tools registry))
                 (@initial_state env "Plot revenue by month.") = Some s
               /\ st_execution_log s = [chart_entry "bar"; chart_entry "line"]
               /\ chat_completions_create (client agent_charts)
                    (completion_kwargs agent_charts (map schema_of (tools registry))
                       (st_messages s))
                  = Return (says "Revenue rose over the year."))
      as (s & Hp & Hlog & Hcall).
    { vm_compute. eexists. repeat split. }
    destruct (@final_answer env agent_charts "Plot revenue by month."
                (map schema_of (tools registry)) 2 s (says "Revenue rose over the year.")
                eq_refl Hp Hlt eq_refl Hcall eq_refl) as (Hrun & _ & Hlatest & _).
    eexists. rewrite (Hrun eq_refl).
    rewrite (Hlatest [chart_entry "bar"] [] (chart_entry "line") Hlog eq_refl eq_refl).
    rewrite Hlog. reflexivity.
  - assert (0 < max_iterations) as Hlt by (unfold max_iterations; lia).
    assert (exists e, @print_final_answer env (Some ("Revenue rose " ++ surrogate)) = Raise e
                      /\ @print env ("Error in iteration " ++ decimal 1 ++ ": " ++ str_exn e)
                         = Return tt) as (e & Hlines & Hline)
      by (vm_compute; eexists; split; reflexivity).
    destruct (@final_answer env agent_unprintable_answer "How did revenue develop?"
                (map schema_of (tools registry)) 0
                (@initial_state env "How did revenue develop?")
                (says ("Revenue rose " ++ surrogate))
                eq_refl eq_refl Hlt eq_refl eq_refl eq_refl) as (_ & Hfail & _).
    exists e. eexists. exact (Hfail e Hlines Hline).
Defined.

(** A final answer that the console cannot write: [print(final_answer)]
    raises inside the [try], and the run that had its answer returns the
    failure result, with no chart data. *)
Lemma unprintable_answer_fails :
  chat_completions_create (client agent_unprintable_answer)
    (completion_kwargs agent_unprintable_answer (map schema_of (tools registry))
       (st_messages (@initial_state env "How did revenue develop?")))
  = Return (says ("Revenue rose " ++ surrogate))
  /\ requested_tool_calls (says ("Revenue rose " ++ surrogate)) = []
  /\ exists (r : agent_result) (tr : list event),
       @process_query env agent_unprintable_answer "How did revenue develop?"
       = Some (Return r, tr)
       /\ success r = false
       /\ iterations r = 1
       /\ chart_data r = None
       /\ answer r
          = Some ("Error occurred during processing: 'utf-8' codec can't encode character '"
                  ++ escaped_surrogate ++ "' in position 13: surrogates not allowed").
Proof.
  split; [reflexivity|]. split; [reflexivity|].
  vm_compute. do 2 eexists. repeat split.
Qed.

Lemma chart_data_only_when_done_witness :
  exists (r : agent_result) (tr : list event),
    @process_query env agent_chart_then_failure "Plot revenue by month." = Some (Return r, tr)
    /\ success r = false
    /\ existsb successful_chart (execution_log r) = true
    /\ chart_data r = None.
Proof.
  assert (exists r tr,
             @process_query env agent_chart_then_failure "Plot revenue by month." = Some (Return r, tr)
             /\ success r = false
             /\ existsb successful_chart (execution_log r) = true)
    as (r & tr & Hrun & Hfail & Hchart).
  { vm_compute. do 2 eexists. repeat split. }
  exists r, tr. split; [exact Hrun|]. split; [exact Hfail|]. split; [exact Hchart|].
  exact (proj1 (@chart_data_only_when_done env agent_chart_then_failure
                  "Plot revenue by month." r tr Hrun) Hfail).
Defined.

Lemma tool_call_turn_witness :
  (exists (r : agent_result) (tr : list event),
      @process_query env agent_a "What was June 2025 revenue?" = Some (Return r, tr)
      /\ iterations r = 2
      /\ List.length (execution_log r) = 1
      /\ answer r = Some "Revenue was $500,000."
      /\ success r = true)
  /\ (exists s' : state,
         @iteration_body env agent_a (map schema_of (tools registry))
           (@initial_state env "What was June 2025 revenue?")
         = (Return None, s')
         /\ List.length (st_messages s') = 4
         /\ List.length (st_execution_log s') = 1)
  /\ exists (r : agent_result) (s' : state),
       @iteration_body env Cases.agent_interrupted
         (map schema_of (tools Cases.mixed_registry))
         (@initial_state env "Load the actuals.")
       = (Return (Some r), s')
       /\ success r = false
       /\ iterations r = 1
       /\ map tool (execution_log r) = ["explore_csv"; "load_frame"]
       /\ List.length (st_messages s') = 4.
Proof.
  split; [|split].
  - destruct (proj2 (@tool_call_turn env) agent_a "What was June 2025 revenue?"
                (map schema_of (tools registry)) explore_call
                (requests [explore_call]) (says "Revenue was $500,000.")
                eq_refl eq_refl eq_refl eq_refl eq_refl eq_refl eq_refl eq_refl eq_refl
                eq_refl)
      as (r & tr & Hrun & Hit & Hlog & Hanswer & Hsuccess).
    exists r, tr. split; [exact Hrun|]. split; [exact Hit|]. split.
    + rewrite Hlog. reflexivity.
    + split; [exact Hanswer | exact Hsuccess].
  - destruct (proj1 (@tool_call_turn env) agent_a (map schema_of (tools registry))
                (@initial_state env "What was June 2025 revenue?")
                (requests [explore_call]) [explore_call]
                eq_refl eq_refl eq_refl ltac:(discriminate) eq_refl) as [Hturn _].
    destruct (Hturn eq_refl) as [Hbody _].
    eexists. split; [exact Hbody|]. split; reflexivity.
  - destruct (proj1 (@tool_call_turn env) Cases.agent_interrupted
                (map schema_of (tools Cases.mixed_registry))
                (@initial_state env "Load the actuals.")
                (requests [explore_call; frame_call; missing_file_call])
                [explore_call; frame_call; missing_file_call]
                eq_refl eq_refl eq_refl ltac:(discriminate) eq_refl) as [_ Hstop].
    destruct (Hstop [explore_call] frame_call [missing_file_call] (PyDict [])
                [ ("success", PyBool true); ("result", PyObj "DataFrame") ]
                (TypeError "Object of type DataFrame is not JSON serializable")
                eq_refl eq_refl eq_refl eq_refl eq_refl eq_refl eq_refl) as [Hbody _].
    do 2 eexists. split; [exact Hbody|]. repeat split.
Defined.

(** A tool result that [json.dumps] cannot encode: the entry is logged,
    no tool message follows it, and the run ends at that iteration with
    the failure result instead of going on to the next model call. *)
Lemma unencodable_result_ends_run :
  exists (groq_tools : list pyval) (r : agent_result) (s' : state),
    get_groq_tools agent_frame = Return groq_tools
    /\ chat_completions_create (client agent_frame)
         (completion_kwargs agent_frame groq_tools
            (st_messages (@initial_state env "Load the actuals.")))
       = Return (requests [frame_call])
    /\ @iteration_body env agent_frame groq_tools (@initial_state env "Load the actuals.")
       = (Return (Some r), s')
    /\ st_messages s'
       = (st_messages (@initial_state env "Load the actuals.")
          ++ [AssistantMsg (requests [frame_call])])%list
    /\ st_execution_log s'
       = [ {| tool := "load_frame";
              arguments := PyDict [];
              result := [ ("success", PyBool true); ("result", PyObj "DataFrame") ] |} ]
    /\ @process_query env agent_frame "Load the actuals." = Some (Return r, st_trace s')
    /\ success r = false
    /\ iterations r = 1
    /\ answer r = Some "Error occurred during processing: Object of type DataFrame is not JSON serializable".
Proof.
  vm_compute. do 3 eexists. repeat split.
Qed.

Lemma malformed_arguments_witness :
  (@json_loads env (function_arguments malformed_call)
   = Raise (JSONDecodeError "Expecting value: line 1 column 1 (char 0)")
   /\ exists (tool_result : pydict) (s' : state),
        execute_tool registry "explore_csv" (PyDict []) = Return tool_result
        /\ dict_get tool_result "success" = Some (PyBool false)
        /\ @tool_call_body env agent_malformed (0, malformed_call)
             (@initial_state env "Test malformed args")
           = (Return tt, s')
        /\ st_execution_log s'
           = [ {| tool := "explore_csv"; arguments := PyDict []; result := tool_result |} ])
  /\ exists e : exn,
       @json_loads env (function_arguments deep_call) = Raise e
       /\ @tool_call_body env agent_deep (0, deep_call)
            (@initial_state env "Explore the actuals.")
          = (Raise e, @initial_state env "Explore the actuals.").
Proof.
  split.
  - split; [reflexivity|].
    destruct (proj1 (@malformed_arguments env agent_malformed 0 malformed_call
                       (@initial_state env "Test malformed args") eq_refl)
                "Expecting value: line 1 column 1 (char 0)" eq_refl eq_refl)
      as (tool_result & Hexec & Hbody).
    assert (tool_result
            = [ ("success", PyBool false);
                ("error", PyStr "ToolRegistry.explore_csv() missing 1 required positional argument: 'csv_name'");
                ("tool", PyStr "explore_csv");
                ("parameters", PyDict []) ]) as Hresult.
    { vm_compute in Hexec. now inversion Hexec. }
    subst tool_result.
    eexists. eexists. split; [reflexivity|]. split; [reflexivity|].
    split; [rewrite Hbody; reflexivity | reflexivity].
  - assert (@print_tool_call env 0 (function_name deep_call) (function_arguments deep_call)
            = Return tt) as Hlines by (vm_compute; reflexivity).
    assert (@json_loads env (function_arguments deep_call)
            = Raise (RecursionError "maximum recursion depth exceeded while decoding a JSON array from a unicode string"))
      as Hloads by (vm_compute; reflexivity).
    destruct (proj2 (@malformed_arguments env agent_deep 0 deep_call
                       (@initial_state env "Explore the actuals.") Hlines)
                _ Hloads ltac:(intros msg; discriminate)) as [Hbody _].
    eexists. split; [exact Hloads | exact Hbody].
Defined.

(** Arguments nested deeper than [json.loads] follows: it raises
    [RecursionError], which [except json.JSONDecodeError] does not catch;
    the tool is not executed, nothing is logged, and the run ends at
    that iteration with the failure result. *)
Lemma deep_arguments_end_run :
  @json_loads env (function_arguments deep_call)
  = Raise (RecursionError "maximum recursion depth exceeded while decoding a JSON array from a unicode string")
  /\ exists (r : agent_result) (tr : list event),
       @process_query env agent_deep "Explore the actuals." = Some (Return r, tr)
       /\ success r = false
       /\ iterations r = 1
       /\ execution_log r = []
       /\ tool_events tr = []
       /\ answer r
          = Some "Error occurred during processing: maximum recursion depth exceeded while decoding a JSON array from a unicode string".
Proof.
  split; [vm_compute; reflexivity|].
  vm_compute. do 2 eexists. repeat split.
Qed.

(** The test suite's third case: the run goes on after the parse failure. *)
Example run_after_parse_failure :
  exists (r : agent_result) (tr : list event),
    @process_query env agent_malformed "Test malformed args" = Some (Return r, tr)
    /\ success r = true
    /\ iterations r = 2
    /\ List.length (execution_log r) = 1.
Proof.
  vm_compute. do 2 eexists. repeat split.
Qed.

(** Scenario C: the tool reports a failure and the run still succeeds. *)
Example run_after_tool_failure :
  exists (r : agent_result) (tr : list event) (e : log_entry),
    @process_query env agent_c "Get data from missing file" = Some (Return r, tr)
    /\ success r = true
    /\ execution_log r = [e]
    /\ dict_get (result e) "success" = Some (PyBool false).
Proof.
  vm_compute. do 3 eexists. repeat split.
Qed.

(* ================================================================== *)
(** * More properties of the two modules *)

(** ** tools.py: the shape of what [execute_tool] returns *)

(** X1: whatever the registry, the name and the arguments,
    [execute_tool] returns a dict that either is
    [{success: True, result: v}], with no error, or reports
    [success: False] with a string under [error] and no result. *)
Theorem execute_tool_result_shape :
  forall (reg : ToolRegistry) (tool_name : string) (params : pyval),
    exists d : pydict,
      execute_tool reg tool_name params = Return d
      /\ ((exists v, d = [ ("success", PyBool true); ("result", v) ])
          \/ (exists msg,
                dict_get d "success" = Some (PyBool false)
                /\ dict_get d "error" = Some (PyStr msg)
                /\ dict_get d "result" = None)).
Proof.
  intros reg tool_name params. unfold execute_tool.
  destruct (negb (dict_mem (tools reg) tool_name)).
  - eexists. split; [reflexivity|]. right. eexists. repeat split.
  - match goal with |- exists d, try_except ?b _ = _ /\ _ => destruct b as [d|e] eqn:Hbody end.
    + exists d. split; [reflexivity|]. left.
      destruct (dict_get (tools reg) tool_name) as [info|]; simpl in Hbody; [|discriminate].
      destruct (function info) as [f|]; simpl in Hbody; [|discriminate].
      destruct (call_kwargs f params) as [v|]; simpl in Hbody; [|discriminate].
      inversion Hbody. now exists v.
    + simpl. eexists. split; [reflexivity|]. right. eexists. repeat split.
Qed.

(** A result that reports success comes from the handler returning. *)
Lemma execute_tool_success_inv (reg : ToolRegistry) (tool_name : string) (params : pyval)
    (d : pydict) (flag : pyval) :
  execute_tool reg tool_name params = Return d ->
  dict_get d "success" = Some flag ->
  truthy flag = true ->
  exists (info : tool_info) (f : pyfunc) (kwargs : pydict) (v : pyval),
    dict_get (tools reg) tool_name = Some info
    /\ function info = Some f
    /\ params = PyDict kwargs
    /\ call f kwargs = Return v
    /\ d = [ ("success", PyBool true); ("result", v) ].
Proof.
  intros Hexec Hflag Htrue. unfold execute_tool in Hexec.
  destruct (negb (dict_mem (tools reg) tool_name)).
  - inversion Hexec. subst d. simpl in Hflag. inversion Hflag. subst flag. discriminate.
  - destruct (dict_get (tools reg) tool_name) as [info|] eqn:Hinfo; simpl in Hexec.
    + destruct (function info) as [f|] eqn:Hfun; simpl in Hexec.
      * destruct params as [| | | | | |kwargs|];
          try (simpl in Hexec; inversion Hexec; subst d; simpl in Hflag;
               inversion Hflag; subst flag; discriminate).
        simpl in Hexec. destruct (call f kwargs) as [v|e] eqn:Hcall; simpl in Hexec.
        -- inversion Hexec. exists info, f, kwargs, v. repeat split; assumption.
        -- inversion Hexec. subst d. simpl in Hflag. inversion Hflag. subst flag.
           discriminate.
      * inversion Hexec. subst d. simpl in Hflag. inversion Hflag. subst flag. discriminate.
    + inversion Hexec. subst d. simpl in Hflag. inversion Hflag. subst flag. discriminate.
Qed.

(** X2: a result that reports success comes from the registered
    handler returning normally: the tool is registered with a callable,
    the arguments are a mapping, and the value under [result] is what the
    handler returned on them. *)
Theorem execute_tool_success_origin :
  forall (reg : ToolRegistry) (tool_name : string) (params : pyval) (d : pydict)
         (flag : pyval),
    execute_tool reg tool_name params = Return d ->
    dict_get d "success" = Some flag ->
    truthy flag = true ->
    exists (info : tool_info) (f : pyfunc) (kwargs : pydict) (v : pyval),
      dict_get (tools reg) tool_name = Some info
      /\ function info = Some f
      /\ params = PyDict kwargs
      /\ call f kwargs = Return v
      /\ d = [ ("success", PyBool true); ("result", v) ].
Proof.
  intros reg tool_name params d flag. apply execute_tool_success_inv.
Qed.

(** X3: a registered entry that binds no callable (no ["function"] key)
    does not make [execute_tool] raise: the [KeyError] is reported as
    [{success: False, error: "'function'", tool: name, parameters: args}]. *)
Theorem execute_tool_unbound :
  forall (reg : ToolRegistry) (tool_name : string) (info : tool_info) (params : pyval),
    dict_get (tools reg) tool_name = Some info ->
    function info = None ->
    execute_tool reg tool_name params
    = Return [ ("success", PyBool false);
               ("error", PyStr "'function'");
               ("tool", PyStr tool_name);
               ("parameters", params) ].
Proof.
  intros reg tool_name info params Hget Hfun. unfold execute_tool.
  rewrite (dict_mem_get _ _ _ Hget), Hget. simpl. rewrite Hfun. reflexivity.
Qed.

(** X4: arguments that are not a mapping (the model sent a JSON list, a
    number, a string, null) never reach the handler's body: whatever the
    handler would do, [execute_tool] reports [success: False] and hands
    back the tool name and the arguments as it got them. *)
Theorem execute_tool_not_a_mapping :
  forall (reg : ToolRegistry) (tool_name : string) (info : tool_info) (f : pyfunc)
         (params : pyval),
    dict_get (tools reg) tool_name = Some info ->
    function info = Some f ->
    (forall kwargs, params <> PyDict kwargs) ->
    exists msg : string,
      execute_tool reg tool_name params
      = Return [ ("success", PyBool false);
                 ("error", PyStr msg);
                 ("tool", PyStr tool_name);
                 ("parameters", params) ]
      /\ forall body : list (string * pyval) -> py pyval,
           call_kwargs {| qualname := qualname f; call := body |} params
           = Raise (TypeError msg).
Proof.
  intros reg tool_name info f params Hget Hfun Hnot.
  exists (qualname f ++ "() argument after ** must be a mapping, not " ++ type_name_of params).
  split.
  - unfold execute_tool. rewrite (dict_mem_get _ _ _ Hget), Hget. simpl. rewrite Hfun. simpl.
    destruct params; try reflexivity. exfalso. eapply Hnot. reflexivity.
  - intros body. destruct params; try reflexivity. exfalso. eapply Hnot. reflexivity.
Qed.

(** ** The two readers of the registry *)

Lemma first_unreadable_none (items : list (string * tool_info)) :
  first_unreadable items = None <-> well_formed items = true.
Proof.
  induction items as [|[tool_name info] items IH]; simpl; [tauto|].
  destruct (well_formed_info info); simpl; [exact IH | split; discriminate].
Qed.

(** The outer loop of [get_groq_tools] stops at the first unreadable
    entry, on its parameters if they are missing. *)
Lemma tools_loop_first_error (items : list (string * tool_info)) (info : tool_info) :
  forall groq_tools : list pyval,
    first_unreadable items = Some info ->
    tools_loop items groq_tools
    = Raise (KeyError match parameters info with
                      | None => "parameters"
                      | Some _ => "description"
                      end).
Proof.
  induction items as [|[tool_name info'] items IH];
    intros groq_tools Hfirst; simpl in Hfirst; [discriminate|].
  simpl. unfold well_formed_info in Hfirst.
  destruct (parameters info') as [params|] eqn:Hparams; simpl.
  - destruct (params_loop params [] []) as [properties required].
    destruct (description info') as [desc|] eqn:Hdesc; simpl.
    + now apply IH.
    + inversion Hfirst. subst info'. now rewrite Hparams.
  - inversion Hfirst. subst info'. now rewrite Hparams.
Qed.

(** X5: on a registry with an unreadable entry, [get_groq_tools] raises
    for the first such entry in registry order, and looks for its
    parameters before its description: [KeyError('parameters')] when the
    parameters are missing, [KeyError('description')] only when they are
    there and the description is not. *)
Theorem get_groq_tools_first_error :
  forall (self : MainAgent) (info : tool_info),
    first_unreadable (tools (tool_registry self)) = Some info ->
    get_groq_tools self
    = Raise (KeyError match parameters info with
                      | None => "parameters"
                      | Some _ => "description"
                      end).
Proof.
  intros self info Hfirst. unfold get_groq_tools. now apply tools_loop_first_error.
Qed.

Lemma string_concat_cons (x : string) (l : list string) :
  String.concat "" (x :: l) = x ++ String.concat "" l.
Proof.
  destruct l as [|y l]; simpl; [now rewrite string_append_empty | reflexivity].
Qed.

Lemma describe_parameters_eq (items : list (string * string)) :
  forall desc : string,
    describe_parameters items desc = desc ++ String.concat "" (map parameter_line items).
Proof.
  induction items as [|[p d] items IH]; intros desc; cbn [describe_parameters map].
  - cbn. now rewrite string_append_empty.
  - rewrite IH, string_concat_cons. unfold parameter_line at 2. cbn [fst snd].
    now rewrite !string_append_assoc.
Qed.

Lemma tool_paragraph_eq (tool_name desc : string) (params : list (string * string)) :
  describe_parameters params
    (("**" ++ tool_name ++ "**: " ++ desc ++ nl) ++ "Parameters:" ++ nl)
  = tool_heading tool_name desc ++ String.concat "" (map parameter_line params).
Proof.
  rewrite describe_parameters_eq. unfold tool_heading.
  now rewrite !string_append_assoc.
Qed.

Lemma descriptions_loop_well_formed (items : list (string * tool_info)) :
  forall descriptions : list string,
    well_formed items = true ->
    descriptions_loop items descriptions
    = Return (descriptions ++ map tool_paragraph items)%list.
Proof.
  induction items as [|[tool_name info] items IH]; intros descriptions Hwf.
  - simpl. now rewrite app_nil_r.
  - simpl in Hwf. apply andb_true_iff in Hwf as [Hinfo Hwf].
    unfold well_formed_info in Hinfo.
    destruct (parameters info) as [params|] eqn:Hparams; [|discriminate].
    destruct (description info) as [desc|] eqn:Hdesc; [|discriminate].
    cbn [descriptions_loop]. rewrite Hdesc, Hparams. cbn [subscript py_bind].
    rewrite IH by exact Hwf. rewrite tool_paragraph_eq.
    cbn [map]. unfold tool_paragraph at 2. cbn [fst snd]. rewrite Hdesc, Hparams.
    now rewrite <- app_assoc.
Qed.

(** The outer loop of [get_tool_descriptions] stops at the first
    unreadable entry, on its description if it is missing. *)
Lemma descriptions_loop_first_error (items : list (string * tool_info)) (info : tool_info) :
  forall descriptions : list string,
    first_unreadable items = Some info ->
    descriptions_loop items descriptions
    = Raise (KeyError match description info with
                      | None => "description"
                      | Some _ => "parameters"
                      end).
Proof.
  induction items as [|[tool_name info'] items IH];
    intros descriptions Hfirst; simpl in Hfirst; [discriminate|].
  simpl. unfold well_formed_info in Hfirst.
  destruct (description info') as [desc|] eqn:Hdesc; simpl.
  - destruct (parameters info') as [params|] eqn:Hparams; simpl.
    + now apply IH.
    + inversion Hfirst. subst info'. now rewrite Hdesc.
  - destruct (parameters info'); inversion Hfirst; subst info'; now rewrite Hdesc.
Qed.

(** X6: [get_tool_descriptions] returns a text exactly on the registries
    that [get_groq_tools] can read; on another it raises for the first
    unreadable entry, and it looks for the description before the
    parameters, the other way round than [get_groq_tools]. *)
Theorem get_tool_descriptions_outcome :
  forall self : MainAgent,
    ((exists text, get_tool_descriptions (tool_registry self) = Return text)
     <-> (exists groq_tools, get_groq_tools self = Return groq_tools))
    /\ forall info : tool_info,
         first_unreadable (tools (tool_registry self)) = Some info ->
         get_tool_descriptions (tool_registry self)
         = Raise (KeyError match description info with
                           | None => "description"
                           | Some _ => "parameters"
                           end).
Proof.
  intros self. split.
  - destruct (first_unreadable (tools (tool_registry self))) as [info|] eqn:Hfirst.
    + unfold get_tool_descriptions, get_groq_tools.
      rewrite (descriptions_loop_first_error _ info [] Hfirst).
      rewrite (tools_loop_first_error _ info [] Hfirst).
      split; intros [x Hx]; discriminate.
    + apply first_unreadable_none in Hfirst.
      unfold get_tool_descriptions, get_groq_tools.
      rewrite descriptions_loop_well_formed, tools_loop_well_formed by exact Hfirst.
      simpl. split; intros _; eexists; reflexivity.
  - intros info Hfirst. unfold get_tool_descriptions.
    now rewrite (descriptions_loop_first_error _ info [] Hfirst).
Qed.

Lemma occurs_in_trans (x y z : string) : occurs_in x y -> occurs_in y z -> occurs_in x z.
Proof.
  intros (a & b & ->) (c & d & ->). exists (c ++ a), (b ++ d).
  now rewrite !string_append_assoc.
Qed.

Lemma occurs_in_concat (x : string) (l : list string) :
  In x l -> occurs_in x (String.concat "" l).
Proof.
  induction l as [|y l IH]; intros Hin; [contradiction|].
  rewrite string_concat_cons. destruct Hin as [->|Hin].
  - apply occurs_in_append. apply occurs_in_self.
  - apply occurs_in_prepend. now apply IH.
Qed.

(** X7: a text returned by [get_tool_descriptions] documents the whole
    registry: for every registered tool it holds the heading with the
    tool's name and description, and one line with the name and the
    description of each of its declared parameters. *)
Theorem get_tool_descriptions_complete :
  forall (reg : ToolRegistry) (text tool_name : string) (info : tool_info),
    get_tool_descriptions reg = Return text ->
    In (tool_name, info) (tools reg) ->
    exists (desc : string) (params : list (string * string)),
      description info = Some desc
      /\ parameters info = Some params
      /\ occurs_in ("**" ++ tool_name ++ "**: " ++ desc ++ nl ++ "Parameters:" ++ nl) text
      /\ forall p d : string,
           In (p, d) params -> occurs_in ("  - " ++ p ++ ": " ++ d ++ nl) text.
Proof.
  intros reg text tool_name info Hrun Hin. unfold get_tool_descriptions in Hrun.
  destruct (first_unreadable (tools reg)) as [bad|] eqn:Hfirst.
  { rewrite (descriptions_loop_first_error _ bad [] Hfirst) in Hrun. discriminate. }
  apply first_unreadable_none in Hfirst.
  rewrite descriptions_loop_well_formed in Hrun by exact Hfirst.
  simpl in Hrun. inversion Hrun as [Htext]. clear Hrun.
  assert (well_formed_info info = true) as Hinfo.
  { unfold well_formed in Hfirst. rewrite forallb_forall in Hfirst.
    apply (Hfirst (tool_name, info) Hin). }
  unfold well_formed_info in Hinfo.
  destruct (parameters info) as [params|] eqn:Hparams; [|discriminate].
  destruct (description info) as [desc|] eqn:Hdesc; [|discriminate].
  exists desc, params. split; [reflexivity|]. split; [reflexivity|].
  assert (occurs_in (tool_paragraph (tool_name, info))
            (join nl (map tool_paragraph (tools reg)))) as Hpar.
  { apply occurs_in_join. now apply in_map. }
  unfold tool_paragraph in Hpar. simpl fst in Hpar. simpl snd in Hpar.
  rewrite Hdesc, Hparams in Hpar.
  split.
  - eapply occurs_in_trans; [|exact Hpar].
    apply occurs_in_append. apply occurs_in_self.
  - intros p d Hpd. eapply occurs_in_trans; [|exact Hpar].
    apply occurs_in_prepend. apply occurs_in_concat.
    change ("  - " ++ p ++ ": " ++ d ++ nl) with (parameter_line (p, d)).
    now apply in_map.
Qed.

(** ** Lists of messages and records of calls *)

Lemma prefix_refl {A} (l : list A) : prefix l l.
Proof. exists []. now rewrite app_nil_r. Qed.

Lemma prefix_app {A} (l r : list A) : prefix l (l ++ r).
Proof. now exists r. Qed.

Lemma prefix_trans {A} (a b c : list A) : prefix a b -> prefix b c -> prefix a c.
Proof. intros [r ->] [r' ->]. exists (r ++ r')%list. now rewrite app_assoc. Qed.

Lemma proper_prefix_app {A} (l : list A) (x : A) (r : list A) :
  proper_prefix l (l ++ x :: r).
Proof. now exists x, r. Qed.

Lemma proper_prefix_then_prefix {A} (a b c : list A) :
  proper_prefix a b -> prefix b c -> proper_prefix a c.
Proof.
  intros (x & r & ->) [r' ->]. exists x, (r ++ r')%list.
  now rewrite <- app_assoc.
Qed.

Lemma prefix_then_proper_prefix {A} (a b c : list A) :
  prefix a b -> proper_prefix b c -> proper_prefix a c.
Proof.
  intros [r ->] (x & r' & ->).
  destruct r as [|y r].
  - exists x, r'. now rewrite app_nil_r.
  - exists y, (r ++ x :: r')%list. now rewrite <- app_assoc.
Qed.

Lemma model_requests_app (a b : list event) : model_requests (a ++ b) = (model_requests a ++ model_requests b)%list.
Proof.
  induction a as [|[req|name args] a IH]; simpl; [reflexivity | now rewrite IH | exact IH].
Qed.

Lemma tool_events_app (a b : list event) :
  tool_events (a ++ b) = (tool_events a ++ tool_events b)%list.
Proof. unfold tool_events. apply filter_app. Qed.

Lemma growing_snoc (reqs : list completion_request) (req : completion_request) :
  growing reqs ->
  Forall (fun r => proper_prefix (req_messages r) (req_messages req)) reqs ->
  growing (reqs ++ [req]).
Proof.
  unfold growing. induction 1 as [|r reqs Hr Hreqs IH]; intros Hall; simpl.
  - constructor; constructor.
  - inversion Hall as [|? ? Hhead Htail]. subst. constructor.
    + apply Forall_app. split; [exact Hr | now constructor].
    + now apply IH.
Qed.

Lemma tool_events_exec (calls : list tool_call) (f : tool_call -> event) :
  (forall tc, is_model_call (f tc) = false) ->
  tool_events (map f calls) = map f calls
  /\ model_requests (map f calls) = [].
Proof.
  intros Hf. induction calls as [|tc calls [IH1 IH2]]; simpl; [split; reflexivity|].
  unfold tool_events in *. simpl. rewrite (Hf tc). simpl. rewrite IH1.
  split; [reflexivity|].
  destruct (f tc) eqn:E; [|exact IH2].
  specialize (Hf tc). rewrite E in Hf. discriminate.
Qed.

Section MoreProperties.
Context {env : Environment}.

(** ** What a tool call has done when it is left *)

(** A call that got as far as its execution has its arguments decoded. *)
Lemma executed_parsed (index : nat) (tc : tool_call) (tool_args : pyval) :
  before_execution index tc = Return tool_args ->
  parse_arguments (function_name tc) (function_arguments tc) = Return (arguments_of tc).
Proof.
  intros H. pose proof (before_execution_returns _ _ _ H) as Heq. subst tool_args.
  unfold before_execution in H.
  destruct (print_tool_call index (function_name tc) (function_arguments tc));
    cbn [py_bind] in H; [exact H | discriminate].
Qed.

Lemma completes_parsed (self : MainAgent) (index : nat) (tc : tool_call) :
  completes self (index, tc) = true ->
  parse_arguments (function_name tc) (function_arguments tc) = Return (arguments_of tc).
Proof.
  unfold completes, stops.
  destruct (before_execution index tc) as [tool_args|e] eqn:H; [|discriminate].
  intros _. eapply executed_parsed. exact H.
Qed.

Lemma all_parsed (self : MainAgent) (calls : list tool_call) :
  forall start : nat,
    forallb (completes self) (enumerate_from start calls) = true ->
    Forall (fun tc => parse_arguments (function_name tc) (function_arguments tc)
                      = Return (arguments_of tc)) calls.
Proof.
  induction calls as [|tc calls IH]; intros start Hall; [constructor|].
  cbn [enumerate_from forallb] in Hall. apply andb_true_iff in Hall as [Htc Hall].
  constructor; [eapply completes_parsed; exact Htc | eapply IH; exact Hall].
Qed.

(** Where a call stops tells which of its statements raised. *)
Lemma stops_cases (self : MainAgent) (index : nat) (tc : tool_call)
    (at_stage : stage) (e : exn) :
  stops self (index, tc) = Some (at_stage, e) ->
  match at_stage with
  | BeforeExecution => before_execution index tc = Raise e
  | BeforeLogging =>
      before_execution index tc = Return (arguments_of tc)
      /\ print_tool_result (tool_result_of self tc) = Raise e
  | BeforeMessage =>
      before_execution index tc = Return (arguments_of tc)
      /\ print_tool_result (tool_result_of self tc) = Return tt
      /\ json_dumps (PyDict (tool_result_of self tc)) = Raise e
  end.
Proof.
  unfold stops.
  destruct (before_execution index tc) as [tool_args|e0] eqn:Hbefore.
  - pose proof (before_execution_returns _ _ _ Hbefore) as Heq. subst tool_args.
    destruct (print_tool_result (tool_result_of self tc)) as [[]|e1].
    + destruct (json_dumps (PyDict (tool_result_of self tc))) as [text|e2];
        intros H; inversion H. auto.
    + intros H. inversion H. auto.
  - intros H. inversion H. reflexivity.
Qed.

Lemma reported_returns (e : exn) (st s' : state) (o : option agent_result) :
  reported e st = (Return o, s') ->
  s' = st /\ o = Some (failed e (st_execution_log st) (st_iteration st)).
Proof.
  destruct (reported_cases e st) as [H|[e' H]]; rewrite H; intros Heq;
    inversion Heq. auto.
Qed.

(** ** What a pass leaves in the log and in the record of calls *)

(** A pass that does not raise has made the model request on the
    messages as they stood, then executed some of the tool calls of the
    response, in order, and logged them, all but possibly the last one
    executed: that one is missing from the log exactly when the console
    raised on the lines about its result, which ended the pass. *)
Lemma iteration_body_progress (self : MainAgent) (groq_tools : list pyval)
    (s s' : state) (o : option agent_result) :
  iteration_body self groq_tools s = (Return o, s') ->
  exists (done : list tool_call) (unlogged : list event),
    st_trace s'
    = (st_trace s
       ++ ModelCall (completion_kwargs self groq_tools (st_messages s))
          :: map exec_event_of done ++ unlogged)%list
    /\ st_execution_log s' = (st_execution_log s ++ map (entry_of self) done)%list
    /\ prefix (st_messages s) (st_messages s')
    /\ (o = None -> proper_prefix (st_messages s) (st_messages s') /\ unlogged = [])
    /\ Forall (fun tc => parse_arguments (function_name tc) (function_arguments tc)
                         = Return (arguments_of tc)) done
    /\ (done = []
        \/ exists (response : response_message) (rest : list tool_call),
             chat_completions_create (client self)
               (completion_kwargs self groq_tools (st_messages s)) = Return response
             /\ requested_tool_calls response = (done ++ rest)%list)
    /\ (unlogged = []
        \/ exists (tc : tool_call) (e : exn),
             unlogged = [exec_event_of tc]
             /\ print_tool_result (tool_result_of self tc) = Raise e
             /\ o = Some (failed e (st_execution_log s') (st_iteration s'))).
Proof.
  intros Hbody. rewrite iteration_body_eq in Hbody. cbv zeta in Hbody.
  set (req := completion_kwargs self groq_tools (st_messages s)) in *.
  assert (forall e st,
             reported e st = (Return o, s') ->
             st_trace st = (st_trace s ++ [ModelCall req])%list ->
             st_execution_log st = st_execution_log s ->
             prefix (st_messages s) (st_messages st) ->
             exists (done : list tool_call) (unlogged : list event),
               st_trace s' = (st_trace s ++ ModelCall req :: map exec_event_of done
                              ++ unlogged)%list
               /\ st_execution_log s'
                  = (st_execution_log s ++ map (entry_of self) done)%list
               /\ prefix (st_messages s) (st_messages s')
               /\ (o = None -> proper_prefix (st_messages s) (st_messages s')
                               /\ unlogged = [])
               /\ Forall (fun tc => parse_arguments (function_name tc)
                                      (function_arguments tc)
                                    = Return (arguments_of tc)) done
               /\ (done = []
                   \/ exists (response : response_message) (rest : list tool_call),
                        chat_completions_create (client self) req = Return response
                        /\ requested_tool_calls response = (done ++ rest)%list)
               /\ (unlogged = []
                   \/ exists (tc : tool_call) (e : exn),
                        unlogged = [exec_event_of tc]
                        /\ print_tool_result (tool_result_of self tc) = Raise e
                        /\ o = Some (failed e (st_execution_log s') (st_iteration s'))))
    as Hplain.
  { intros e st Hrep Htrace Hlog Hmsgs.
    apply reported_returns in Hrep as [-> ->].
    exists [], []. rewrite Htrace, Hlog. simpl. rewrite app_nil_r.
    split; [reflexivity|]. split; [reflexivity|]. split; [exact Hmsgs|].
    split; [discriminate|]. split; [constructor|]. split; now left. }
  destruct (print_iteration (S (st_iteration s))) as [[]|e0]; [|discriminate].
  destruct (chat_completions_create (client self) req) as [response|e0] eqn:Hcall.
  2:{ apply (Hplain _ _ Hbody); [reflexivity | reflexivity | apply prefix_refl]. }
  destruct (requested_tool_calls response) as [|tc calls] eqn:Hcalls.
  - destruct (print_final_answer (content response)) as [[]|e0].
    + inversion Hbody. subst. exists [], []. simpl. rewrite app_nil_r.
      split; [reflexivity|]. split; [reflexivity|]. split; [apply prefix_app|].
      split; [discriminate|]. split; [constructor|]. split; now left.
    + apply (Hplain _ _ Hbody); [reflexivity | reflexivity | apply prefix_app].
  - match type of Hbody with context [print ?t] => destruct (print t) as [[]|e0] end.
    2:{ apply (Hplain _ _ Hbody); [reflexivity | reflexivity | apply prefix_app]. }
    unfold enumerate in Hbody.
    destruct (turn_cases self (tc :: calls) 0)
      as [Hall|(pre & tc' & post & at_stage & e & Hsplit & Hpre & Hstop)].
    + rewrite (for_each_completes _ _ _ _ Hall) in Hbody. inversion Hbody. subst.
      exists (tc :: calls), [].
      unfold with_calls, answered, called.
      cbn [st_trace st_execution_log st_messages]. rewrite app_nil_r.
      split; [now rewrite <- app_assoc|]. split; [reflexivity|].
      split; [rewrite <- app_assoc; apply prefix_app|].
      split; [intros _; split; [rewrite <- app_assoc; apply proper_prefix_app
                               | reflexivity]|].
      split; [eapply all_parsed; exact Hall|]. split; [|now left].
      right. exists response, []. rewrite app_nil_r. split; [reflexivity | exact Hcalls].
    + rewrite Hsplit in Hbody.
      rewrite (for_each_stops _ _ _ _ _ _ _ _ Hpre Hstop) in Hbody.
      apply reported_returns in Hbody as [-> ->].
      pose proof (stops_cases _ _ _ _ _ Hstop) as Hcase.
      pose proof (all_parsed _ _ _ Hpre) as Hparsed.
      destruct at_stage.
      * exists pre, []. unfold stopped, with_calls, answered, called.
        cbn [st_trace st_execution_log st_messages]. rewrite !app_nil_r.
        split; [now rewrite <- app_assoc|]. split; [reflexivity|].
        split; [rewrite <- app_assoc; apply prefix_app|].
        split; [discriminate|]. split; [exact Hparsed|]. split; [|now left].
        right. exists response, (tc' :: post).
        split; [reflexivity | now rewrite Hcalls].
      * destruct Hcase as [Hbefore Hlines].
        exists pre, [exec_event_of tc']. unfold stopped, with_calls, answered, called.
        cbn [st_trace st_execution_log st_messages st_iteration]. rewrite !app_nil_r.
        split; [now rewrite <- !app_assoc|]. split; [reflexivity|].
        split; [rewrite <- app_assoc; apply prefix_app|].
        split; [discriminate|]. split; [exact Hparsed|]. split.
        -- right. exists response, (tc' :: post).
           split; [reflexivity | now rewrite Hcalls].
        -- right. exists tc', e. split; [reflexivity|]. split; [exact Hlines|].
           reflexivity.
      * destruct Hcase as [Hbefore _].
        exists (pre ++ [tc'])%list, []. unfold stopped, with_calls, answered, called.
        cbn [st_trace st_execution_log st_messages]. rewrite !map_app, !app_nil_r.
        cbn [map]. split; [now rewrite <- !app_assoc|].
        split; [now rewrite <- !app_assoc|].
        split; [rewrite <- app_assoc; apply prefix_app|].
        split; [discriminate|]. split.
        -- apply Forall_app. split; [exact Hparsed|].
           constructor; [eapply executed_parsed; exact Hbefore | constructor].
        -- split; [|now left]. right. exists response, post.
           split; [reflexivity|]. rewrite Hcalls, Hsplit. now rewrite <- app_assoc.
Qed.

Lemma entries_faithful (self : MainAgent) (calls : list tool_call) :
  Forall (faithful_entry (tool_registry self)) (map (entry_of self) calls).
Proof.
  apply Forall_forall. intros e Hin. apply in_map_iff in Hin as (tc & <- & _).
  unfold faithful_entry. simpl. apply tool_result_of_eq.
Qed.

Lemma iteration_body_requests (self : MainAgent) (groq_tools : list pyval)
    (s s' : state) (o : option agent_result) :
  iteration_body self groq_tools s = (Return o, s') ->
  model_requests (st_trace s')
  = (model_requests (st_trace s)
     ++ [completion_kwargs self groq_tools (st_messages s)])%list.
Proof.
  intros Hbody.
  destruct (iteration_body_progress _ _ _ _ _ Hbody)
    as (done & unlogged & Htrace & _ & _ & _ & _ & _ & Hgap).
  destruct (tool_events_exec done exec_event_of (fun _ => eq_refl)) as [_ Hmr].
  rewrite Htrace, model_requests_app. cbn [model_requests].
  rewrite model_requests_app, Hmr.
  destruct Hgap as [->|(tc & e & -> & _)]; reflexivity.
Qed.

(** ** Invariants of the loop *)

(** What holds when the loop condition is tested and is kept by a pass
    that falls through holds of the way the loop is left. *)
Lemma while_loop_invariant (self : MainAgent) (groq_tools : list pyval)
    (I : state -> Prop) (P : option agent_result -> state -> Prop) :
  (forall s, I s -> P None s) ->
  (forall s s' o,
      I s ->
      iteration_body self groq_tools s = (Return o, s') ->
      match o with
      | None => I s'
      | Some r => P (Some r) s'
      end) ->
  forall (fuel : nat) (s s' : state) (o : option agent_result),
    I s ->
    while_loop fuel self groq_tools s = Some (Return o, s') ->
    P o s'.
Proof.
  intros Hleft Hstep.
  induction fuel as [|fuel IH]; intros s s' o Hinv Hloop; simpl in Hloop;
    destruct (st_iteration s <? max_iterations)%nat;
    try discriminate; try (inversion Hloop; subst; now apply Hleft).
  destruct (iteration_body self groq_tools s) as [[[r|]|e] s1] eqn:Hbody.
  - inversion Hloop. subst. exact (Hstep _ _ _ Hinv Hbody).
  - eapply IH; [exact (Hstep _ _ _ Hinv Hbody) | exact Hloop].
  - discriminate.
Qed.

(** A run that returns a result is a run of the loop that did not
    raise. *)
Lemma process_query_returned (self : MainAgent) (user_query : string)
    (r : agent_result) (tr : list event) :
  process_query self user_query = Some (Return r, tr) ->
  exists (groq_tools : list pyval) (o : option agent_result) (s' : state),
    get_groq_tools self = Return groq_tools
    /\ while_loop max_iterations self groq_tools (initial_state user_query)
       = Some (Return o, s')
    /\ tr = st_trace s'
    /\ execution_log r = st_execution_log s'
    /\ iterations r = st_iteration s'
    /\ model_calls tr = iterations r
    /\ (success r = true -> chart_data r = Some (chart_scan (execution_log r)))
    /\ match o with
       | Some r' => r = r'
       | None => r = exhausted (st_execution_log s')
       end.
Proof.
  intros Hrun.
  destruct (get_groq_tools self) as [groq_tools|e] eqn:Htools.
  - rewrite (process_query_eq _ _ _ Htools) in Hrun.
    destruct (while_loop_settles self groq_tools max_iterations
                (initial_state user_query))
      as (o & s' & Hw & Hle & _ & Ho);
      [unfold max_iterations; simpl; lia | unfold max_iterations; simpl; lia |].
    rewrite Hw in Hrun.
    destruct o as [o|e]; [|discriminate].
    destruct (Ho _ eq_refl) as [Hm Hend]. simpl in Hm.
    change (model_calls []) with 0 in Hm.
    exists groq_tools, o, s'. split; [reflexivity|]. split; [exact Hw|].
    destruct o as [r'|]; simpl in Hrun; inversion Hrun; subst.
    + destruct Hend as (Hit & Hlog & _ & Hchart).
      split; [reflexivity|]. split; [exact Hlog|]. split; [exact Hit|].
      split; [lia|]. split; [exact Hchart | reflexivity].
    + split; [reflexivity|]. split; [reflexivity|]. split; [now rewrite Hend|].
      split; [simpl; lia|]. split; [discriminate | reflexivity].
  - unfold process_query in Hrun. rewrite Htools in Hrun. discriminate.
Qed.

(** One pass keeps the record of the run, and the invariant of the loop
    if it falls through. *)
Lemma loop_invariant_step (self : MainAgent) (groq_tools : list pyval)
    (opening : list message) (s s' : state) (o : option agent_result) :
  loop_invariant self groq_tools opening s ->
  iteration_body self groq_tools s = (Return o, s') ->
  run_record self groq_tools opening (st_execution_log s') (st_trace s')
  /\ (o = None -> loop_invariant self groq_tools opening s').
Proof.
  intros ((Hfaith & Hreqs & Hgrow) & Hstep & Hprop & Hopen) Hbody.
  pose proof (iteration_body_requests _ _ _ _ _ Hbody) as Hrequests.
  destruct (iteration_body_progress _ _ _ _ _ Hbody)
    as (done & unlogged & Htrace & Hlog & Hmsgs & Hfall & _).
  pose (req := completion_kwargs self groq_tools (st_messages s)).
  fold req in Htrace, Hrequests.
  assert (run_record self groq_tools opening (st_execution_log s') (st_trace s'))
    as Hrecord.
  { unfold run_record. rewrite Hrequests. repeat split.
    - rewrite Hlog. apply Forall_app. split; [exact Hfaith | apply entries_faithful].
    - apply Forall_app. split; [exact Hreqs|]. constructor; [|constructor].
      split; [reflexivity | exact Hopen].
    - apply growing_snoc; [exact Hgrow | exact Hprop]. }
  split; [exact Hrecord|].
  intros Hnone. destruct (Hfall Hnone) as [Hproper Hnil]. subst unlogged.
  split; [exact Hrecord|]. split; [|split].
  - destruct (tool_events_exec done exec_event_of (fun _ => eq_refl)) as [Hte _].
    rewrite Hlog, Htrace, map_app, tool_events_app, Hstep. rewrite app_nil_r.
    change (ModelCall req :: map exec_event_of done)
      with ([ModelCall req] ++ map exec_event_of done)%list.
    rewrite tool_events_app, Hte. simpl. rewrite map_map. reflexivity.
  - rewrite Hrequests. apply Forall_app. split.
    + eapply Forall_impl; [|exact Hprop]. intros r Hr.
      eapply proper_prefix_then_prefix; [exact Hr | exact Hmsgs].
    + constructor; [exact Hproper | constructor].
  - eapply prefix_trans; [exact Hopen | exact Hmsgs].
Qed.

Lemma loop_invariant_initial (self : MainAgent) (groq_tools : list pyval)
    (user_query : string) :
  loop_invariant self groq_tools (st_messages (initial_state user_query))
    (initial_state user_query).
Proof.
  repeat split; simpl; try constructor. apply prefix_refl.
Qed.

(** The log and the record of calls of a run that returns a result. *)
Lemma process_query_record (self : MainAgent) (user_query : string)
    (r : agent_result) (tr : list event) :
  process_query self user_query = Some (Return r, tr) ->
  exists groq_tools : list pyval,
    get_groq_tools self = Return groq_tools
    /\ run_record self groq_tools (st_messages (initial_state user_query))
         (execution_log r) tr
    /\ (success r = true -> chart_data r = Some (chart_scan (execution_log r)))
    /\ model_calls tr = iterations r.
Proof.
  intros Hrun.
  destruct (process_query_returned _ _ _ _ Hrun)
    as (groq_tools & o & s' & Htools & Hloop & -> & Hlog & _ & Hcalls & Hchart & _).
  exists groq_tools. split; [exact Htools|]. split; [|split; assumption].
  rewrite Hlog.
  apply (while_loop_invariant self groq_tools
           (loop_invariant self groq_tools (st_messages (initial_state user_query)))
           (fun _ st => run_record self groq_tools (st_messages (initial_state user_query))
                          (st_execution_log st) (st_trace st)))
    with (fuel := max_iterations) (s := initial_state user_query) (o := o).
  - intros st Hinv. exact (proj1 Hinv).
  - intros st st' o' Hinv Hbody.
    destruct (loop_invariant_step _ _ _ _ _ _ Hinv Hbody) as [Hrecord Hnext].
    destruct o'; [exact Hrecord | now apply Hnext].
  - apply loop_invariant_initial.
  - exact Hloop.
Qed.


(** The log of a run is in step with the executions, but for an
    execution that the console cut off from its entry. *)
Lemma process_query_audit (self : MainAgent) (user_query : string)
    (r : agent_result) (tr : list event) :
  process_query self user_query = Some (Return r, tr) ->
  exists unlogged : list event,
    tool_events tr = (map entry_event (execution_log r) ++ unlogged)%list
    /\ (unlogged = []
        \/ exists (tc : tool_call) (e : exn),
             unlogged = [exec_event_of tc]
             /\ print_tool_result (tool_result_of self tc) = Raise e
             /\ r = failed e (execution_log r) (iterations r)).
Proof.
  intros Hrun.
  destruct (process_query_returned _ _ _ _ Hrun)
    as (groq_tools & o & s' & Htools & Hloop & -> & Hlog & Hit & _ & _ & Hresult).
  rewrite Hlog, Hit.
  assert (exists unlogged : list event,
             tool_events (st_trace s')
             = (map entry_event (st_execution_log s') ++ unlogged)%list
             /\ (unlogged = []
                 \/ exists (tc : tool_call) (e : exn),
                      unlogged = [exec_event_of tc]
                      /\ print_tool_result (tool_result_of self tc) = Raise e
                      /\ o = Some (failed e (st_execution_log s') (st_iteration s'))))
    as (unlogged & Hstep & Hgap).
  { apply (while_loop_invariant self groq_tools
             (loop_invariant self groq_tools (st_messages (initial_state user_query)))
             (fun o st =>
                exists unlogged : list event,
                  tool_events (st_trace st)
                  = (map entry_event (st_execution_log st) ++ unlogged)%list
                  /\ (unlogged = []
                      \/ exists (tc : tool_call) (e : exn),
                           unlogged = [exec_event_of tc]
                           /\ print_tool_result (tool_result_of self tc) = Raise e
                           /\ o = Some (failed e (st_execution_log st)
                                          (st_iteration st)))))
      with (fuel := max_iterations) (s := initial_state user_query).
    - intros st (_ & Hstep & _). exists []. rewrite app_nil_r. split; [now rewrite Hstep|].
      now left.
    - intros st st' o' Hinv Hbody.
      destruct (loop_invariant_step _ _ _ _ _ _ Hinv Hbody) as [_ Hnext].
      destruct o' as [r'|].
      + destruct Hinv as (_ & Hstep & _).
        destruct (iteration_body_progress _ _ _ _ _ Hbody)
          as (done & unlogged & Htrace & Hlog' & _ & _ & _ & _ & Hgap).
        exists unlogged. split; [|exact Hgap].
        destruct (tool_events_exec done exec_event_of (fun _ => eq_refl)) as [Hte _].
        rewrite Htrace, Hlog', map_app, tool_events_app, <- Hstep.
        change (ModelCall (completion_kwargs self groq_tools (st_messages st))
                  :: map exec_event_of done ++ unlogged)%list
          with ([ModelCall (completion_kwargs self groq_tools (st_messages st))]
                  ++ map exec_event_of done ++ unlogged)%list.
        rewrite !tool_events_app, Hte. cbn [tool_events filter is_model_call negb app].
        rewrite map_map. rewrite <- app_assoc. f_equal. f_equal.
        destruct Hgap as [->|(tc & e & -> & _)]; reflexivity.
      + exact (Hnext eq_refl).
    - apply loop_invariant_initial.
    - exact Hloop. }
  exists unlogged. split; [exact Hstep|].
  destruct Hgap as [->|(tc & e & -> & Hlines & ->)]; [now left|].
  right. exists tc, e. split; [reflexivity|]. split; [exact Hlines|].
  rewrite Hresult. reflexivity.
Qed.

(** X8: the execution log of a returned result is the audit trail of
    the run.  It has one entry per execution asked of the registry, in
    the order of the executions, with the tool name and the arguments of
    each, but for one case: the last execution of the run has no entry
    when the console raised on the lines written about its result, and
    then the result of the run is the failure result with that error.
    Every entry holds under [result] what the registry answers for its
    tool and arguments. *)
Theorem execution_log_is_audit_trail :
  forall (self : MainAgent) (user_query : string) (r : agent_result) (tr : list event),
    process_query self user_query = Some (Return r, tr) ->
    (exists unlogged : list event,
        tool_events tr
        = (map (fun e => ToolExec (tool e) (arguments e)) (execution_log r)
           ++ unlogged)%list
        /\ (success r = true -> unlogged = [])
        /\ (unlogged = []
            \/ exists (name : string) (args : pyval) (tool_result : pydict) (e : exn),
                 unlogged = [ToolExec name args]
                 /\ execute_tool (tool_registry self) name args = Return tool_result
                 /\ print_tool_result tool_result = Raise e
                 /\ success r = false
                 /\ answer r = Some ("Error occurred during processing: " ++ str_exn e)))
    /\ forall e : log_entry,
         In e (execution_log r) ->
         execute_tool (tool_registry self) (tool e) (arguments e) = Return (result e).
Proof.
  intros self user_query r tr Hrun. split.
  - destruct (process_query_audit _ _ _ _ Hrun) as (unlogged & Hstep & Hgap).
    exists unlogged. split; [exact Hstep|].
    destruct Hgap as [->|(tc & e & -> & Hlines & Hr)].
    + split; [reflexivity | now left].
    + split.
      * rewrite Hr. discriminate.
      * right. exists (function_name tc), (arguments_of tc), (tool_result_of self tc), e.
        split; [reflexivity|]. split; [apply tool_result_of_eq|].
        split; [exact Hlines|]. rewrite Hr. split; reflexivity.
  - intros e Hin.
    destruct (process_query_record _ _ _ _ Hrun) as (groq_tools & _ & (Hfaith & _) & _).
    rewrite Forall_forall in Hfaith. now apply Hfaith.
Qed.



Lemma chart_scan_cases (l : list log_entry) :
  chart_scan l = PyNone
  \/ exists e : log_entry,
       In e l /\ successful_chart e = true
       /\ chart_scan l = dict_get_default (result e) "result" (PyDict []).
Proof.
  induction l as [|e l IH] using rev_ind; [now left|].
  rewrite chart_scan_fold, fold_left_app. simpl. rewrite <- chart_scan_fold.
  destruct (successful_chart e) eqn:He.
  - right. exists e. split; [apply in_or_app; right; now left|]. now split.
  - destruct IH as [Hnone|(e' & Hin & He' & Hscan)]; [now left|].
    right. exists e'. split; [apply in_or_app; now left|]. now split.
Qed.

(** X11: the chart handed to the caller is the handler's own value: in
    a result with [success = True], [chart_data] is either [None] or the
    value that the callable registered as [create_chart] returned on the
    arguments of an entry of the execution log. *)
Theorem chart_data_origin :
  forall (self : MainAgent) (user_query : string) (r : agent_result) (tr : list event),
    process_query self user_query = Some (Return r, tr) ->
    success r = true ->
    chart_data r = Some PyNone
    \/ exists (e : log_entry) (info : tool_info) (f : pyfunc) (kwargs : pydict)
              (v : pyval),
         In e (execution_log r)
         /\ tool e = "create_chart"
         /\ arguments e = PyDict kwargs
         /\ dict_get (tools (tool_registry self)) "create_chart" = Some info
         /\ function info = Some f
         /\ call f kwargs = Return v
         /\ chart_data r = Some v.
Proof.
  intros self user_query r tr Hrun Hsuccess.
  destruct (process_query_record _ _ _ _ Hrun)
    as (groq_tools & _ & (Hfaith & _) & Hchart & _).
  rewrite (Hchart Hsuccess).
  destruct (chart_scan_cases (execution_log r)) as [Hnone|(e & Hin & He & Hscan)].
  - left. now rewrite Hnone.
  - right. rewrite Forall_forall in Hfaith. pose proof (Hfaith e Hin) as Hexec.
    unfold faithful_entry in Hexec. unfold successful_chart in He.
    apply andb_true_iff in He as [Htool Hflag]. apply String.eqb_eq in Htool.
    destruct (dict_get (result e) "success") as [flag|] eqn:Hget; [|discriminate].
    destruct (execute_tool_success_inv _ _ _ _ _ Hexec Hget Hflag)
      as (info & f & kwargs & v & Hinfo & Hfun & Hargs & Hcall & Hresult).
    rewrite Htool in Hinfo.
    exists e, info, f, kwargs, v. repeat split; try assumption.
    rewrite Hscan, Hresult. reflexivity.
Qed.

(** X12: when the console or [json.loads] raises in a tool call of a
    turn, the turn stops there and the run ends.  The calls before it
    are executed, logged and answered by a tool message; the call itself
    leaves no log entry and no tool message, and it was executed exactly
    when the raise came from the lines written about its result, that is
    after the registry had answered; the calls after it are neither
    executed nor logged; and the pass returns the failure result of that
    iteration. *)
Theorem interrupted_turn :
  forall (self : MainAgent) (groq_tools : list pyval) (s : state)
         (response : response_message) (pre : list tool_call) (tc : tool_call)
         (post : list tool_call) (executed : bool) (e : exn),
    print_iteration (S (st_iteration s)) = Return tt ->
    chat_completions_create (client self)
      (completion_kwargs self groq_tools (st_messages s)) = Return response ->
    tool_calls response = Some (pre ++ tc :: post)%list ->
    print ("Tool calls count: " ++ decimal (List.length (pre ++ tc :: post))) = Return tt ->
    forallb (completes self) (enumerate pre) = true ->
    (if executed
     then exists (tool_args : pyval) (tool_result : pydict),
            before_execution (List.length pre) tc = Return tool_args
            /\ execute_tool (tool_registry self) (function_name tc) tool_args
               = Return tool_result
            /\ print_tool_result tool_result = Raise e
     else before_execution (List.length pre) tc = Raise e) ->
    print ("Error in iteration " ++ decimal (S (st_iteration s)) ++ ": " ++ str_exn e)
    = Return tt ->
    let r :=
      {| answer := Some ("Error occurred during processing: " ++ str_exn e);
         chart_data := None;
         execution_log := (st_execution_log s ++ map (entry_of self) pre)%list;
         success := false;
         iterations := S (st_iteration s) |} in
    let s' :=
      {| st_messages :=
           (st_messages s ++ AssistantMsg response :: map (tool_message_of self) pre)%list;
         st_iteration := S (st_iteration s);
         st_execution_log := (st_execution_log s ++ map (entry_of self) pre)%list;
         st_trace :=
           (st_trace s
            ++ ModelCall (completion_kwargs self groq_tools (st_messages s))
               :: map exec_event_of pre
            ++ (if executed then [exec_event_of tc] else []))%list |} in
    iteration_body self groq_tools s = (Return (Some r), s')
    /\ (st_iteration s < max_iterations ->
        forall fuel, while_loop (S fuel) self groq_tools s = Some (Return (Some r), s')).
Proof.
  intros self groq_tools s response pre tc post executed e Hbanner Hcall Hcalls Hcount
         Hpre Hcause Hline r s'.
  assert (requested_tool_calls response = (pre ++ tc :: post)%list) as Hreq
    by (unfold requested_tool_calls; now rewrite Hcalls).
  assert (stops self (List.length pre, tc)
          = Some (if executed then BeforeLogging else BeforeExecution, e)) as Hstop.
  { unfold stops. destruct executed.
    - destruct Hcause as (tool_args & tool_result & Hbefore & Hexec & Hlines).
      pose proof (before_execution_returns _ _ _ Hbefore) as Heq. subst tool_args.
      rewrite tool_result_of_eq in Hexec. inversion Hexec as [Hresult].
      now rewrite Hbefore, Hresult, Hlines.
    - now rewrite Hcause. }
  assert (iteration_body self groq_tools s = (Return (Some r), s')) as Hbody.
  { rewrite (turn_interrupted _ _ _ _ _ _ _ _ _ Hbanner Hcall Hreq Hcount Hpre Hstop).
    unfold reported, stopped, with_calls, answered, called.
    cbn [st_iteration st_execution_log st_trace st_messages].
    rewrite Hline. unfold r, s', failed.
    destruct executed; rewrite ?app_nil_r, <- ?app_assoc; reflexivity. }
  split; [exact Hbody|].
  intros Hlt fuel. now apply while_loop_returns.
Qed.

(** A pass that returns a failure result reports what the client, the
    console, [json.loads] or [json.dumps] raised. *)
Lemma iteration_body_failure_cause (self : MainAgent) (groq_tools : list pyval)
    (s s' : state) (r : agent_result) :
  iteration_body self groq_tools s = (Return (Some r), s') ->
  success r = false ->
  exists e : exn,
    r = failed e (st_execution_log s') (st_iteration s')
    /\ (chat_completions_create (client self)
          (completion_kwargs self groq_tools (st_messages s)) = Raise e
        \/ exists response : response_message,
             chat_completions_create (client self)
               (completion_kwargs self groq_tools (st_messages s)) = Return response
             /\ ((requested_tool_calls response = []
                  /\ print_final_answer (content response) = Raise e)
                 \/ (requested_tool_calls response <> []
                     /\ print ("Tool calls count: "
                               ++ decimal (List.length (requested_tool_calls response)))
                        = Raise e)
                 \/ exists (index : nat) (tc : tool_call),
                      nth_error (requested_tool_calls response) index = Some tc
                      /\ (before_execution index tc = Raise e
                          \/ print_tool_result (tool_result_of self tc) = Raise e
                          \/ json_dumps (PyDict (tool_result_of self tc)) = Raise e))).
Proof.
  intros Hbody Hfail. rewrite iteration_body_eq in Hbody. cbv zeta in Hbody.
  set (req := completion_kwargs self groq_tools (st_messages s)) in *.
  destruct (print_iteration (S (st_iteration s))) as [[]|e0]; [|discriminate].
  destruct (chat_completions_create (client self) req) as [response|e0] eqn:Hcall.
  2:{ apply reported_returns in Hbody as [-> Hr]. inversion Hr.
      exists e0. split; [reflexivity | now left]. }
  destruct (requested_tool_calls response) as [|tc calls] eqn:Hcalls.
  - destruct (print_final_answer (content response)) as [[]|e0] eqn:Hlines.
    + inversion Hbody. subst. discriminate.
    + apply reported_returns in Hbody as [-> Hr]. inversion Hr.
      exists e0. split; [reflexivity|]. right. exists response.
      split; [reflexivity|]. left. now split.
  - match type of Hbody with context [print ?t] => destruct (print t) as [[]|e0] eqn:Hcount end.
    2:{ apply reported_returns in Hbody as [-> Hr]. inversion Hr.
        exists e0. split; [reflexivity|]. right. exists response.
        split; [reflexivity|]. right. left. rewrite Hcalls.
        split; [discriminate | exact Hcount]. }
    unfold enumerate in Hbody.
    destruct (turn_cases self (tc :: calls) 0)
      as [Hall|(pre & tc' & post & at_stage & e & Hsplit & Hpre & Hstop)].
    + rewrite (for_each_completes _ _ _ _ Hall) in Hbody. discriminate.
    + rewrite Hsplit in Hbody.
      rewrite (for_each_stops _ _ _ _ _ _ _ _ Hpre Hstop) in Hbody.
      apply reported_returns in Hbody as [-> Hr]. inversion Hr.
      exists e. split; [reflexivity|]. right. exists response.
      split; [reflexivity|]. right. right. exists (List.length pre), tc'.
      split; [rewrite Hcalls, Hsplit; apply nth_error_middle|].
      pose proof (stops_cases _ _ _ _ _ Hstop) as Hcase. simpl in Hcase.
      destruct at_stage; [now left | right; left; tauto | right; right; tauto].
Qed.

(** X13: a tool never ends a run: a result with [success = False] is
    either the iteration-limit result after 15 model calls, or the
    failure result that reports an exception of the last model call, of
    the console, of [json.loads] or of [json.dumps].  Whatever a tool
    handler raises is turned into a tool result by the registry and
    never reaches the handler of the loop. *)
Theorem failure_causes :
  forall (self : MainAgent) (user_query : string) (r : agent_result) (tr : list event),
    process_query self user_query = Some (Return r, tr) ->
    success r = false ->
    (r = exhausted (execution_log r) /\ model_calls tr = 15)
    \/ exists (e : exn) (earlier : list completion_request) (req : completion_request),
         r = failed e (execution_log r) (iterations r)
         /\ model_requests tr = (earlier ++ [req])%list
         /\ (chat_completions_create (client self) req = Raise e
             \/ exists response : response_message,
                  chat_completions_create (client self) req = Return response
                  /\ ((requested_tool_calls response = []
                       /\ print_final_answer (content response) = Raise e)
                      \/ (requested_tool_calls response <> []
                          /\ print ("Tool calls count: "
                                    ++ decimal (List.length (requested_tool_calls response)))
                             = Raise e)
                      \/ exists (index : nat) (tc : tool_call),
                           nth_error (requested_tool_calls response) index = Some tc
                           /\ (before_execution index tc = Raise e
                               \/ print_tool_result (tool_result_of self tc) = Raise e
                               \/ json_dumps (PyDict (tool_result_of self tc)) = Raise e))).
Proof.
  intros self user_query r tr Hrun Hfail.
  destruct (process_query_returned _ _ _ _ Hrun)
    as (groq_tools & o & s' & Htools & Hloop & -> & Hlog & Hit & Hcalls & _ & Hresult).
  destruct o as [r'|].
  - subst r'. right. rewrite Hlog, Hit.
    apply (while_loop_invariant self groq_tools (fun _ => True)
             (fun o st =>
                forall r0, o = Some r0 -> success r0 = false ->
                exists e earlier req,
                  r0 = failed e (st_execution_log st) (st_iteration st)
                  /\ model_requests (st_trace st) = (earlier ++ [req])%list
                  /\ (chat_completions_create (client self) req = Raise e
                      \/ exists response : response_message,
                           chat_completions_create (client self) req = Return response
                           /\ ((requested_tool_calls response = []
                                /\ print_final_answer (content response) = Raise e)
                               \/ (requested_tool_calls response <> []
                                   /\ print ("Tool calls count: "
                                             ++ decimal (List.length
                                                           (requested_tool_calls response)))
                                      = Raise e)
                               \/ exists (index : nat) (tc : tool_call),
                                    nth_error (requested_tool_calls response) index
                                    = Some tc
                                    /\ (before_execution index tc = Raise e
                                        \/ print_tool_result (tool_result_of self tc)
                                           = Raise e
                                        \/ json_dumps (PyDict (tool_result_of self tc))
                                           = Raise e)))))
      with (fuel := max_iterations) (s := initial_state user_query) (o := Some r);
      try trivial.
    + intros st _ r0 Hr0. discriminate.
    + intros st st' o' _ Hbody. destruct o' as [r1|]; [|trivial].
      intros r0 Hr0 Hfail0. inversion Hr0. subst r0.
      destruct (iteration_body_failure_cause _ _ _ _ _ Hbody Hfail0) as (e & Hr1 & Hcause).
      exists e, (model_requests (st_trace st)),
        (completion_kwargs self groq_tools (st_messages st)).
      split; [exact Hr1|]. split; [|exact Hcause].
      exact (iteration_body_requests _ _ _ _ _ Hbody).
  - left. split; [now rewrite Hlog|]. rewrite Hcalls, Hresult. reflexivity.
Qed.

(** X14: a call to a tool that the registry does not know does not end
    the turn.  Once the call has got as far as its execution, the
    registry answers with its not-found report, which lists the names of
    the registered tools; the loop writes two lines about it and, the
    console taking them and the report once encoded, logs one entry with
    the report as result, appends the tool message that shows it to the
    model and goes on with the next call. *)
Theorem unknown_tool_is_reported :
  forall (self : MainAgent) (index : nat) (tc : tool_call) (s : state)
         (tool_args : pyval) (text : string),
    dict_mem (tools (tool_registry self)) (function_name tc) = false ->
    before_execution index tc = Return tool_args ->
    let error :=
      "Tool '" ++ function_name tc ++ "' not found. Available tools: "
      ++ repr_str_list (dict_keys (tools (tool_registry self))) in
    let report := [ ("success", PyBool false); ("error", PyStr error) ] in
    print "Tool result success: False" = Return tt ->
    print ("Tool error: " ++ error) = Return tt ->
    json_dumps (PyDict report) = Return text ->
    tool_call_body self (index, tc) s
    = (Return tt,
       {| st_messages := (st_messages s ++ [ToolMsg (id tc) (function_name tc) text])%list;
          st_iteration := st_iteration s;
          st_execution_log :=
            (st_execution_log s
             ++ [ {| tool := function_name tc;
                     arguments := tool_args;
                     result := report |} ])%list;
          st_trace := (st_trace s ++ [ToolExec (function_name tc) tool_args])%list |}).
Proof.
  intros self index tc s tool_args text Hmem Hbefore error report Hflag Hline Hdumps.
  pose proof (before_execution_returns _ _ _ Hbefore) as Heq. subst tool_args.
  assert (tool_result_of self tc = report) as Hresult.
  { unfold tool_result_of, execute_tool. now rewrite Hmem. }
  assert (print_tool_result report = Return tt) as Hlines.
  { unfold print_tool_result, report.
    cbn [dict_get_default dict_get String.eqb Ascii.eqb Bool.eqb str_value truthy negb].
    change ("Tool result success: " ++ "False") with "Tool result success: False".
    rewrite Hflag. cbn [py_bind]. exact Hline. }
  rewrite tool_call_body_eq. unfold stops. rewrite Hbefore, Hresult, Hlines, Hdumps.
  unfold with_calls. cbn [map]. unfold tool_message_of, entry_of, exec_event_of.
  now rewrite Hresult, Hdumps.
Qed.
End MoreProperties.

(** ** tools.py: the data tools *)

Section ToolProperties.
Context {env : Environment} {pd : Pandas}.

(** X15: the errors of [extract_csv_data].  The file is read first, so
    an unreadable file is reported whatever the filters are; a filters
    text that [json.loads] rejects with a [JSONDecodeError] is reported
    as invalid JSON with the text; any other exception of [json.loads]
    (a [RecursionError] on nesting too deep) is reported with its own
    message; a filters value that is not an object is reported by the
    missing [items]; and every error the tool raises is an [Exception]
    whose message starts with
    ["Error extracting data from '<csv_name>': "]. *)
Theorem extract_csv_data_errors :
  forall (self : ToolRegistry) (csv_name : string) (filters : pyval),
    let wrapped := fun msg =>
      Raise (Exception ("Error extracting data from '" ++ csv_name ++ "': " ++ msg)) in
    (forall e,
        read_csv (fixtures_path self ++ "/" ++ csv_name) = Raise e ->
        Tools.extract_csv_data self csv_name filters = wrapped (str_exn e))
    /\ (forall df text msg,
          read_csv (fixtures_path self ++ "/" ++ csv_name) = Return df ->
          filters = PyStr text ->
          json_loads text = Raise (JSONDecodeError msg) ->
          Tools.extract_csv_data self csv_name filters
          = wrapped ("Invalid JSON in filters parameter: " ++ text))
    /\ (forall df text e,
          read_csv (fixtures_path self ++ "/" ++ csv_name) = Return df ->
          filters = PyStr text ->
          json_loads text = Raise e ->
          (forall msg, e <> JSONDecodeError msg) ->
          Tools.extract_csv_data self csv_name filters = wrapped (str_exn e))
    /\ (forall df v,
          read_csv (fixtures_path self ++ "/" ++ csv_name) = Return df ->
          Tools.parse_filters filters = Return v ->
          (forall d, v <> PyDict d) ->
          Tools.extract_csv_data self csv_name filters
          = wrapped ("'" ++ type_name_of v ++ "' object has no attribute 'items'"))
    /\ (forall e,
          Tools.extract_csv_data self csv_name filters = Raise e ->
          exists msg, Raise e = wrapped msg :> py pyval).
Proof.
  intros self csv_name filters wrapped. unfold Tools.extract_csv_data.
  split; [|split; [|split; [|split]]].
  - intros e Hread. rewrite Hread. reflexivity.
  - intros df text msg Hread -> Hjson. rewrite Hread.
    unfold Tools.parse_filters. rewrite Hjson. reflexivity.
  - intros df text e Hread -> Hjson Hother. rewrite Hread.
    unfold Tools.parse_filters. rewrite Hjson.
    destruct e; try reflexivity. exfalso. eapply Hother. reflexivity.
  - intros df v Hread Hparse Hnot. rewrite Hread. simpl. rewrite Hparse. simpl.
    destruct v; try reflexivity. exfalso. eapply Hnot. reflexivity.
  - intros e Hrun.
    match type of Hrun with try_except ?b _ = _ => destruct b as [r|e'] end;
      simpl in Hrun; [discriminate|].
    inversion Hrun. eexists. reflexivity.
Qed.

(** The loop over the filters stops at a filter whose column the frame
    does not have. *)
Lemma apply_filters_stops (csv_name : string) (before after : list (string * pyval))
    (column : string) (value : pyval) :
  forall df df' : DataFrame,
    Tools.apply_filters csv_name before df = Return df' ->
    Tools.label_mem column (frame_columns df') = false ->
    Tools.apply_filters csv_name (before ++ (column, value) :: after) df
    = Raise (ValueError ("Column '" ++ column ++ "' not found in " ++ csv_name
                         ++ ". Available columns: " ++ repr_list (frame_columns df'))).
Proof.
  induction before as [|[c v] before IH]; intros df df' Hbefore Hmem;
    simpl in Hbefore |- *.
  - inversion Hbefore. subst. now rewrite Hmem.
  - destruct (negb (Tools.label_mem c (frame_columns df))); [discriminate|].
    destruct (match v with
              | PyList values => select_isin df c values
              | _ => select_eq df c v
              end) as [df1|e]; simpl in Hbefore |- *; [|discriminate].
    now apply IH.
Qed.

(** X16: a filter on a column that the frame does not have stops
    [extract_csv_data]: when the filters before it have been applied,
    giving [df'], and its column is not a label of [df'], the tool
    raises the wrapped error that names the column and the file and lists
    the labels of [df']; the filters after it are not looked at. *)
Theorem extract_csv_data_unknown_column :
  forall (self : ToolRegistry) (csv_name : string) (df df' : DataFrame)
         (before after : list (string * pyval)) (column : string) (value : pyval),
    read_csv (fixtures_path self ++ "/" ++ csv_name) = Return df ->
    Tools.apply_filters csv_name before df = Return df' ->
    Tools.label_mem column (frame_columns df') = false ->
    Tools.extract_csv_data self csv_name (PyDict (before ++ (column, value) :: after))
    = Raise (Exception ("Error extracting data from '" ++ csv_name ++ "': "
                        ++ "Column '" ++ column ++ "' not found in " ++ csv_name
                        ++ ". Available columns: " ++ repr_list (frame_columns df'))).
Proof.
  intros self csv_name df df' before after column value Hread Hbefore Hmem.
  unfold Tools.extract_csv_data. rewrite Hread. simpl.
  rewrite (apply_filters_stops _ _ _ _ _ _ _ Hbefore Hmem). reflexivity.
Qed.

(** X17: what [extract_csv_data] returns.  A returned value is the dict
    of a frame obtained from the file by the filters: the file was read,
    the filters were an object, given as such or as JSON text, and the
    dict holds the records, the length and the labels of the frame that
    the filters left.  So the same object gives the same answer as text
    and as value, and the empty object gives the whole file. *)
Theorem extract_csv_data_returns :
  forall (self : ToolRegistry) (csv_name : string) (filters r : pyval),
    Tools.extract_csv_data self csv_name filters = Return r ->
    exists (df df' : DataFrame) (items : list (string * pyval)),
      read_csv (fixtures_path self ++ "/" ++ csv_name) = Return df
      /\ (filters = PyDict items
          \/ exists text, filters = PyStr text /\ json_loads text = Return (PyDict items))
      /\ Tools.apply_filters csv_name items df = Return df'
      /\ (items = [] -> df' = df)
      /\ r = PyDict [ ("csv_name", PyStr csv_name);
                      ("extracted_data", to_records df');
                      ("row_count", PyInt (frame_len df'));
                      ("columns", PyList (frame_columns df')) ]
      /\ Tools.extract_csv_data self csv_name (PyDict items) = Return r.
Proof.
  intros self csv_name filters r Hrun. unfold Tools.extract_csv_data in Hrun |- *.
  destruct (read_csv (fixtures_path self ++ "/" ++ csv_name)) as [df|e] eqn:Hread;
    simpl in Hrun; [|discriminate].
  destruct (Tools.parse_filters filters) as [v|e] eqn:Hparse; simpl in Hrun; [|discriminate].
  destruct v as [| | | | | |items|]; simpl in Hrun; try discriminate.
  destruct (Tools.apply_filters csv_name items df) as [df'|e] eqn:Hloop;
    simpl in Hrun; [|discriminate].
  inversion Hrun. subst r.
  exists df, df', items. split; [reflexivity|]. split.
  - unfold Tools.parse_filters in Hparse. destruct filters; try (inversion Hparse; now left).
    destruct (json_loads s) as [v|e] eqn:Hjson.
    + inversion Hparse. subst. right. now exists s.
    + destruct e; discriminate.
  - split; [exact Hloop|]. split.
    + intros ->. simpl in Hloop. now inversion Hloop.
    + split; [reflexivity|]. simpl. rewrite Hloop. reflexivity.
Qed.
(** X18: the errors of [create_chart].  Data given as text that
    [json.loads] does not decode is reported with the message of the
    exception that [json.loads] raised; a missing x
    column is reported before a missing y column, each with the labels
    of the frame; and every error the tool raises is an [Exception]
    whose message starts with ["Error creating chart: "]. *)
Theorem create_chart_errors :
  forall (chart_type x_column y_column : string) (data : pyval),
    let wrapped := fun msg => Raise (Exception ("Error creating chart: " ++ msg)) in
    (forall text e,
        data = PyStr text ->
        json_loads text = Raise e ->
        Tools.create_chart chart_type x_column y_column data
        = wrapped (str_exn e))
    /\ (forall v df,
          Tools.parse_data data = Return v ->
          DataFrame_new v = Return df ->
          Tools.label_mem x_column (frame_columns df) = false ->
          Tools.create_chart chart_type x_column y_column data
          = wrapped ("Column '" ++ x_column ++ "' not found. Available: "
                     ++ repr_list (frame_columns df)))
    /\ (forall v df,
          Tools.parse_data data = Return v ->
          DataFrame_new v = Return df ->
          Tools.label_mem x_column (frame_columns df) = true ->
          Tools.label_mem y_column (frame_columns df) = false ->
          Tools.create_chart chart_type x_column y_column data
          = wrapped ("Column '" ++ y_column ++ "' not found. Available: "
                     ++ repr_list (frame_columns df)))
    /\ (forall e,
          Tools.create_chart chart_type x_column y_column data = Raise e ->
          exists msg, Raise e = wrapped msg :> py pyval).
Proof.
  intros chart_type x_column y_column data wrapped. unfold Tools.create_chart.
  split; [|split; [|split]].
  - intros text e -> Hjson. simpl. rewrite Hjson. reflexivity.
  - intros v df Hparse Hnew Hx. rewrite Hparse. simpl. rewrite Hnew. simpl.
    rewrite Hx. reflexivity.
  - intros v df Hparse Hnew Hx Hy. rewrite Hparse. simpl. rewrite Hnew. simpl.
    rewrite Hx, Hy. reflexivity.
  - intros e Hrun.
    match type of Hrun with try_except ?b _ = _ => destruct b as [r|e'] end;
      simpl in Hrun; [discriminate|].
    inversion Hrun. eexists. reflexivity.
Qed.

Lemma chart_data_of_records (chart_type x_column y_column : string) (chart_df : DataFrame) :
  existsb (String.eqb chart_type) ["bar"; "line"; "area"] = false ->
  Tools.chart_data_of chart_type x_column y_column chart_df = Return (to_records chart_df).
Proof.
  intros Hother. unfold Tools.chart_data_of. rewrite Hother.
  destruct (chart_type =? "scatter"); [reflexivity|].
  destruct (chart_type =? "pie"); reflexivity.
Qed.

(** X19: [create_chart] rejects no chart type.  For a type other than
    ['bar'], ['line'] and ['area'], known to the tool or not, it answers
    exactly as for ['scatter'], with the records of the two columns as
    data, under the type name it was given. *)
Theorem create_chart_type_fallback :
  forall (chart_type x_column y_column : string) (data : pyval),
    existsb (String.eqb chart_type) ["bar"; "line"; "area"] = false ->
    Tools.create_chart chart_type x_column y_column data
    = match Tools.create_chart "scatter" x_column y_column data with
      | Return (PyDict config) =>
          Return (PyDict (dict_set config "chart_type" (PyStr chart_type)))
      | other => other
      end.
Proof.
  intros chart_type x_column y_column data Hother. unfold Tools.create_chart.
  destruct (Tools.parse_data data) as [v|e]; simpl; [|reflexivity].
  destruct (DataFrame_new v) as [df|e]; simpl; [|reflexivity].
  destruct (negb (Tools.label_mem x_column (frame_columns df))); simpl; [reflexivity|].
  destruct (negb (Tools.label_mem y_column (frame_columns df))); simpl; [reflexivity|].
  destruct (select_columns df x_column y_column) as [chart_df|e]; simpl; [|reflexivity].
  rewrite (chart_data_of_records chart_type _ _ _ Hother). reflexivity.
Qed.

(** X20: what [create_chart] returns.  A returned value is a chart
    configuration for two columns that the frame built from the data
    has: the data, given as a value or as JSON text, made a frame [df]
    with both labels; the configuration holds the type, the two column
    names, the title [<y> by <x>], the length of [df] as [data_points]
    and the status ['success']; its data is the x-to-y dict for
    ['bar'], ['line'] and ['area'] and the records of the two columns
    otherwise. *)
Theorem create_chart_returns :
  forall (chart_type x_column y_column : string) (data r : pyval),
    Tools.create_chart chart_type x_column y_column data = Return r ->
    exists (v : pyval) (df chart_df : DataFrame) (chart_data : pyval),
      (data = v \/ exists text, data = PyStr text /\ json_loads text = Return v)
      /\ DataFrame_new v = Return df
      /\ Tools.label_mem x_column (frame_columns df) = true
      /\ Tools.label_mem y_column (frame_columns df) = true
      /\ select_columns df x_column y_column = Return chart_df
      /\ (if existsb (String.eqb chart_type) ["bar"; "line"; "area"]
          then indexed_dict chart_df x_column y_column = Return chart_data
          else chart_data = to_records chart_df)
      /\ r = PyDict [ ("render_type", PyStr "chart");
                      ("chart_type", PyStr chart_type);
                      ("data", chart_data);
                      ("x_column", PyStr x_column);
                      ("y_column", PyStr y_column);
                      ("title", PyStr (y_column ++ " by " ++ x_column));
                      ("data_points", PyInt (frame_len df));
                      ("status", PyStr "success") ].
Proof.
  intros chart_type x_column y_column data r Hrun. unfold Tools.create_chart in Hrun.
  destruct (Tools.parse_data data) as [v|e] eqn:Hparse; simpl in Hrun; [|discriminate].
  destruct (DataFrame_new v) as [df|e] eqn:Hnew; simpl in Hrun; [|discriminate].
  destruct (Tools.label_mem x_column (frame_columns df)) eqn:Hx; simpl in Hrun;
    [|discriminate].
  destruct (Tools.label_mem y_column (frame_columns df)) eqn:Hy; simpl in Hrun;
    [|discriminate].
  destruct (select_columns df x_column y_column) as [chart_df|e] eqn:Hselect;
    simpl in Hrun; [|discriminate].
  destruct (Tools.chart_data_of chart_type x_column y_column chart_df)
    as [chart_data|e] eqn:Hdata; simpl in Hrun; [|discriminate].
  inversion Hrun. subst r.
  exists v, df, chart_df, chart_data. split.
  - unfold Tools.parse_data in Hparse.
    destruct data; try (inversion Hparse; now left).
    right. now exists s.
  - repeat (split; [assumption|]). split; [|reflexivity].
    destruct (existsb (String.eqb chart_type) ["bar"; "line"; "area"]) eqn:Hkind.
    + unfold Tools.chart_data_of in Hdata. now rewrite Hkind in Hdata.
    + rewrite (chart_data_of_records _ _ _ _ Hkind) in Hdata. now inversion Hdata.
Qed.
End ToolProperties.

(** ** main_agent.py: what the loop executes and what it sends *)

Section ConversationProperties.
Context {env : Environment}.

Lemma requested_entry_more (self : MainAgent) (reqs more : list completion_request)
    (e : log_entry) :
  requested_entry self parse_arguments reqs e ->
  requested_entry self parse_arguments (reqs ++ more) e.
Proof.
  intros (req & response & tc & Hin & H). exists req, response, tc.
  split; [apply in_or_app; now left | exact H].
Qed.

(** A pass logs entries only for tool calls of the response to its
    request. *)
Lemma iteration_body_entries (self : MainAgent) (groq_tools : list pyval)
    (s s' : state) (o : option agent_result) :
  Forall (requested_entry self parse_arguments (model_requests (st_trace s)))
    (st_execution_log s) ->
  iteration_body self groq_tools s = (Return o, s') ->
  Forall (requested_entry self parse_arguments (model_requests (st_trace s')))
    (st_execution_log s').
Proof.
  intros Hinv Hbody.
  rewrite (iteration_body_requests _ _ _ _ _ Hbody).
  destruct (iteration_body_progress _ _ _ _ _ Hbody)
    as (done & unlogged & _ & Hlog & _ & _ & Hparsed & Hdone & _).
  rewrite Hlog. apply Forall_app. split.
  - eapply Forall_impl; [|exact Hinv]. intros e. apply requested_entry_more.
  - apply Forall_forall. intros e Hin. apply in_map_iff in Hin as (tc & <- & Htc).
    destruct Hdone as [->|(response & rest & Hcall & Hsplit)]; [contradiction|].
    exists (completion_kwargs self groq_tools (st_messages s)), response, tc.
    split; [apply in_or_app; right; now left|].
    split; [exact Hcall|]. split; [|split; [reflexivity|]].
    + rewrite Hsplit. apply in_or_app. now left.
    + rewrite Forall_forall in Hparsed. exact (Hparsed tc Htc).
Qed.

(** X21: the loop executes nothing that the model did not ask for:
    every entry of the execution log of a returned result stands for a
    tool call of a response that the model gave to a request of this
    run, with that call's tool name and with its arguments as the
    decoding of the call's arguments string returned them (the decoded
    value, or the empty map after a [JSONDecodeError]). *)
Theorem log_entries_were_requested :
  forall (self : MainAgent) (user_query : string) (r : agent_result) (tr : list event)
         (e : log_entry),
    process_query self user_query = Some (Return r, tr) ->
    In e (execution_log r) ->
    exists (req : completion_request) (response : response_message) (tc : tool_call),
      In req (model_requests tr)
      /\ chat_completions_create (client self) req = Return response
      /\ In tc (requested_tool_calls response)
      /\ tool e = function_name tc
      /\ parse_arguments (function_name tc) (function_arguments tc)
         = Return (arguments e).
Proof.
  intros self user_query r tr e Hrun Hin.
  destruct (process_query_returned _ _ _ _ Hrun)
    as (groq_tools & o & s' & Htools & Hloop & -> & Hlog & _).
  rewrite Hlog in Hin.
  assert (Forall (requested_entry self parse_arguments (model_requests (st_trace s')))
            (st_execution_log s')) as Hall.
  { apply (while_loop_invariant self groq_tools
             (fun st => Forall (requested_entry self parse_arguments
                                  (model_requests (st_trace st)))
                          (st_execution_log st))
             (fun _ st => Forall (requested_entry self parse_arguments
                                    (model_requests (st_trace st)))
                            (st_execution_log st)))
      with (fuel := max_iterations) (s := initial_state user_query) (o := o).
    - trivial.
    - intros st st' o' Hinv Hbody.
      pose proof (iteration_body_entries _ _ _ _ _ Hinv Hbody) as Hnext.
      destruct o'; exact Hnext.
    - constructor.
    - exact Hloop. }
  rewrite Forall_forall in Hall. exact (Hall e Hin).
Qed.

Lemma completes_serialises (self : MainAgent) (calls : list tool_call) :
  forall start : nat,
    forallb (completes self) (enumerate_from start calls) = true ->
    forallb (serialises self) calls = true.
Proof.
  induction calls as [|tc calls IH]; intros start Hall; [reflexivity|].
  cbn [enumerate_from forallb] in *. apply andb_true_iff in Hall as [Htc Hall].
  apply andb_true_iff. split; [|eapply IH; exact Hall].
  unfold completes, stops in Htc. unfold serialises.
  destruct (before_execution start tc); [|discriminate].
  destruct (print_tool_result (tool_result_of self tc)); [|discriminate].
  destruct (json_dumps (PyDict (tool_result_of self tc))); [reflexivity | discriminate].
Qed.

(** A pass that falls through has finished a turn. *)
Lemma iteration_body_falls_through (self : MainAgent) (groq_tools : list pyval)
    (s s' : state) :
  iteration_body self groq_tools s = (Return None, s') ->
  exists response : response_message,
    requested_tool_calls response <> []
    /\ forallb (serialises self) (requested_tool_calls response) = true
    /\ st_messages s'
       = (st_messages s ++ turn_messages (tool_message_of self) response)%list.
Proof.
  intros Hbody. rewrite iteration_body_eq in Hbody. cbv zeta in Hbody.
  set (req := completion_kwargs self groq_tools (st_messages s)) in *.
  destruct (print_iteration (S (st_iteration s))) as [[]|e0]; [|discriminate].
  destruct (chat_completions_create (client self) req) as [response|e0] eqn:Hcall.
  2:{ apply reported_returns in Hbody as [_ Hr]. discriminate. }
  destruct (requested_tool_calls response) as [|tc calls] eqn:Hcalls.
  - destruct (print_final_answer (content response)) as [[]|e0]; [discriminate|].
    apply reported_returns in Hbody as [_ Hr]. discriminate.
  - match type of Hbody with context [print ?t] => destruct (print t) as [[]|e0] end.
    2:{ apply reported_returns in Hbody as [_ Hr]. discriminate. }
    unfold enumerate in Hbody.
    destruct (turn_cases self (tc :: calls) 0)
      as [Hall|(pre & tc' & post & at_stage & e & Hsplit & Hpre & Hstop)].
    + rewrite (for_each_completes _ _ _ _ Hall) in Hbody. inversion Hbody.
      exists response. rewrite Hcalls. split; [discriminate|].
      split; [eapply completes_serialises; exact Hall|].
      unfold turn_messages. rewrite Hcalls. simpl. now rewrite <- app_assoc.
    + rewrite Hsplit in Hbody.
      rewrite (for_each_stops _ _ _ _ _ _ _ _ Hpre Hstop) in Hbody.
      apply reported_returns in Hbody as [_ Hr]. discriminate.
Qed.

(** X22: every request of a run that returns a result carries a
    conversation of finished turns only: the system message, the user's
    query, and then, for a list of responses that each asked for at
    least one tool, the response followed by one tool message for each
    of its tool calls, in order.  No request carries a tool call
    without its tool message, or a final answer. *)
Theorem requests_carry_finished_turns :
  forall (self : MainAgent) (user_query : string) (r : agent_result) (tr : list event)
         (req : completion_request),
    process_query self user_query = Some (Return r, tr) ->
    In req (model_requests tr) ->
    exists responses : list response_message,
      req_messages req
      = (RoleMsg "system" system_prompt :: RoleMsg "user" user_query
         :: flat_map (fun response =>
                        AssistantMsg response
                        :: map (tool_message_of self) (requested_tool_calls response))
              responses)
      /\ Forall (fun response =>
                   requested_tool_calls response <> []
                   /\ forallb (serialises self) (requested_tool_calls response) = true)
                responses.
Proof.
  intros self user_query r tr req Hrun Hin.
  destruct (process_query_returned _ _ _ _ Hrun)
    as (groq_tools & o & s' & Htools & Hloop & -> & _).
  pose (opening := [RoleMsg "system" system_prompt; RoleMsg "user" user_query]).
  pose (finished := finished_turns (tool_message_of self) (serialises self) opening).
  assert (Forall (fun req => finished (req_messages req)) (model_requests (st_trace s')))
    as Hall.
  { apply (while_loop_invariant self groq_tools
             (fun st => finished (st_messages st)
                        /\ Forall (fun req => finished (req_messages req))
                             (model_requests (st_trace st)))
             (fun _ st => Forall (fun req => finished (req_messages req))
                            (model_requests (st_trace st))))
      with (fuel := max_iterations) (s := initial_state user_query) (o := o).
    - intros st [_ H]. exact H.
    - intros st st' o' [Hmsgs Hinv] Hbody.
      assert (Forall (fun req => finished (req_messages req))
                (model_requests (st_trace st'))) as Hnext.
      { rewrite (iteration_body_requests _ _ _ _ _ Hbody).
        apply Forall_app. split; [exact Hinv|]. constructor; [exact Hmsgs | constructor]. }
      destruct o' as [r'|]; [exact Hnext|]. split; [|exact Hnext].
      destruct (iteration_body_falls_through _ _ _ _ Hbody)
        as (response & Hne & Hser & Hnew).
      destruct Hmsgs as (responses & Hold & Hok).
      exists (responses ++ [response])%list. split.
      + rewrite Hnew, Hold, flat_map_app. simpl. rewrite app_nil_r. reflexivity.
      + apply Forall_app. split; [exact Hok|]. constructor; [now split | constructor].
    - split; [|constructor]. exists []. split; [reflexivity | constructor].
    - exact Hloop. }
  rewrite Forall_forall in Hall. exact (Hall req Hin).
Qed.
End ConversationProperties.

(* ================================================================== *)
(** * More cases, run *)

Import Cases.

Lemma execute_tool_success_origin_witness :
  exists (info : tool_info) (kwargs : pydict),
    dict_get (tools registry) "explore_csv" = Some info
    /\ function info = Some explore_csv
    /\ kwargs = [ ("csv_name", PyStr "actuals.csv") ]
    /\ call explore_csv kwargs = Return actuals_summary.
Proof.
  destruct (execute_tool_success_origin registry "explore_csv"
              (PyDict [ ("csv_name", PyStr "actuals.csv") ])
              [ ("success", PyBool true); ("result", actuals_summary) ]
              (PyBool true) eq_refl eq_refl eq_refl)
    as (info & f & kwargs & v & Hinfo & Hfun & Hargs & Hcall & Hresult).
  inversion Hargs. subst kwargs. inversion Hresult. subst v.
  inversion Hinfo. subst info. simpl in Hfun. inversion Hfun. subst f.
  eexists. eexists. repeat split.
Defined.

Lemma execute_tool_unbound_witness :
  execute_tool unbound_registry "explore_csv" (PyDict [ ("csv_name", PyStr "actuals.csv") ])
  = Return [ ("success", PyBool false);
             ("error", PyStr "'function'");
             ("tool", PyStr "explore_csv");
             ("parameters", PyDict [ ("csv_name", PyStr "actuals.csv") ]) ].
Proof.
  exact (execute_tool_unbound unbound_registry "explore_csv" _
           (PyDict [ ("csv_name", PyStr "actuals.csv") ]) eq_refl eq_refl).
Defined.

Lemma execute_tool_not_a_mapping_witness :
  exists msg : string,
    execute_tool registry "explore_csv" (PyList [PyStr "actuals.csv"])
    = Return [ ("success", PyBool false);
               ("error", PyStr msg);
               ("tool", PyStr "explore_csv");
               ("parameters", PyList [PyStr "actuals.csv"]) ].
Proof.
  destruct (execute_tool_not_a_mapping registry "explore_csv" _ explore_csv
              (PyList [PyStr "actuals.csv"]) eq_refl eq_refl
              ltac:(intros kwargs; discriminate)) as (msg & Hexec & _).
  exists msg. exact Hexec.
Defined.

Lemma get_groq_tools_first_error_witness :
  get_groq_tools (agent blank_registry (scripted [])) = Raise (KeyError "parameters")
  /\ get_groq_tools (agent half_readable_registry (scripted []))
     = Raise (KeyError "description").
Proof.
  split.
  - exact (get_groq_tools_first_error (agent blank_registry (scripted [])) _ eq_refl).
  - exact (get_groq_tools_first_error (agent half_readable_registry (scripted [])) _ eq_refl).
Defined.

Lemma get_tool_descriptions_outcome_witness :
  get_tool_descriptions blank_registry = Raise (KeyError "description")
  /\ get_groq_tools (agent blank_registry (scripted [])) = Raise (KeyError "parameters").
Proof.
  split; [|reflexivity].
  exact (proj2 (get_tool_descriptions_outcome (agent blank_registry (scripted []))) _ eq_refl).
Defined.

Lemma get_tool_descriptions_complete_witness :
  exists text : string,
    get_tool_descriptions fixture_registry = Return text
    /\ occurs_in ("**extract_csv_data**: Extract filtered data from CSV" ++ nl
                  ++ "Parameters:" ++ nl) text
    /\ occurs_in ("  - filters: Filters to apply as JSON object" ++ nl) text.
Proof.
  assert (exists text, get_tool_descriptions fixture_registry = Return text) as [text Hrun]
    by (eexists; reflexivity).
  exists text. split; [exact Hrun|].
  destruct (get_tool_descriptions_complete fixture_registry text "extract_csv_data" _
              Hrun ltac:(simpl; right; left; reflexivity))
    as (desc & params & Hdesc & Hparams & Hhead & Hlines).
  inversion Hdesc. subst desc. inversion Hparams. subst params.
  split; [exact Hhead|].
  apply (Hlines "filters" "Filters to apply as JSON object"). simpl. auto.
Defined.

Lemma execution_log_is_audit_trail_witness :
  (exists (r : agent_result) (tr : list event),
      @process_query env agent_charts "Plot revenue by month." = Some (Return r, tr)
      /\ map (fun e => ToolExec (tool e) (arguments e)) (execution_log r) = tool_events tr
      /\ List.length (tool_events tr) = 2
      /\ execute_tool registry "create_chart" (PyDict (chart_kwargs "line"))
         = Return (result (chart_entry "line")))
  /\ exists (r : agent_result) (tr : list event) (name : string) (args : pyval)
            (tool_result : pydict) (e : exn),
       @process_query env agent_surrogate "Explore the file." = Some (Return r, tr)
       /\ execution_log r = []
       /\ tool_events tr = [ToolExec name args]
       /\ execute_tool registry name args = Return tool_result
       /\ @print_tool_result env tool_result = Raise e
       /\ answer r = Some ("Error occurred during processing: " ++ str_exn e).
Proof.
  split.
  - assert (exists r tr,
               @process_query env agent_charts "Plot revenue by month." = Some (Return r, tr)
               /\ List.length (tool_events tr) = 2
               /\ success r = true
               /\ In (chart_entry "line") (execution_log r))
      as (r & tr & Hrun & Hlen & Hsuccess & Hin).
    { vm_compute. do 2 eexists. split; [reflexivity|]. split; [reflexivity|].
      split; [reflexivity|]. auto. }
    destruct (@execution_log_is_audit_trail env agent_charts "Plot revenue by month."
                r tr Hrun) as [(unlogged & Htrail & Hnone & _) Hfaith].
    rewrite (Hnone Hsuccess), app_nil_r in Htrail.
    exists r, tr. split; [exact Hrun|]. split; [now rewrite Htrail|].
    split; [exact Hlen|]. exact (Hfaith (chart_entry "line") Hin).
  - assert (exists r tr,
               @process_query env agent_surrogate "Explore the file." = Some (Return r, tr)
               /\ execution_log r = []
               /\ List.length (tool_events tr) = 1)
      as (r & tr & Hrun & Hlog & Hlen).
    { vm_compute. do 2 eexists. repeat split. }
    destruct (@execution_log_is_audit_trail env agent_surrogate "Explore the file."
                r tr Hrun) as [(unlogged & Htrail & _ & Hgap) _].
    rewrite Hlog in Htrail. cbn [map app] in Htrail.
    destruct Hgap as [Hnone|(name & args & tool_result & e & Hone & Hexec & Hlines & _ & Hanswer)].
    + rewrite Htrail, Hnone in Hlen. discriminate.
    + exists r, tr, name, args, tool_result, e.
      split; [exact Hrun|]. split; [exact Hlog|]. split; [now rewrite Htrail|].
      split; [exact Hexec|]. split; [exact Hlines | exact Hanswer].
Defined.



Lemma chart_data_origin_witness :
  exists (r : agent_result) (tr : list event),
    @process_query env agent_charts "Plot revenue by month." = Some (Return r, tr)
    /\ success r = true
    /\ (chart_data r = Some PyNone
        \/ exists (e : log_entry) (info : tool_info) (f : pyfunc) (kwargs : pydict)
                  (v : pyval),
             In e (execution_log r)
             /\ tool e = "create_chart"
             /\ arguments e = PyDict kwargs
             /\ dict_get (tools registry) "create_chart" = Some info
             /\ function info = Some f
             /\ call f kwargs = Return v
             /\ chart_data r = Some v).
Proof.
  assert (exists r tr,
             @process_query env agent_charts "Plot revenue by month." = Some (Return r, tr)
             /\ success r = true)
    as (r & tr & Hrun & Hsuccess).
  { vm_compute. do 2 eexists. repeat split. }
  exists r, tr. split; [exact Hrun|]. split; [exact Hsuccess|].
  exact (@chart_data_origin env agent_charts "Plot revenue by month." r tr Hrun Hsuccess).
Defined.

Lemma interrupted_turn_witness :
  exists (r : agent_result) (s' : state) (e : exn),
    @iteration_body env agent_surrogate (map schema_of (tools registry))
      (@initial_state env "Explore the file.")
    = (Return (Some r), s')
    /\ answer r = Some ("Error occurred during processing: " ++ str_exn e)
    /\ success r = false
    /\ iterations r = 1
    /\ execution_log r = []
    /\ tool_events (st_trace s') = [@exec_event_of env surrogate_call]
    /\ List.length (st_messages s') = 3
    /\ @process_query env agent_surrogate "Explore the file." = Some (Return r, st_trace s').
Proof.
  assert (exists e, @print_tool_result env (@tool_result_of env agent_surrogate surrogate_call)
                    = Raise e) as [e Hlines]
    by (vm_compute; eexists; reflexivity).
  destruct (@interrupted_turn env agent_surrogate (map schema_of (tools registry))
              (@initial_state env "Explore the file.")
              (requests [surrogate_call]) [] surrogate_call [] true e
              eq_refl eq_refl eq_refl eq_refl eq_refl
              (ex_intro _ _ (ex_intro _ _ (conj eq_refl (conj eq_refl Hlines))))
              ltac:(vm_compute in Hlines; inversion Hlines; reflexivity)) as [Hbody _].
  do 3 eexists. split; [exact Hbody|].
  split; [reflexivity|]. split; [reflexivity|]. split; [reflexivity|].
  split; [reflexivity|]. split; [reflexivity|]. split; [reflexivity|].
  vm_compute in Hlines. inversion Hlines. reflexivity.
Defined.

Lemma failure_causes_witness :
  (exists (r : agent_result) (tr : list event) (e : exn)
          (earlier : list completion_request) (req : completion_request),
      @process_query env agent_chart_then_failure "Plot revenue by month."
      = Some (Return r, tr)
      /\ success r = false
      /\ List.length (execution_log r) = 1
      /\ answer r = Some ("Error occurred during processing: " ++ str_exn e)
      /\ model_requests tr = (earlier ++ [req])%list
      /\ chat_completions_create (client agent_chart_then_failure) req = Raise e)
  /\ exists (r : agent_result) (tr : list event) (e : exn)
            (earlier : list completion_request) (req : completion_request)
            (response : response_message) (index : nat) (tc : tool_call),
       @process_query env agent_interrupted "Load the actuals." = Some (Return r, tr)
       /\ success r = false
       /\ answer r = Some ("Error occurred during processing: " ++ str_exn e)
       /\ model_requests tr = (earlier ++ [req])%list
       /\ chat_completions_create (client agent_interrupted) req = Return response
       /\ nth_error (requested_tool_calls response) index = Some tc
       /\ (@before_execution env index tc = Raise e
           \/ @print_tool_result env (@tool_result_of env agent_interrupted tc) = Raise e
           \/ @json_dumps env (PyDict (@tool_result_of env agent_interrupted tc)) = Raise e).
Proof.
  split.
  - assert (exists r tr,
               @process_query env agent_chart_then_failure "Plot revenue by month."
               = Some (Return r, tr)
               /\ success r = false
               /\ answer r = Some "Error occurred during processing: API connection timeout"
               /\ List.length (execution_log r) = 1
               /\ forall req response,
                    In req (model_requests tr) ->
                    chat_completions_create (client agent_chart_then_failure) req
                    = Return response ->
                    requested_tool_calls response = [chart_call "call_1" "bar"])
      as (r & tr & Hrun & Hfail & Hanswer & Hlog & Hreqs).
    { vm_compute. do 2 eexists. split; [reflexivity|]. split; [reflexivity|].
      split; [reflexivity|]. split; [reflexivity|].
      intros req response [<-|[<-|[]]] Hcall; vm_compute in Hcall;
        [inversion Hcall; reflexivity | discriminate]. }
    destruct (@failure_causes env agent_chart_then_failure "Plot revenue by month."
                r tr Hrun Hfail)
      as [(Hlimit & _)|(e & earlier & req & Hr & Htr & Hcause)].
    + rewrite Hlimit in Hanswer. discriminate.
    + assert (chat_completions_create (client agent_chart_then_failure) req = Raise e)
        as Hcall.
      { destruct Hcause as [Hcall|(response & Hcall & Hcause)]; [exact Hcall|].
        exfalso.
        assert (In req (model_requests tr)) as Hin
          by (rewrite Htr; apply in_or_app; right; now left).
        pose proof (Hreqs req response Hin Hcall) as Hcalls.
        rewrite Hcalls in Hcause.
        destruct Hcause as [[Habs _]|[[_ Hcount]|(index & tc & Hnth & Hstop)]].
        - discriminate.
        - vm_compute in Hcount. discriminate.
        - destruct index as [|[|index]]; simpl in Hnth; try discriminate.
          inversion Hnth. subst tc.
          destruct Hstop as [Hstop|[Hstop|Hstop]]; vm_compute in Hstop; discriminate. }
      exists r, tr, e, earlier, req.
      split; [exact Hrun|]. split; [exact Hfail|]. split; [exact Hlog|].
      split; [now rewrite Hr|]. split; [exact Htr | exact Hcall].
  - assert (exists r tr,
               @process_query env agent_interrupted "Load the actuals." = Some (Return r, tr)
               /\ success r = false
               /\ iterations r = 1
               /\ forall req, In req (model_requests tr) ->
                    chat_completions_create (client agent_interrupted) req
                    = Return (requests [explore_call; frame_call; missing_file_call]))
      as (r & tr & Hrun & Hfail & Hit & Hreqs).
    { vm_compute. do 2 eexists. split; [reflexivity|]. split; [reflexivity|].
      split; [reflexivity|]. intros req [<-|[]]. reflexivity. }
    destruct (@failure_causes env agent_interrupted "Load the actuals." r tr Hrun Hfail)
      as [(Hlimit & _)|(e & earlier & req & Hr & Htr & Hcause)].
    + rewrite Hlimit in Hit. discriminate.
    + assert (In req (model_requests tr)) as Hin
        by (rewrite Htr; apply in_or_app; right; now left).
      pose proof (Hreqs req Hin) as Hcall.
      destruct Hcause as [Habs|(response & Hcall' & Hcause)];
        [rewrite Hcall in Habs; discriminate|].
      rewrite Hcall in Hcall'. inversion Hcall'. subst response.
      destruct Hcause as [[Habs _]|[[_ Hcount]|(index & tc & Hnth & Hstop)]].
      * discriminate.
      * vm_compute in Hcount. discriminate.
      * exists r, tr, e, earlier, req,
          (requests [explore_call; frame_call; missing_file_call]), index, tc.
        split; [exact Hrun|]. split; [exact Hfail|]. split; [now rewrite Hr|].
        split; [exact Htr|]. split; [exact Hcall|]. split; [exact Hnth | exact Hstop].
Defined.

Lemma unknown_tool_is_reported_witness :
  exists (s' : state) (entry : log_entry),
    @tool_call_body env agent_merge (0, merge_call) (@initial_state env "Compare the files.")
    = (Return tt, s')
    /\ st_execution_log s' = [entry]
    /\ tool entry = "merge_datasets"
    /\ dict_get (result entry) "error"
       = Some (PyStr "Tool 'merge_datasets' not found. Available tools: ['explore_csv', 'extract_csv_data', 'create_chart']")
    /\ List.length (st_messages s') = 3.
Proof.
  pose proof (@unknown_tool_is_reported env agent_merge 0 merge_call
                (@initial_state env "Compare the files.") _ _
                eq_refl eq_refl eq_refl eq_refl eq_refl) as Hbody.
  do 2 eexists. split; [exact Hbody|]. repeat split.
Defined.

(** The system prompt sends the model to [merge_datasets], a tool that
    [ToolRegistry.__init__] does not register. *)
Example system_prompt_names_merge_datasets :
  occurs_in "3. Use `merge_datasets` strictly" (@system_prompt env)
  /\ forall explore extract chart fixtures temp,
       dict_mem (tools (ToolRegistry_init explore extract chart fixtures temp))
         "merge_datasets" = false.
Proof.
  split; [|reflexivity].
  pose (n := match index 0 "3. Use `merge_datasets` strictly" (@system_prompt env) with
             | Some n => n
             | None => 0
             end).
  exists (substring 0 n (@system_prompt env)),
         (substring (n + 32) (String.length (@system_prompt env) - (n + 32))
            (@system_prompt env)).
  vm_compute. reflexivity.
Qed.

Lemma extract_csv_data_errors_witness :
  @Tools.extract_csv_data tools_env small_pandas registry "nonexistent.csv" (PyStr "{}")
  = Raise (Exception "Error extracting data from 'nonexistent.csv': [Errno 2] No such file or directory: 'fixtures/nonexistent.csv'")
  /\ @Tools.extract_csv_data tools_env small_pandas registry "actuals.csv"
       (PyStr "not valid json {{")
     = Raise (Exception "Error extracting data from 'actuals.csv': Invalid JSON in filters parameter: not valid json {{")
  /\ @Tools.extract_csv_data tools_env small_pandas registry "actuals.csv" (PyStr deep_args)
     = Raise (Exception "Error extracting data from 'actuals.csv': maximum recursion depth exceeded while decoding a JSON array from a unicode string")
  /\ @Tools.extract_csv_data tools_env small_pandas registry "actuals.csv" (PyList [])
     = Raise (Exception "Error extracting data from 'actuals.csv': 'list' object has no attribute 'items'").
Proof.
  split; [|split; [|split]].
  - destruct (@extract_csv_data_errors tools_env small_pandas registry "nonexistent.csv"
                (PyStr "{}")) as (Hfile & _).
    exact (Hfile _ eq_refl).
  - destruct (@extract_csv_data_errors tools_env small_pandas registry "actuals.csv"
                (PyStr "not valid json {{")) as (_ & Hjson & _).
    exact (Hjson actuals "not valid json {{" _ eq_refl eq_refl eq_refl).
  - destruct (@extract_csv_data_errors tools_env small_pandas registry "actuals.csv"
                (PyStr deep_args)) as (_ & _ & Hother & _).
    exact (Hother actuals deep_args _ eq_refl eq_refl eq_refl
             ltac:(intros msg; discriminate)).
  - destruct (@extract_csv_data_errors tools_env small_pandas registry "actuals.csv"
                (PyList [])) as (_ & _ & _ & Hitems & _).
    exact (Hitems actuals (PyList []) eq_refl eq_refl ltac:(intros d; discriminate)).
Defined.

Lemma extract_csv_data_unknown_column_witness :
  @Tools.extract_csv_data tools_env small_pandas registry "actuals.csv"
    (PyDict [ ("month", PyStr "2023-01"); ("entity", PyStr "Entity A");
              ("account_category", PyStr "Revenue") ])
  = Raise (Exception "Error extracting data from 'actuals.csv': Column 'entity' not found in actuals.csv. Available columns: ['month', 'account_category', 'amount']").
Proof.
  exact (@extract_csv_data_unknown_column tools_env small_pandas registry "actuals.csv"
           actuals _ [ ("month", PyStr "2023-01") ]
           [ ("account_category", PyStr "Revenue") ] "entity" (PyStr "Entity A")
           eq_refl eq_refl eq_refl).
Defined.

Lemma extract_csv_data_returns_witness :
  exists r : pyval,
    @Tools.extract_csv_data tools_env small_pandas registry "actuals.csv"
      (PyStr revenue_filters) = Return r
    /\ @Tools.extract_csv_data tools_env small_pandas registry "actuals.csv"
         (PyDict [ ("account_category", PyStr "Revenue") ]) = Return r
    /\ exists (config : pydict) (records : pyval),
         r = PyDict config
         /\ dict_get config "row_count" = Some (PyInt 2)
         /\ dict_get config "extracted_data" = Some records.
Proof.
  assert (exists r,
             @Tools.extract_csv_data tools_env small_pandas registry "actuals.csv"
               (PyStr revenue_filters) = Return r
             /\ exists config records,
                  r = PyDict config
                  /\ dict_get config "row_count" = Some (PyInt 2)
                  /\ dict_get config "extracted_data" = Some records)
    as (r & Hrun & Hshape).
  { vm_compute. eexists. split; [reflexivity|]. do 2 eexists. repeat split. }
  destruct (@extract_csv_data_returns tools_env small_pandas registry "actuals.csv"
              (PyStr revenue_filters) r Hrun)
    as (df & df' & items & _ & Hitems & _ & _ & _ & Hsame).
  destruct Hitems as [Habs|(text & Htext & Hjson)]; [discriminate|].
  inversion Htext. subst text. vm_compute in Hjson. inversion Hjson. subst items.
  exists r. split; [exact Hrun|]. split; [exact Hsame | exact Hshape].
Defined.

Lemma create_chart_errors_witness :
  @Tools.create_chart tools_env small_pandas "bar" "date" "revenue" (PyStr revenue_records)
  = Raise (Exception "Error creating chart: Column 'date' not found. Available: ['month', 'amount']")
  /\ @Tools.create_chart tools_env small_pandas "bar" "month" "revenue" (PyStr revenue_records)
     = Raise (Exception "Error creating chart: Column 'revenue' not found. Available: ['month', 'amount']")
  /\ @Tools.create_chart tools_env small_pandas "bar" "month" "amount" (PyStr "month,amount")
     = Raise (Exception "Error creating chart: Expecting value: line 1 column 1 (char 0)").
Proof.
  split; [|split].
  - destruct (@create_chart_errors tools_env small_pandas "bar" "date" "revenue"
                (PyStr revenue_records)) as (_ & Hx & _).
    exact (Hx _ _ eq_refl eq_refl eq_refl).
  - destruct (@create_chart_errors tools_env small_pandas "bar" "month" "revenue"
                (PyStr revenue_records)) as (_ & _ & Hy & _).
    exact (Hy _ _ eq_refl eq_refl eq_refl eq_refl).
  - destruct (@create_chart_errors tools_env small_pandas "bar" "month" "amount"
                (PyStr "month,amount")) as (Hjson & _).
    exact (Hjson "month,amount" _ eq_refl eq_refl).
Defined.

Lemma create_chart_type_fallback_witness :
  @Tools.create_chart tools_env small_pandas "histogram" "month" "amount"
    (PyStr revenue_records)
  = Return (PyDict [ ("render_type", PyStr "chart");
                     ("chart_type", PyStr "histogram");
                     ("data", PyList [ PyDict [ ("month", PyStr "2023-01");
                                                ("amount", PyInt 1000) ] ]);
                     ("x_column", PyStr "month");
                     ("y_column", PyStr "amount");
                     ("title", PyStr "amount by month");
                     ("data_points", PyInt 1);
                     ("status", PyStr "success") ]).
Proof.
  exact (@create_chart_type_fallback tools_env small_pandas "histogram" "month" "amount"
           (PyStr revenue_records) eq_refl).
Defined.

Lemma create_chart_returns_witness :
  exists (r chart_data : pyval),
    @Tools.create_chart tools_env small_pandas "bar" "month" "amount"
      (PyStr revenue_records) = Return r
    /\ chart_data = PyDict [ ("2023-01", PyInt 1000) ]
    /\ r = PyDict [ ("render_type", PyStr "chart");
                    ("chart_type", PyStr "bar");
                    ("data", chart_data);
                    ("x_column", PyStr "month");
                    ("y_column", PyStr "amount");
                    ("title", PyStr "amount by month");
                    ("data_points", PyInt 1);
                    ("status", PyStr "success") ].
Proof.
  assert (exists r,
             @Tools.create_chart tools_env small_pandas "bar" "month" "amount"
               (PyStr revenue_records) = Return r
             /\ exists config, r = PyDict config
                  /\ dict_get config "data" = Some (PyDict [ ("2023-01", PyInt 1000) ])
                  /\ dict_get config "data_points" = Some (PyInt 1))
    as (r & Hrun & config & Hr & Hdata & Hpoints).
  { vm_compute. eexists. split; [reflexivity|]. eexists. repeat split. }
  destruct (@create_chart_returns tools_env small_pandas "bar" "month" "amount"
              (PyStr revenue_records) r Hrun)
    as (v & df & chart_df & chart_data & _ & _ & _ & _ & _ & _ & Hshape).
  rewrite Hshape in Hr. inversion Hr. subst config.
  simpl in Hdata, Hpoints. inversion Hdata. inversion Hpoints.
  exists r, (PyDict [ ("2023-01", PyInt 1000) ]).
  split; [exact Hrun|]. split; [reflexivity|].
  rewrite Hshape. congruence.
Defined.

Lemma log_entries_were_requested_witness :
  exists (r : agent_result) (tr : list event) (req : completion_request)
         (response : response_message) (tc : tool_call),
    @process_query env agent_charts "Plot revenue by month." = Some (Return r, tr)
    /\ In (chart_entry "line") (execution_log r)
    /\ In req (model_requests tr)
    /\ chat_completions_create (client agent_charts) req = Return response
    /\ In tc (requested_tool_calls response)
    /\ function_name tc = "create_chart".
Proof.
  assert (exists r tr,
             @process_query env agent_charts "Plot revenue by month." = Some (Return r, tr)
             /\ In (chart_entry "line") (execution_log r))
    as (r & tr & Hrun & Hin).
  { vm_compute. do 2 eexists. split; [reflexivity|]. vm_compute. auto. }
  destruct (@log_entries_were_requested env agent_charts "Plot revenue by month."
              r tr (chart_entry "line") Hrun Hin)
    as (req & response & tc & Hreq & Hcall & Htc & Hname & _).
  exists r, tr, req, response, tc.
  split; [exact Hrun|]. split; [exact Hin|]. split; [exact Hreq|].
  split; [exact Hcall|]. split; [exact Htc|]. now rewrite <- Hname.
Defined.

Lemma requests_carry_finished_turns_witness :
  exists (r : agent_result) (tr : list event) (first second : completion_request)
         (responses : list response_message),
    @process_query env agent_a "What was June 2025 revenue?" = Some (Return r, tr)
    /\ model_requests tr = [first; second]
    /\ req_messages second
       = (RoleMsg "system" (@system_prompt env)
          :: RoleMsg "user" "What was June 2025 revenue?"
          :: flat_map (fun response =>
                         AssistantMsg response
                         :: map (@tool_message_of env agent_a)
                              (requested_tool_calls response))
               responses)
    /\ Forall (fun response => requested_tool_calls response <> []) responses.
Proof.
  assert (exists r tr first second,
             @process_query env agent_a "What was June 2025 revenue?" = Some (Return r, tr)
             /\ model_requests tr = [first; second])
    as (r & tr & first & second & Hrun & Hreqs).
  { vm_compute. do 4 eexists. repeat split. }
  destruct (@requests_carry_finished_turns env agent_a "What was June 2025 revenue?"
              r tr second Hrun)
    as (responses & Hmsgs & Hok).
  { rewrite Hreqs. simpl. auto. }
  exists r, tr, first, second, responses.
  split; [exact Hrun|]. split; [exact Hreqs|]. split; [exact Hmsgs|].
  eapply Forall_impl; [|exact Hok]. intros response [Hne _]. exact Hne.
Defined.
